(** * berryberry: multi-sensor acquisition and aggregation

    A shallow embedding of the Python sources
    (bmp280_simple.py, ens160_simple.py, sensor_collector.py,
    buzzer_control.py) and the properties of the acquisition pipeline.

    Conventions of the embedding.
    - Python [int] is unbounded, so it is [Z]; [>>], [<<], [&], [|] are
      [Z.shiftr], [Z.shiftl], [Z.land], [Z.lor] and [//] is [Z.div]
      (both floor).
    - Python [float] is an IEEE 754 binary64 number.  A float is carried
      by a rational [q] in lowest terms that stands for the double
      nearest to [q], [double_of q]: a quotient or a decimal written [q]
      is the double that a correctly rounded division or literal yields.
      Where the rounding can be observed ([round], [int], a sum or a
      product, [statistics.mean]) it is taken explicitly with
      [double_of].  An [int] divided by a float is converted first;
      the conversion is exact up to 2 ** 53 in magnitude, and the
      quotient written is the double computed within that bound.  NaN
      and the infinities are not represented.
    - A Python [dict] is an insertion-ordered association list.
    - A call that may raise returns a [pyres]; code that also mutates an
      object runs in the state-and-exception monad [M]. *)

From Stdlib Require Import ZArith QArith Qround Qreduction List String Bool Lia.
Import ListNotations.
Local Open Scope string_scope.
Local Open Scope list_scope.
Local Open Scope Z_scope.

(* ================================================================== *)
(** ** Python runtime: exceptions, values, dictionaries, numerics *)

Module Py.

Inductive exn : Type :=
| KeyError
| IndexError
| ZeroDivisionError
| OSError.

Inductive pyres (A : Type) : Type :=
| Ret (a : A)
| Raise (e : exn).
Arguments Ret {A} a.
Arguments Raise {A} e.

(** State-and-exception monad: the state reached when an exception is
    raised is kept, as mutations of a Python object are. *)
Definition M (S A : Type) : Type := S -> S * pyres A.

Definition ret {S A} (a : A) : M S A := fun s => (s, Ret a).
Definition raise {S A} (e : exn) : M S A := fun s => (s, Raise e).
Definition bind {S A B} (m : M S A) (k : A -> M S B) : M S B :=
  fun s => match m s with
           | (s', Ret a) => k a s'
           | (s', Raise e) => (s', Raise e)
           end.
Definition get {S} : M S S := fun s => (s, Ret s).
Definition put {S} (s : S) : M S unit := fun _ => (s, Ret tt).
Definition lift {S A} (r : pyres A) : M S A := fun s => (s, r).
(** [try: m  except Exception: h] *)
Definition try_except {S A} (m : M S A) (h : exn -> M S A) : M S A :=
  fun s => match m s with
           | (s', Ret a) => (s', Ret a)
           | (s', Raise e) => h e s'
           end.

Declare Scope py_scope.
Delimit Scope py_scope with py.
Notation "x <- m ;; k" := (bind m (fun x => k))
  (at level 61, m at next level, right associativity) : py_scope.
Notation "m ;; k" := (bind m (fun _ => k))
  (at level 61, right associativity) : py_scope.

(** [data[i]] on a list. *)
Definition index {A} (l : list A) (i : nat) : pyres A :=
  match nth_error l i with
  | Some a => Ret a
  | None => Raise IndexError
  end.

(** [a // b] on integers. *)
Definition floordiv (a b : Z) : pyres Z :=
  if b =? 0 then Raise ZeroDivisionError else Ret (a / b).

(** Values stored in the dictionaries of the collector. *)
Inductive value : Type :=
| VInt (z : Z)
| VFloat (q : Q)
| VNone
| VStr (s : string).

(** [isinstance(v, (int, float))] *)
Definition is_number (v : value) : bool :=
  match v with
  | VInt _ | VFloat _ => true
  | _ => false
  end.

Definition is_int (v : value) : bool :=
  match v with
  | VInt _ => true
  | _ => false
  end.

Definition to_Q (v : value) : Q :=
  match v with
  | VInt z => inject_Z z
  | VFloat q => q
  | _ => 0%Q
  end.

(** *** Insertion-ordered dictionaries *)

Definition dict (A : Type) : Type := list (string * A).

Fixpoint dget {A} (k : string) (d : dict A) : option A :=
  match d with
  | [] => None
  | (k', v) :: d' => if String.eqb k k' then Some v else dget k d'
  end.

Definition dmem {A} (k : string) (d : dict A) : bool :=
  match dget k d with
  | Some _ => true
  | None => false
  end.

(** [d[k] = v]: an existing key keeps its position. *)
Fixpoint dset {A} (k : string) (v : A) (d : dict A) : dict A :=
  match d with
  | [] => [(k, v)]
  | (k', v') :: d' =>
      if String.eqb k k' then (k', v) :: d' else (k', v') :: dset k v d'
  end.

(** [d.pop(k, None)] *)
Fixpoint dpop {A} (k : string) (d : dict A) : dict A :=
  match d with
  | [] => []
  | (k', v') :: d' =>
      if String.eqb k k' then d' else (k', v') :: dpop k d'
  end.

(** [d.get(k, default)] *)
Definition dget_default {A} (k : string) (default : A) (d : dict A) : A :=
  match dget k d with
  | Some v => v
  | None => default
  end.

(** A well-formed dictionary holds each key once. *)
Fixpoint unique_keys {A} (d : dict A) : bool :=
  match d with
  | [] => true
  | (k, _) :: d' => negb (dmem k d') && unique_keys d'
  end.

(** *** Numerics *)

(** Round half to even, the rule of Python's [round]. *)
Definition round_half_even (q : Q) : Z :=
  let f := Qfloor q in
  match Qcompare (q - inject_Z f) (1 # 2) with
  | Lt => f
  | Gt => f + 1
  | Eq => if Z.even f then f else f + 1
  end.

(** [2 ** e] for an exponent of either sign. *)
Definition pow2 (e : Z) : Q :=
  if 0 <=? e then inject_Z (2 ^ e) else 1 # Z.to_pos (2 ^ (- e)).

(** The binary64 number nearest to [q], ties to the even significand:
    a significand of 53 bits, and the fixed exponent [-1074] below the
    normal range. *)
Definition double_of (q : Q) : Q :=
  let q := Qred q in
  let a := (Z.abs (Qnum q) # Qden q)%Q in
  if Qnum q =? 0 then 0%Q else
  let e0 := Z.log2 (Z.abs (Qnum q)) - Z.log2 (Zpos (Qden q)) - 52 in
  let e1 := if Qle_bool (pow2 52) (a / pow2 e0) then e0 else e0 - 1 in
  let e := Z.max e1 (-1074) in
  let m := round_half_even (a / pow2 e) in
  Qred (inject_Z (Z.sgn (Qnum q) * m) * pow2 e).

(** [a + b], [a - b], [a * b] and [a / b] on floats. *)
Definition fadd (a b : Q) : Q := double_of (double_of a + double_of b).
Definition fsub (a b : Q) : Q := double_of (double_of a - double_of b).
Definition fmul (a b : Q) : Q := double_of (double_of a * double_of b).
Definition fdiv (a b : Q) : Q := double_of (double_of a / double_of b).

(** [round(q, 2)] on a float: the decimal nearest to the value of the
    double, ties to even. *)
Definition round2f (q : Q) : Q :=
  Qred (inject_Z (round_half_even (double_of q * 100)) / 100).

(** [round(v, 2)]: an [int] is returned unchanged. *)
Definition round2 (v : value) : value :=
  match v with
  | VFloat q => VFloat (round2f q)
  | _ => v
  end.

Definition Qsum (l : list Q) : Q := fold_right Qplus 0%Q l.

(** The exact value of a datum, as [statistics._exact_ratio] takes it. *)
Definition exact_of (v : value) : Q :=
  match v with
  | VInt z => inject_Z z
  | VFloat q => double_of q
  | _ => 0%Q
  end.

(** [statistics.mean(values)]: the exact sum of the data over their
    number, converted once; the result is an [int] only when every
    datum is an [int] and the mean is integral. *)
Definition mean (values : list value) : value :=
  let q := Qred (Qsum (map exact_of values) / inject_Z (Z.of_nat (List.length values))) in
  if forallb is_int values && (Qden q =? 1)%positive
  then VInt (Qnum q)
  else VFloat q.

(** [int(x)] on the value [x] of a double: truncation towards zero. *)
Definition int_of_float (q : Q) : Z := Z.quot (Qnum q) (Zpos (Qden q)).

End Py.

Import Py.
Local Open Scope py_scope.

(* ================================================================== *)
(** ** The I2C bus (smbus2.SMBus)

    The device side of the bus is a script: the outcome of each
    transaction to come, in order.  A transaction on an exhausted script
    is not acknowledged. *)

Module Bus.

Inductive txn : Type :=
| Ack (data : list Z)
| Nack.

Record SMBus : Type := mkSMBus {
  script : list txn;
  written : list (Z * Z * list Z)   (* address, register, bytes *)
}.

Definition read_i2c_block_data (address reg : Z) (n : nat) : M SMBus (list Z) :=
  fun bus =>
    match script bus with
    | Ack data :: rest => (mkSMBus rest (written bus), Ret data)
    | Nack :: rest => (mkSMBus rest (written bus), Raise OSError)
    | [] => (bus, Raise OSError)
    end.

Definition write_i2c_block_data (address reg : Z) (data : list Z) : M SMBus unit :=
  fun bus =>
    match script bus with
    | Ack _ :: rest =>
        (mkSMBus rest (written bus ++ [(address, reg, data)]), Ret tt)
    | Nack :: rest => (mkSMBus rest (written bus), Raise OSError)
    | [] => (bus, Raise OSError)
    end.

Definition read_byte_data (address reg : Z) : M SMBus Z :=
  fun bus =>
    match script bus with
    | Ack (b :: _) :: rest => (mkSMBus rest (written bus), Ret b)
    | Ack [] :: rest => (mkSMBus rest (written bus), Raise OSError)
    | Nack :: rest => (mkSMBus rest (written bus), Raise OSError)
    | [] => (bus, Raise OSError)
    end.

Definition write_byte_data (address reg value : Z) : M SMBus unit :=
  write_i2c_block_data address reg [value].

(** [write_byte]: a command byte without payload. *)
Definition write_byte (address value : Z) : M SMBus unit :=
  write_i2c_block_data address value [].

(** How a constructor ends: the object, or the exception that left it. *)
Inductive init_error : Type :=
| RuntimeError
| Propagated (e : exn).

Inductive built (A : Type) : Type :=
| Built (a : A)
| Failed (e : init_error).
Arguments Built {A} a.
Arguments Failed {A} e.

Definition modify {S} (f : S -> S) : M S unit := fun s => (f s, Ret tt).

(** A script whose acknowledged transactions deliver bytes. *)
Definition byteb (b : Z) : bool := (0 <=? b) && (b <? 256).

Definition wf_script (l : list txn) : bool :=
  forallb (fun t => match t with
                    | Ack d => forallb byteb d
                    | Nack => true
                    end) l.

(** [m] keeps [I], however it ends. *)
Definition keeps {S A} (I : S -> Prop) (m : M S A) : Prop :=
  forall s, I s -> I (fst (m s)).

(** [m] keeps [I] and returns only values satisfying [R]. *)
Definition yields {S A} (I : S -> Prop) (m : M S A) (R : A -> Prop) : Prop :=
  forall s, I s -> I (fst (m s)) /\ forall a, snd (m s) = Ret a -> R a.

End Bus.

(* ================================================================== *)
(** ** bmp280_simple.py *)

Module BMP280.
Import Bus.

Record SimpleBMP280 : Type := mkBMP280 {
  bus : SMBus;
  address : Z;
  t_fine : Z;
  dig_T1 : Z; dig_T2 : Z; dig_T3 : Z;
  dig_P1 : Z; dig_P2 : Z; dig_P3 : Z;
  dig_P4 : Z; dig_P5 : Z; dig_P6 : Z;
  dig_P7 : Z; dig_P8 : Z; dig_P9 : Z
}.

Definition set_bus (b : SMBus) (self : SimpleBMP280) : SimpleBMP280 :=
  mkBMP280 b (address self) (t_fine self)
    (dig_T1 self) (dig_T2 self) (dig_T3 self)
    (dig_P1 self) (dig_P2 self) (dig_P3 self)
    (dig_P4 self) (dig_P5 self) (dig_P6 self)
    (dig_P7 self) (dig_P8 self) (dig_P9 self).

Definition set_t_fine (t : Z) (self : SimpleBMP280) : SimpleBMP280 :=
  mkBMP280 (bus self) (address self) t
    (dig_T1 self) (dig_T2 self) (dig_T3 self)
    (dig_P1 self) (dig_P2 self) (dig_P3 self)
    (dig_P4 self) (dig_P5 self) (dig_P6 self)
    (dig_P7 self) (dig_P8 self) (dig_P9 self).

(** Run a bus transaction on [self.bus]. *)
Definition on_bus {A} (m : M SMBus A) : M SimpleBMP280 A :=
  fun self => let (b, r) := m (bus self) in (set_bus b self, r).

Definition _read_raw_data : M SimpleBMP280 (Z * Z) :=
  self <- get ;;
  data <- on_bus (read_i2c_block_data (address self) 0xF7 6) ;;
  d0 <- lift (index data 0) ;;
  d1 <- lift (index data 1) ;;
  d2 <- lift (index data 2) ;;
  let press_raw := Z.lor (Z.lor (Z.shiftl d0 12) (Z.shiftl d1 4)) (Z.shiftr d2 4) in
  d3 <- lift (index data 3) ;;
  d4 <- lift (index data 4) ;;
  d5 <- lift (index data 5) ;;
  let temp_raw := Z.lor (Z.lor (Z.shiftl d3 12) (Z.shiftl d4 4)) (Z.shiftr d5 4) in
  ret (temp_raw, press_raw).

Definition _compensate_temperature (temp_raw : Z) : M SimpleBMP280 Q :=
  self <- get ;;
  let var1 :=
    Z.shiftr ((Z.shiftr temp_raw 3 - Z.shiftl (dig_T1 self) 1) * dig_T2 self) 11 in
  let var2 :=
    Z.shiftr
      (Z.shiftr ((Z.shiftr temp_raw 4 - dig_T1 self)
                 * (Z.shiftr temp_raw 4 - dig_T1 self)) 12
       * dig_T3 self) 14 in
  put (set_t_fine (var1 + var2) self) ;;
  self <- get ;;
  let temperature := Z.shiftr (t_fine self * 5 + 128) 8 in
  ret (Qred (inject_Z temperature / 100)).

Definition _compensate_pressure (press_raw : Z) : M SimpleBMP280 (option Q) :=
  self <- get ;;
  let var1 := t_fine self - 128000 in
  let var2 := var1 * var1 * dig_P6 self in
  let var2 := var2 + Z.shiftl (var1 * dig_P5 self) 17 in
  let var2 := var2 + Z.shiftl (dig_P4 self) 35 in
  let var1 :=
    Z.shiftr (var1 * var1 * dig_P3 self) 8 + Z.shiftl (var1 * dig_P2 self) 12 in
  let var1 := Z.shiftr ((Z.shiftl 1 47 + var1) * dig_P1 self) 33 in
  if var1 =? 0 then ret None
  else
    let p := 1048576 - press_raw in
    p <- lift (floordiv ((Z.shiftl p 31 - var2) * 3125) var1) ;;
    let var1 := Z.shiftr (dig_P9 self * Z.shiftr p 13 * Z.shiftr p 13) 25 in
    let var2 := Z.shiftr (dig_P8 self * p) 19 in
    let p := Z.shiftr (p + var1 + var2) 8 + Z.shiftl (dig_P7 self) 4 in
    ret (Some (Qred (inject_Z p / 25600))).

(** The body of [read] inside its [try]. *)
Definition read_body : M SimpleBMP280 (option Q * option Q) :=
  raw <- _read_raw_data ;;
  let (temp_raw, press_raw) := raw in
  temperature <- _compensate_temperature temp_raw ;;
  pressure <- _compensate_pressure press_raw ;;
  match pressure with
  | None => ret (None, None)
  | Some pressure => ret (Some (round2f temperature), Some (round2f pressure))
  end.

Definition read : M SimpleBMP280 (option Q * option Q) :=
  try_except read_body (fun _ => ret (None, None)).

(** The first-stage divisor of the pressure compensation (the second
    [var1] of [_compensate_pressure]). *)
Definition first_stage_divisor (self : SimpleBMP280) : Z :=
  let var1 := t_fine self - 128000 in
  let var1 :=
    Z.shiftr (var1 * var1 * dig_P3 self) 8 + Z.shiftl (var1 * dig_P2 self) 12 in
  Z.shiftr ((Z.shiftl 1 47 + var1) * dig_P1 self) 33.

(** The integer result of the fixed-point pipeline, before the final
    conversion to a float. *)
Definition p_fixed (self : SimpleBMP280) (press_raw : Z) : Z :=
  let v := t_fine self - 128000 in
  let var2 :=
    v * v * dig_P6 self + Z.shiftl (v * dig_P5 self) 17
    + Z.shiftl (dig_P4 self) 35 in
  let p := ((Z.shiftl (1048576 - press_raw) 31 - var2) * 3125)
           / first_stage_divisor self in
  Z.shiftr (p + Z.shiftr (dig_P9 self * Z.shiftr p 13 * Z.shiftr p 13) 25
              + Z.shiftr (dig_P8 self * p) 19) 8
  + Z.shiftl (dig_P7 self) 4.

(** The temperature fine-value derived from a raw temperature. *)
Definition t_fine_of (self : SimpleBMP280) (temp_raw : Z) : Z :=
  Z.shiftr ((Z.shiftr temp_raw 3 - Z.shiftl (dig_T1 self) 1) * dig_T2 self) 11
  + Z.shiftr
      (Z.shiftr ((Z.shiftr temp_raw 4 - dig_T1 self)
                 * (Z.shiftr temp_raw 4 - dig_T1 self)) 12
       * dig_T3 self) 14.

(** The calibration and raw samples of the worked example of the
    sensor's datasheet. *)
Definition datasheet (b : SMBus) : SimpleBMP280 :=
  mkBMP280 b 0x76 0 27504 26435 (-1000)
    36477 (-10685) 3024 2855 140 (-7) 15500 (-14600) 6000.

(** The same table with a first pressure coefficient read as zero (a
    faulty part): the first-stage divisor is then zero. *)
Definition faulty (b : SMBus) : SimpleBMP280 :=
  mkBMP280 b 0x76 0 27504 26435 (-1000)
    0 (-10685) 3024 2855 140 (-7) 15500 (-14600) 6000.

(** The 6-byte burst carrying the datasheet's raw samples
    (pressure 415148, temperature 519888). *)
Definition burst : list Z := [0x65; 0x5A; 0xC0; 0x7E; 0xED; 0x00].

(** A burst whose pressure (raw sample 414799) is a tie at 2 decimals
    when taken exactly: 25782656 / 25600 = 1007.135. *)
Definition burst_tie : list Z := [0x65; 0x44; 0xF0; 0x7E; 0xED; 0x00].

(** *** Construction *)

Definition set_address (a : Z) (self : SimpleBMP280) : SimpleBMP280 :=
  mkBMP280 (bus self) a (t_fine self)
    (dig_T1 self) (dig_T2 self) (dig_T3 self)
    (dig_P1 self) (dig_P2 self) (dig_P3 self)
    (dig_P4 self) (dig_P5 self) (dig_P6 self)
    (dig_P7 self) (dig_P8 self) (dig_P9 self).

Definition set_dig_T1 (v : Z) (self : SimpleBMP280) : SimpleBMP280 :=
  mkBMP280 (bus self) (address self) (t_fine self)
    v (dig_T2 self) (dig_T3 self) (dig_P1 self) (dig_P2 self) (dig_P3 self)
    (dig_P4 self) (dig_P5 self) (dig_P6 self) (dig_P7 self) (dig_P8 self)
    (dig_P9 self).

Definition set_dig_T2 (v : Z) (self : SimpleBMP280) : SimpleBMP280 :=
  mkBMP280 (bus self) (address self) (t_fine self)
    (dig_T1 self) v (dig_T3 self) (dig_P1 self) (dig_P2 self) (dig_P3 self)
    (dig_P4 self) (dig_P5 self) (dig_P6 self) (dig_P7 self) (dig_P8 self)
    (dig_P9 self).

Definition set_dig_T3 (v : Z) (self : SimpleBMP280) : SimpleBMP280 :=
  mkBMP280 (bus self) (address self) (t_fine self)
    (dig_T1 self) (dig_T2 self) v (dig_P1 self) (dig_P2 self) (dig_P3 self)
    (dig_P4 self) (dig_P5 self) (dig_P6 self) (dig_P7 self) (dig_P8 self)
    (dig_P9 self).

Definition set_dig_P1 (v : Z) (self : SimpleBMP280) : SimpleBMP280 :=
  mkBMP280 (bus self) (address self) (t_fine self)
    (dig_T1 self) (dig_T2 self) (dig_T3 self) v (dig_P2 self) (dig_P3 self)
    (dig_P4 self) (dig_P5 self) (dig_P6 self) (dig_P7 self) (dig_P8 self)
    (dig_P9 self).

Definition set_dig_P2 (v : Z) (self : SimpleBMP280) : SimpleBMP280 :=
  mkBMP280 (bus self) (address self) (t_fine self)
    (dig_T1 self) (dig_T2 self) (dig_T3 self) (dig_P1 self) v (dig_P3 self)
    (dig_P4 self) (dig_P5 self) (dig_P6 self) (dig_P7 self) (dig_P8 self)
    (dig_P9 self).

Definition set_dig_P3 (v : Z) (self : SimpleBMP280) : SimpleBMP280 :=
  mkBMP280 (bus self) (address self) (t_fine self)
    (dig_T1 self) (dig_T2 self) (dig_T3 self) (dig_P1 self) (dig_P2 self) v
    (dig_P4 self) (dig_P5 self) (dig_P6 self) (dig_P7 self) (dig_P8 self)
    (dig_P9 self).

Definition set_dig_P4 (v : Z) (self : SimpleBMP280) : SimpleBMP280 :=
  mkBMP280 (bus self) (address self) (t_fine self)
    (dig_T1 self) (dig_T2 self) (dig_T3 self) (dig_P1 self) (dig_P2 self)
    (dig_P3 self) v (dig_P5 self) (dig_P6 self) (dig_P7 self) (dig_P8 self)
    (dig_P9 self).

Definition set_dig_P5 (v : Z) (self : SimpleBMP280) : SimpleBMP280 :=
  mkBMP280 (bus self) (address self) (t_fine self)
    (dig_T1 self) (dig_T2 self) (dig_T3 self) (dig_P1 self) (dig_P2 self)
    (dig_P3 self) (dig_P4 self) v (dig_P6 self) (dig_P7 self) (dig_P8 self)
    (dig_P9 self).

Definition set_dig_P6 (v : Z) (self : SimpleBMP280) : SimpleBMP280 :=
  mkBMP280 (bus self) (address self) (t_fine self)
    (dig_T1 self) (dig_T2 self) (dig_T3 self) (dig_P1 self) (dig_P2 self)
    (dig_P3 self) (dig_P4 self) (dig_P5 self) v (dig_P7 self) (dig_P8 self)
    (dig_P9 self).

Definition set_dig_P7 (v : Z) (self : SimpleBMP280) : SimpleBMP280 :=
  mkBMP280 (bus self) (address self) (t_fine self)
    (dig_T1 self) (dig_T2 self) (dig_T3 self) (dig_P1 self) (dig_P2 self)
    (dig_P3 self) (dig_P4 self) (dig_P5 self) (dig_P6 self) v (dig_P8 self)
    (dig_P9 self).

Definition set_dig_P8 (v : Z) (self : SimpleBMP280) : SimpleBMP280 :=
  mkBMP280 (bus self) (address self) (t_fine self)
    (dig_T1 self) (dig_T2 self) (dig_T3 self) (dig_P1 self) (dig_P2 self)
    (dig_P3 self) (dig_P4 self) (dig_P5 self) (dig_P6 self) (dig_P7 self) v
    (dig_P9 self).

Definition set_dig_P9 (v : Z) (self : SimpleBMP280) : SimpleBMP280 :=
  mkBMP280 (bus self) (address self) (t_fine self)
    (dig_T1 self) (dig_T2 self) (dig_T3 self) (dig_P1 self) (dig_P2 self)
    (dig_P3 self) (dig_P4 self) (dig_P5 self) (dig_P6 self) (dig_P7 self)
    (dig_P8 self) v.

Definition _read_unsigned_short (reg : Z) : M SimpleBMP280 Z :=
  self <- get ;;
  data <- on_bus (read_i2c_block_data (address self) reg 2) ;;
  d0 <- lift (index data 0) ;;
  d1 <- lift (index data 1) ;;
  ret (d0 + Z.shiftl d1 8).

Definition _read_signed_short (reg : Z) : M SimpleBMP280 Z :=
  self <- get ;;
  data <- on_bus (read_i2c_block_data (address self) reg 2) ;;
  d0 <- lift (index data 0) ;;
  d1 <- lift (index data 1) ;;
  let value := d0 + Z.shiftl d1 8 in
  if 32767 <? value then ret (value - 65536) else ret value.

Definition _read_calibration : M SimpleBMP280 unit :=
  v <- _read_unsigned_short 0x88 ;; modify (set_dig_T1 v) ;;
  v <- _read_signed_short 0x8A ;; modify (set_dig_T2 v) ;;
  v <- _read_signed_short 0x8C ;; modify (set_dig_T3 v) ;;
  v <- _read_unsigned_short 0x8E ;; modify (set_dig_P1 v) ;;
  v <- _read_signed_short 0x90 ;; modify (set_dig_P2 v) ;;
  v <- _read_signed_short 0x92 ;; modify (set_dig_P3 v) ;;
  v <- _read_signed_short 0x94 ;; modify (set_dig_P4 v) ;;
  v <- _read_signed_short 0x96 ;; modify (set_dig_P5 v) ;;
  v <- _read_signed_short 0x98 ;; modify (set_dig_P6 v) ;;
  v <- _read_signed_short 0x9A ;; modify (set_dig_P7 v) ;;
  v <- _read_signed_short 0x9C ;; modify (set_dig_P8 v) ;;
  v <- _read_signed_short 0x9E ;; modify (set_dig_P9 v) ;;
  ret tt.

Definition _configure : M SimpleBMP280 unit :=
  self <- get ;;
  on_bus (write_byte_data (address self) 0xF4 0x67) ;;
  on_bus (write_byte_data (address self) 0xF5 0x10).

(** The [try] block of [__init__]: [true] when a chip identity 0x58 was
    read, [false] where the source raises "invalid chip ID". *)
Definition detect : M SimpleBMP280 bool :=
  self <- get ;;
  chip_id <- on_bus (read_byte_data (address self) 0xD0) ;;
  if chip_id =? 0x58 then ret true
  else
    modify (set_address 0x77) ;;
    self <- get ;;
    chip_id <- on_bus (read_byte_data (address self) 0xD0) ;;
    if negb (chip_id =? 0x58) then ret false else ret true.

(** [SimpleBMP280(address=...)] on a bus: every exception of the
    detection becomes a [RuntimeError]; those of the calibration read
    and of the configuration leave the constructor as they are. *)
Definition __init__ (b : SMBus) (address : Z) : SimpleBMP280 * built unit :=
  let self := mkBMP280 b address 0 0 0 0 0 0 0 0 0 0 0 0 0 in
  match detect self with
  | (self, Ret true) =>
      match (_read_calibration ;; _configure) self with
      | (self, Ret _) => (self, Built tt)
      | (self, Raise e) => (self, Failed (Propagated e))
      end
  | (self, _) => (self, Failed RuntimeError)
  end.

(** A byte as the bus delivers it. *)
Definition is_byte (b : Z) : Prop := 0 <= b < 256.

Definition unsigned16 (v : Z) : Prop := 0 <= v < 65536.
Definition signed16 (v : Z) : Prop := -32768 <= v < 32768.

(** Every coefficient lies in the range of its 16-bit type. *)
Definition cal_ranges (self : SimpleBMP280) : Prop :=
  unsigned16 (dig_T1 self) /\ signed16 (dig_T2 self)
  /\ signed16 (dig_T3 self) /\ unsigned16 (dig_P1 self)
  /\ signed16 (dig_P2 self) /\ signed16 (dig_P3 self)
  /\ signed16 (dig_P4 self) /\ signed16 (dig_P5 self)
  /\ signed16 (dig_P6 self) /\ signed16 (dig_P7 self)
  /\ signed16 (dig_P8 self) /\ signed16 (dig_P9 self).

(** What construction keeps: the address, the write log, a zero fine
    temperature, a byte-valued script, coefficients in range. *)
Definition under_construction (a : Z) (log : list (Z * Z * list Z))
    (self : SimpleBMP280) : Prop :=
  address self = a /\ written (bus self) = log /\ t_fine self = 0
  /\ wf_script (script (bus self)) = true /\ cal_ranges self.

(** A part at 0x76 that identifies itself and delivers the datasheet's
    table, then acknowledges the two configuration writes. *)
Definition boot_script : list txn :=
  [Ack [0x58];
   Ack [0x70; 0x6B]; Ack [0x43; 0x67]; Ack [0x18; 0xFC];
   Ack [0x7D; 0x8E]; Ack [0x43; 0xD6]; Ack [0xD0; 0x0B];
   Ack [0x27; 0x0B]; Ack [0x8C; 0x00]; Ack [0xF9; 0xFF];
   Ack [0x8C; 0x3C]; Ack [0xF8; 0xC6]; Ack [0x70; 0x17];
   Ack []; Ack []].

End BMP280.

(* ================================================================== *)
(** ** ens160_simple.py *)

Module ENS160.
Import Bus.

Record SimpleENS160 : Type := mkENS160 {
  bus : SMBus;
  address : Z
}.

Definition on_bus {A} (m : M SMBus A) : M SimpleENS160 A :=
  fun self => let (b, r) := m (bus self) in (mkENS160 b (address self), r).

Definition _write_word (reg value : Z) : M SimpleENS160 unit :=
  self <- get ;;
  let low := Z.land value 0xFF in
  let high := Z.land (Z.shiftr value 8) 0xFF in
  on_bus (write_i2c_block_data (address self) reg [low; high]).

Definition set_environment (temperature humidity : Q) : M SimpleENS160 bool :=
  try_except
    (let temp_k := int_of_float (fmul (fadd temperature 273.15) 64) in
     _write_word 0x13 temp_k ;;
     let rh_fraction := int_of_float (fmul (fdiv humidity 100) 512) in
     _write_word 0x15 rh_fraction ;;
     ret true)
    (fun _ => ret false).

(** The one-decimal number [n / 10], as the humidity/temperature driver
    returns them. *)
Definition tenths (n : Z) : Q := inject_Z n / 10.

(** [lo <= x < hi] *)
Definition within (lo hi x : Q) : bool :=
  Qle_bool lo x && negb (Qle_bool hi x).

(** What [read] returns on success. *)
Record air_quality : Type := mkAir {
  aqi : Z; aqi_desc : Z; tvoc_ppb : Z; eco2_ppm : Z
}.

Definition read : M SimpleENS160 (option air_quality) :=
  try_except
    (self <- get ;;
     aqi <- on_bus (read_byte_data (address self) 0x21) ;;
     tvoc_data <- on_bus (read_i2c_block_data (address self) 0x22 2) ;;
     t0 <- lift (index tvoc_data 0) ;;
     t1 <- lift (index tvoc_data 1) ;;
     let tvoc := t0 + Z.shiftl t1 8 in
     eco2_data <- on_bus (read_i2c_block_data (address self) 0x24 2) ;;
     e0 <- lift (index eco2_data 0) ;;
     e1 <- lift (index eco2_data 1) ;;
     let eco2 := e0 + Z.shiftl e1 8 in
     let aqi_desc_num := aqi in
     ret (Some (mkAir aqi aqi_desc_num tvoc eco2)))
    (fun _ => ret None).

(** The [try] block of [__init__]: [true] when the part identity is
    0x0160, [false] where the source raises "invalid part ID". *)
Definition detect : M SimpleENS160 bool :=
  self <- get ;;
  data <- on_bus (read_i2c_block_data (address self) 0x00 2) ;;
  d0 <- lift (index data 0) ;;
  d1 <- lift (index data 1) ;;
  let part_id := d0 + Z.shiftl d1 8 in
  if part_id =? 0x0160 then ret true else ret false.

Definition __init__ (b : SMBus) (address : Z) : SimpleENS160 * built unit :=
  let self := mkENS160 b address in
  match detect self with
  | (self, Ret true) =>
      match (on_bus (write_byte_data address 0x10 0xF0) ;;
             on_bus (write_byte_data address 0x10 0x02)) self with
      | (self, Ret _) => (self, Built tt)
      | (self, Raise e) => (self, Failed (Propagated e))
      end
  | (self, _) => (self, Failed RuntimeError)
  end.

(** The word a little-endian byte pair stands for. *)
Definition word_of (bytes : list Z) : option Z :=
  match bytes with
  | [low; high] => Some (low + Z.shiftl high 8)
  | _ => None
  end.

End ENS160.

(* ================================================================== *)
(** ** aht21_simple.py *)

Module AHT21.
Import Bus.

Record AHT21_Reliable : Type := mkAHT21 {
  bus : SMBus;
  address : Z
}.

Definition on_bus {A} (m : M SMBus A) : M AHT21_Reliable A :=
  fun self => let (b, r) := m (bus self) in (mkAHT21 b (address self), r).

(** [round(q, 1)] on a float. *)
Definition round1f (q : Q) : Q :=
  Qred (inject_Z (round_half_even (q * 10)) / 10).

Definition humidity_of (humidity_raw : Z) : Q :=
  (inject_Z humidity_raw / 1048576 * 100)%Q.

Definition temperature_of (temperature_raw : Z) : Q :=
  (inject_Z temperature_raw / 1048576 * 200 - 50)%Q.

Definition read_body : M AHT21_Reliable (option Q * option Q) :=
  self <- get ;;
  on_bus (write_i2c_block_data (address self) 0xAC [0x33; 0x00]) ;;
  data <- on_bus (read_i2c_block_data (address self) 0 6) ;;
  d1 <- lift (index data 1) ;;
  d2 <- lift (index data 2) ;;
  d3 <- lift (index data 3) ;;
  let humidity_raw :=
    Z.lor (Z.lor (Z.shiftl d1 12) (Z.shiftl d2 4)) (Z.shiftr d3 4) in
  let humidity := humidity_of humidity_raw in
  d4 <- lift (index data 4) ;;
  d5 <- lift (index data 5) ;;
  let temperature_raw :=
    Z.lor (Z.lor (Z.shiftl (Z.land d3 0x0F) 16) (Z.shiftl d4 8)) d5 in
  let temperature := temperature_of temperature_raw in
  if (Qle_bool 0 humidity && Qle_bool humidity 100)
     && (Qle_bool (-40) temperature && Qle_bool temperature 85)
  then ret (Some (round1f humidity), Some (round1f temperature))
  else ret (None, None).

Definition read : M AHT21_Reliable (option Q * option Q) :=
  try_except read_body (fun _ => ret (None, None)).

(** [AHT21_Reliable()] on a bus: soft reset, then the mode write. *)
Definition __init__ (b : SMBus) (address : Z) : AHT21_Reliable * built unit :=
  let self := mkAHT21 b address in
  match (on_bus (write_byte address 0xBA) ;;
         on_bus (write_i2c_block_data address 0xBE [0x08; 0x00])) self with
  | (self, Ret _) => (self, Built tt)
  | (self, Raise _) => (self, Failed RuntimeError)
  end.

End AHT21.

(* ================================================================== *)
(** ** sensor_collector.py *)

Module Collector.

(** What [ens160.read()] and [mq2.read()] return on success. *)
Record ens_data : Type := mkEns {
  aqi : Z; aqi_desc : Z; tvoc_ppb : Z; eco2_ppm : Z
}.

Record mq2_data : Type := mkMq2 {
  adc : Z; voltage : Q; status : Z
}.

(** One acquisition cycle as seen from the collector: what each driver's
    [read()] does when it is called, and the clock. *)
Record cycle : Type := mkCycle {
  aht21_read : pyres (option Q * option Q);    (* humidity, temperature *)
  bmp280_read : pyres (option Q * option Q);   (* temperature, pressure *)
  ens160_read : pyres (option ens_data);
  mq2_read : pyres (option mq2_data);
  clock : Q                                    (* time.time() *)
}.

(** One boolean per sensor kind: membership in [self.sensors], or an
    entry of [self.init_success]. *)
Record flags : Type := mkFlags {
  bmp280 : bool; mq2 : bool; ens160 : bool; aht21 : bool
}.

Record SensorCollector : Type := mkCollector {
  sensors : flags;
  reading_count : Z;
  initialized : bool;
  init_success : flags
}.

Definition reading : Type := dict value.

(** [self.sensors[name].read()] *)
Definition sensor_read {A} (present : bool) (outcome : pyres A) : pyres A :=
  if present then outcome else Raise KeyError.

Definition is_empty {A} (d : list A) : bool :=
  match d with
  | [] => true
  | _ => false
  end.

Definition categorical (key : string) : bool :=
  (key =? "aqi")%string || (key =? "mq2_status")%string
  || (key =? "temperature_source")%string.

Section WithPow.

(** [x ** y] on floats. *)
Variable float_pow : Q -> Q -> Q.

Definition calculate_altitude (pressure_hpa sea_level_pressure : Q) : Q :=
  if Qle_bool (double_of pressure_hpa) 0 then 0%Q
  else if Qeq_bool (double_of sea_level_pressure) 0 then 0%Q
  else round2f
         (fmul 44330
            (fsub 1 (float_pow (fdiv pressure_hpa sea_level_pressure) 0.1903))).

Definition poll_aht21 (self : SensorCollector) (w : cycle) (data : reading) : reading :=
  if aht21 (init_success self) then
    match sensor_read (aht21 (sensors self)) (aht21_read w) with
    | Ret (Some humidity, Some temperature) =>
        let data := dset "temperature_aht" (VFloat temperature) data in
        dset "humidity" (VFloat humidity) data
    | _ => data
    end
  else data.

Definition poll_bmp280 (self : SensorCollector) (w : cycle) (data : reading) : reading :=
  if bmp280 (init_success self) then
    match sensor_read (bmp280 (sensors self)) (bmp280_read w) with
    | Ret (Some temp_bmp, Some pressure) =>
        let data := dset "temperature_bmp" (VFloat temp_bmp) data in
        let data := dset "pressure" (VFloat pressure) data in
        let altitude := calculate_altitude pressure 1013.25 in
        dset "altitude" (VFloat altitude) data
    | _ => data
    end
  else data.

Definition poll_ens160 (self : SensorCollector) (w : cycle) (data : reading) : reading :=
  if ens160 (init_success self) then
    match sensor_read (ens160 (sensors self)) (ens160_read w) with
    | Ret (Some ens) =>
        let data := dset "aqi" (VInt (aqi ens)) data in
        let data := dset "tvoc" (VInt (tvoc_ppb ens)) data in
        dset "eco2" (VInt (eco2_ppm ens)) data
    | _ => data
    end
  else data.

Definition poll_mq2 (self : SensorCollector) (w : cycle) (data : reading) : reading :=
  if mq2 (init_success self) then
    match sensor_read (mq2 (sensors self)) (mq2_read w) with
    | Ret (Some m) =>
        let data := dset "mq2_adc" (VInt (adc m)) data in
        let data := dset "mq2_voltage" (VFloat (voltage m)) data in
        dset "mq2_status" (VInt (status m)) data
    | _ => data
    end
  else data.

(** The dictionary built by the four polls of one cycle. *)
Definition polled (self : SensorCollector) (w : cycle) : reading :=
  poll_mq2 self w
    (poll_ens160 self w (poll_bmp280 self w (poll_aht21 self w []))).

(** The record a successful single-shot read returns. *)
Definition finish (self : SensorCollector) (w : cycle) (data : reading) : reading :=
  let data := dset "timestamp" (VFloat (clock w)) data in
  let data := dset "reading_count" (VInt (reading_count self)) data in
  let data :=
    match dget "temperature_aht" data, dget "temperature_bmp" data with
    | Some t, _ =>
        dset "temperature_source" (VInt 0) (dset "temperature" t data)
    | None, Some t =>
        dset "temperature_source" (VInt 1) (dset "temperature" t data)
    | None, None => data
    end in
  let data := dpop "temperature_aht" data in
  let data := dpop "temperature_bmp" data in
  dset "data_source" (VInt 0) data.

Definition set_reading_count (n : Z) (self : SensorCollector) : SensorCollector :=
  mkCollector (sensors self) n (initialized self) (init_success self).

Definition read_single_measurement (w : cycle) : M SensorCollector (option reading) :=
  self <- get ;;
  let data := [] in
  let data := poll_aht21 self w data in
  let data := poll_bmp280 self w data in
  let data := poll_ens160 self w data in
  let data := poll_mq2 self w data in
  if negb (is_empty data) then
    let data := dset "timestamp" (VFloat (clock w)) data in
    let data := dset "reading_count" (VInt (reading_count self)) data in
    put (set_reading_count (reading_count self + 1) self) ;;
    let data :=
      match dget "temperature_aht" data, dget "temperature_bmp" data with
      | Some t, _ =>
          dset "temperature_source" (VInt 0) (dset "temperature" t data)
      | None, Some t =>
          dset "temperature_source" (VInt 1) (dset "temperature" t data)
      | None, None => data
      end in
    let data := dpop "temperature_aht" data in
    let data := dpop "temperature_bmp" data in
    let data := dset "data_source" (VInt 0) data in
    ret (Some data)
  else ret None.

(** The inner loop of [_calculate_averages]:
    [for key, value in reading.items()]. *)
Definition collect_fields (numeric_fields : dict (list value)) (r : reading)
  : dict (list value) :=
  fold_left
    (fun nf kv =>
       let '(key, value) := kv in
       if is_number value
       then dset key (dget_default key [] nf ++ [value]) nf
       else nf)
    r numeric_fields.

(** The body of [for key, values in numeric_fields.items()]. *)
Definition reduce_field (last_reading : reading) (result : dict value)
    (kv : string * list value) : dict value :=
  let '(key, values) := kv in
  if (0 <? List.length values)%nat then
    if categorical key
    then dset key (dget_default key (VInt 0) last_reading) result
    else dset key (round2 (mean values)) result
  else result.

Definition _calculate_averages (readings : list reading) (now : Q) : dict value :=
  match readings with
  | [] => []
  | _ =>
      let result :=
        [("timestamp", VFloat now);
         ("samples_count", VInt (Z.of_nat (List.length readings)));
         ("data_source", VInt 1)] in
      let last_reading := last readings [] in
      let numeric_fields := fold_left collect_fields readings [] in
      let result := fold_left (reduce_field last_reading) numeric_fields result in
      match dget "pressure" result with
      | Some p =>
          dset "altitude" (VFloat (calculate_altitude (to_Q p) 1013.25)) result
      | None => result
      end
  end.

(** The loop of [collect_multiple_readings] over cycles [i, i+1, ...]:
    every cycle is one [read_single_measurement] inside a [try]. *)
Fixpoint window (cycles : list cycle) (all_readings : list reading)
  : M SensorCollector (list reading) :=
  match cycles with
  | [] => ret all_readings
  | w :: rest =>
      data <- try_except (read_single_measurement w) (fun _ => ret None) ;;
      match data with
      | Some data => window rest (all_readings ++ [data])
      | None => window rest all_readings
      end
  end.

(** [world i] is the [i]-th cycle; [now] is the clock after the loop. *)
Definition collect_multiple_readings (num_readings : nat) (world : nat -> cycle)
    (now : Q) : M SensorCollector (dict value) :=
  all_readings <- window (map world (seq 0 num_readings)) [] ;;
  if is_empty all_readings then
    ret [("error_code", VInt 1); ("timestamp", VFloat now);
         ("samples_count", VInt 0)]
  else ret (_calculate_averages all_readings now).

End WithPow.

(** The numeric value a reading holds for [key], if any. *)
Definition numeric_at (key : string) (r : reading) : list value :=
  match dget key r with
  | Some v => if is_number v then [v] else []
  | None => []
  end.

(** [numeric_fields] stays well formed and never holds an empty list. *)
Definition fields_ok (nf : dict (list value)) : Prop :=
  unique_keys nf = true /\ forall k l, dget k nf = Some l -> l <> [].

(** The reduced value of one field. *)
Definition reduced (last_reading : reading) (key : string) (values : list value)
  : value :=
  if categorical key
  then dget_default key (VInt 0) last_reading
  else round2 (mean values).

(** The record before the altitude is recomputed. *)
Definition reduced_fields (readings : list reading) (now : Q) : dict value :=
  fold_left (reduce_field (last readings []))
    (fold_left collect_fields readings [])
    [("timestamp", VFloat now);
     ("samples_count", VInt (Z.of_nat (List.length readings)));
     ("data_source", VInt 1)].

(** What the readings of a window have in common. *)
Definition single_shot (r : reading) : Prop :=
  unique_keys r = true /\ dget "data_source" r = Some (VInt 0).

(** The record before the temporary keys are removed. *)
Definition sourced (self : SensorCollector) (w : cycle) (data : reading) : reading :=
  let data := dset "timestamp" (VFloat (clock w)) data in
  let data := dset "reading_count" (VInt (reading_count self)) data in
  match dget "temperature_aht" data, dget "temperature_bmp" data with
  | Some t, _ =>
      dset "temperature_source" (VInt 0) (dset "temperature" t data)
  | None, Some t =>
      dset "temperature_source" (VInt 1) (dset "temperature" t data)
  | None, None => data
  end.

(** What every reading of a window lacks. *)
Definition plain (r : reading) : Prop :=
  unique_keys r = true /\ dget "samples_count" r = None
  /\ dget "error_code" r = None.

(** What a reading looks like when only the humidity/temperature driver
    of the two environment drivers contributed. *)
Definition humidity_only (r : reading) : Prop :=
  unique_keys r = true /\ dget "pressure" r = None /\ dget "altitude" r = None
  /\ dget "temperature_source" r = Some (VInt 0)
  /\ (exists h, dget "humidity" r = Some (VFloat h))
  /\ (exists t, dget "temperature" r = Some (VFloat t)).

(** The record returned for a window without any reading. *)
Definition empty_window (now : Q) : dict value :=
  [("error_code", VInt 1); ("timestamp", VFloat now);
   ("samples_count", VInt 0)].

(** The numeric values of field [key] across a window, in order. *)
Definition field_values (key : string) (readings : list reading) : list value :=
  flat_map
    (fun r => match dget key r with
              | Some v => if is_number v then [v] else []
              | None => []
              end)
    readings.

(** A driver contributes fields to a cycle when it was initialised, is
    still registered, and its [read()] returns data. *)
Definition aht21_contributes (self : SensorCollector) (w : cycle) : bool :=
  aht21 (init_success self) && aht21 (sensors self)
  && match aht21_read w with
     | Ret (Some _, Some _) => true
     | _ => false
     end.

Definition bmp280_contributes (self : SensorCollector) (w : cycle) : bool :=
  bmp280 (init_success self) && bmp280 (sensors self)
  && match bmp280_read w with
     | Ret (Some _, Some _) => true
     | _ => false
     end.

Definition ens160_contributes (self : SensorCollector) (w : cycle) : bool :=
  ens160 (init_success self) && ens160 (sensors self)
  && match ens160_read w with
     | Ret (Some _) => true
     | _ => false
     end.

Definition mq2_contributes (self : SensorCollector) (w : cycle) : bool :=
  mq2 (init_success self) && mq2 (sensors self)
  && match mq2_read w with
     | Ret (Some _) => true
     | _ => false
     end.

Definition any_contributes (self : SensorCollector) (w : cycle) : bool :=
  aht21_contributes self w || bmp280_contributes self w
  || ens160_contributes self w || mq2_contributes self w.

(** *** Sample installations and windows *)

(** Only the humidity/temperature and gas-index drivers initialised. *)
Definition station : SensorCollector :=
  mkCollector (mkFlags false false true true) 0 true
    (mkFlags false false true true).

(** All four drivers initialised. *)
Definition full_station : SensorCollector :=
  mkCollector (mkFlags true true true true) 0 true
    (mkFlags true true true true).

(** The gas-index driver answers in cycle 0 only (tier 3); the
    humidity/temperature driver answers in every cycle. *)
Definition gas_then_silent (i : nat) : cycle :=
  mkCycle (Ret (Some 40%Q, Some 20%Q)) (Raise OSError)
    (match i with
     | O => Ret (Some (mkEns 3 3 120 600))
     | _ => Ret None
     end)
    (Raise OSError) (inject_Z (Z.of_nat i)).

(** Every driver fails in every cycle. *)
Definition silent (i : nat) : cycle :=
  mkCycle (Ret (None, None)) (Ret (None, None)) (Ret None) (Raise OSError)
    (inject_Z (Z.of_nat i)).

(** The windows of the specification's examples. *)
Definition window_t_h : list reading :=
  [[("temperature", VFloat 20); ("humidity", VFloat 40)];
   [("temperature", VFloat 22); ("humidity", VFloat 42)];
   [("temperature", VFloat 24); ("humidity", VFloat 44)]].

Definition window_tiers : list reading :=
  [[("aqi", VInt 1)]; [("aqi", VInt 1)]; [("aqi", VInt 3)]].

Definition window_pressure : list reading :=
  [[("pressure", VFloat 1000); ("altitude", VFloat 111)];
   [("pressure", VFloat 1010); ("altitude", VFloat 27)]].

(** A stand-in for the float power, for evaluating concrete windows. *)
Definition linear_pow (x y : Q) : Q := x.

(** The measured fields of a reading that are not categorical. *)
Definition continuous (key : string) : bool :=
  existsb (String.eqb key)
    ["temperature"; "humidity"; "pressure"; "altitude"; "tvoc"; "eco2";
     "mq2_adc"; "mq2_voltage"].

(** Windows whose rounded mean is decided by the doubles: the exact mean
    of the decimals written is a tie, 20.225 and 1006.535. *)
Definition window_tenths : list reading :=
  [[("temperature", VFloat 20.2)]; [("temperature", VFloat 20.2)];
   [("temperature", VFloat 20.2)]; [("temperature", VFloat 20.3)]].

Definition window_hundredths : list reading :=
  [[("pressure", VFloat 1006.53)]; [("pressure", VFloat 1006.54)]].

(** Two windows with the same pressures and different altitudes. *)
Definition window_pressure' : list reading :=
  [[("pressure", VFloat 1000); ("altitude", VFloat 0)];
   [("pressure", VFloat 1010); ("altitude", VFloat 9000)]].

(** Only the pressure driver initialised, and a steady pressure:
    (21.0, 1000.0) in every cycle. *)
Definition barometer : SensorCollector :=
  mkCollector (mkFlags true false false false) 0 true
    (mkFlags true false false false).

Definition steady (i : nat) : cycle :=
  mkCycle (Raise OSError) (Ret (Some 21%Q, Some 1000%Q)) (Ret None)
    (Raise OSError) (inject_Z (Z.of_nat i)).

(** The float power at the one point the steady window needs:
    [(1000.0 / 1013.25) ** 0.1903] is the double
    8984665208919057 / 2 ** 53 = 0.997498218349053; the base is the
    double 1111176814056377 / 2 ** 50. *)
Definition pow_steady (x y : Q) : Q :=
  if Qeq_bool (double_of x) (1111176814056377 # 1125899906842624)
     && Qeq_bool y 0.1903
  then 8984665208919057 # 9007199254740992
  else 1.

(** Two contributing cycles at the clocks 1762200970.935907 and
    1762200971.3540933. *)
Definition timed (i : nat) : cycle :=
  mkCycle (Ret (Some 40%Q, Some 20%Q)) (Raise OSError) (Ret None)
    (Raise OSError)
    (match i with
     | O => 1762200970.935907
     | _ => 1762200971.3540933
     end).

(** [close]: [self.initialized = False; self.sensors.clear()]; the
    drivers' own [close()] may fail and is ignored. *)
Definition close : M SensorCollector unit :=
  self <- get ;;
  put (mkCollector (mkFlags false false false false) (reading_count self)
         false (init_success self)).

(** *** Construction

    What the constructors of the four drivers do, and what the
    humidity/temperature driver and [set_environment] answer during the
    one-time compensation, belong to the environment. *)
Record init_world : Type := mkInitWorld {
  aht21_new : bool;        (* AHT21_Reliable() returns *)
  bmp280_new_76 : bool;    (* SimpleBMP280(address=0x76) returns *)
  bmp280_new_77 : bool;    (* SimpleBMP280(address=0x77) returns *)
  ens160_new : bool;       (* SimpleENS160() returns *)
  mq2_new : bool;          (* SimpleMQ2() returns *)
  aht21_probe : nat -> pyres (option Q * option Q);
  set_environment_result : nat -> pyres bool
}.

Definition register_aht21 (self : SensorCollector) : SensorCollector :=
  mkCollector
    (mkFlags (bmp280 (sensors self)) (mq2 (sensors self))
       (ens160 (sensors self)) true)
    (reading_count self) (initialized self)
    (mkFlags (bmp280 (init_success self)) (mq2 (init_success self))
       (ens160 (init_success self)) true).

Definition register_bmp280 (self : SensorCollector) : SensorCollector :=
  mkCollector
    (mkFlags true (mq2 (sensors self)) (ens160 (sensors self))
       (aht21 (sensors self)))
    (reading_count self) (initialized self)
    (mkFlags true (mq2 (init_success self)) (ens160 (init_success self))
       (aht21 (init_success self))).

Definition register_ens160 (self : SensorCollector) : SensorCollector :=
  mkCollector
    (mkFlags (bmp280 (sensors self)) (mq2 (sensors self)) true
       (aht21 (sensors self)))
    (reading_count self) (initialized self)
    (mkFlags (bmp280 (init_success self)) (mq2 (init_success self)) true
       (aht21 (init_success self))).

Definition register_mq2 (self : SensorCollector) : SensorCollector :=
  mkCollector
    (mkFlags (bmp280 (sensors self)) true (ens160 (sensors self))
       (aht21 (sensors self)))
    (reading_count self) (initialized self)
    (mkFlags (bmp280 (init_success self)) true (ens160 (init_success self))
       (aht21 (init_success self))).

Definition set_initialized (b : bool) (self : SensorCollector) : SensorCollector :=
  mkCollector (sensors self) (reading_count self) b (init_success self).

(** The compensation loop [for _ in range(3)], from attempt [attempt]
    with [remaining] attempts left; the result lists the
    [set_environment(temperature, humidity)] calls made. *)
Fixpoint compensate (w : init_world) (attempt remaining : nat)
    (calls : list (Q * Q)) : list (Q * Q) :=
  match remaining with
  | O => calls
  | S remaining' =>
      match aht21_probe w attempt with
      | Ret (Some humidity, Some temperature) =>
          let calls := calls ++ [(temperature, humidity)] in
          match set_environment_result w attempt with
          | Ret true => calls
          | Ret false => compensate w (S attempt) remaining' calls
          | Raise _ => calls
          end
      | Ret _ => compensate w (S attempt) remaining' calls
      | Raise _ => calls
      end
  end.

(** [sum(1 for status in self.init_success.values() if status)] *)
Definition successful_sensors (f : flags) : nat :=
  ((if bmp280 f then 1 else 0) + (if mq2 f then 1 else 0)
   + (if ens160 f then 1 else 0) + (if aht21 f then 1 else 0))%nat.

Definition _init_all_sensors (w : init_world) (self : SensorCollector)
  : SensorCollector * list (Q * Q) :=
  let self := if aht21_new w then register_aht21 self else self in
  let self :=
    if bmp280_new_76 w then register_bmp280 self
    else if bmp280_new_77 w then register_bmp280 self
    else self in
  let '(self, calls) :=
    if ens160_new w then
      let self := register_ens160 self in
      if aht21 (init_success self)
      then (self, compensate w 0 3 [])
      else (self, [])
    else (self, []) in
  let self := if mq2_new w then register_mq2 self else self in
  if (0 <? successful_sensors (init_success self))%nat
  then (set_initialized true self, calls)
  else (set_initialized false self, calls).

(** [SensorCollector()] *)
Definition __init__ (w : init_world) : SensorCollector * list (Q * Q) :=
  _init_all_sensors w
    (mkCollector (mkFlags false false false false) 0 false
       (mkFlags false false false false)).

(** The cycles of a window in which some driver contributes. *)
Definition contributing (self : SensorCollector) (cycles : list cycle) : nat :=
  List.length (filter (any_contributes self) cycles).

(** The clocks of the contributing cycles of a window. *)
Definition clocks (self : SensorCollector) (cycles : list cycle) : list value :=
  map (fun w => VFloat (clock w)) (filter (any_contributes self) cycles).

(** The counter values [first], [first + 1], ... *)
Definition counters (first : Z) (k : nat) : list value :=
  map (fun j => VInt (first + Z.of_nat j)) (seq 0 k).

(** The readings a window appends, one per contributing cycle. *)
Fixpoint readings_of (float_pow : Q -> Q -> Q) (self : SensorCollector)
    (cycles : list cycle) : list reading :=
  match cycles with
  | [] => []
  | w :: rest =>
      if any_contributes self w
      then finish self w (polled float_pow self w)
           :: readings_of float_pow
                (set_reading_count (reading_count self + 1) self) rest
      else readings_of float_pow self rest
  end.

End Collector.

(* ================================================================== *)
(** ** mq2_simple.py *)

Module MQ2.

(** [round(q, 3)] on a float. *)
Definition round3f (q : Q) : Q :=
  Qred (inject_Z (round_half_even (double_of q * 1000)) / 1000).

(** [voltage < bound] *)
Definition below (voltage bound : Q) : bool := negb (Qle_bool bound voltage).

(** [read]: [value] and [voltage] are the two conversions of the
    analog channel, each of which may fail. *)
Definition read (value : pyres Z) (voltage : pyres Q)
  : pyres Collector.mq2_data :=
  match value with
  | Raise e => Raise e
  | Ret adc_value =>
      match voltage with
      | Raise e => Raise e
      | Ret voltage =>
          let status :=
            if below voltage 0.5 then 0
            else if below voltage 0.8 then 1
            else if below voltage 1.2 then 2
            else 3 in
          Ret (Collector.mkMq2 adc_value (round3f voltage) status)
      end
  end.

End MQ2.

(* ================================================================== *)
(** ** buzzer_control.py

    Every [threading.Timer] ever created lives in a heap; [self.timer]
    is a reference into it.  A timer waits for its deadline, then runs
    its callback once, unless [cancel()] reached it while it waited.

    The callback [self.stop_buzzing] runs on the thread of the timer,
    without a lock, while [start_buzzing] and [stop_buzzing] are called
    from another thread.  The run of a timer is therefore taken in three
    steps, between which a call can fall: the end of the wait, the first
    statement of the callback (lines 60-63) and its second statement
    (lines 66-67).  A call itself is taken as one step. *)

Module Buzzer.

Inductive level : Type := HIGH | LOW.

Inductive timer_state : Type :=
| Waiting      (* started, deadline not reached *)
| Running      (* the wait is over: the callback is about to run *)
| Releasing    (* the callback is between its two statements *)
| Cancelled    (* cancel() came first: the callback never runs *)
| Fired.       (* the callback has run *)

Record Timer : Type := mkTimer {
  deadline : Q;
  tstate : timer_state
}.

Record BuzzerController : Type := mkBuzzer {
  buzzing : bool;
  timer : option nat;
  pin : level;
  timers : list Timer;
  now : Q
}.

(** [BuzzerController.__init__] *)
Definition init (t0 : Q) : BuzzerController :=
  mkBuzzer false None HIGH [] t0.

Fixpoint update {A} (i : nat) (f : A -> A) (l : list A) : list A :=
  match l, i with
  | [], _ => []
  | x :: l', O => f x :: l'
  | x :: l', S i' => x :: update i' f l'
  end.

Definition is_alive (t : Timer) : bool :=
  match tstate t with
  | Waiting | Running | Releasing => true
  | _ => false
  end.

(** [Timer.cancel()]: only a waiting timer is stopped. *)
Definition cancel (t : Timer) : Timer :=
  match tstate t with
  | Waiting => mkTimer (deadline t) Cancelled
  | _ => t
  end.

(** Lines 60-63: [if self.buzzing: GPIO.output(HIGH); self.buzzing = False]. *)
Definition silence_pin (self : BuzzerController) : BuzzerController :=
  if buzzing self
  then mkBuzzer false (timer self) HIGH (timers self) (now self)
  else self.

(** Lines 66-67:
    [if self.timer and self.timer.is_alive(): self.timer.cancel()]. *)
Definition cancel_timer (self : BuzzerController) : BuzzerController :=
  match timer self with
  | Some i =>
      match nth_error (timers self) i with
      | Some t =>
          if is_alive t
          then mkBuzzer (buzzing self) (timer self) (pin self)
                 (update i cancel (timers self)) (now self)
          else self
      | None => self
      end
  | None => self
  end.

Definition stop_buzzing (self : BuzzerController) : BuzzerController :=
  cancel_timer (silence_pin self).

Definition start_buzzing (duration_seconds : Q) (self : BuzzerController)
  : BuzzerController :=
  let self := if buzzing self then stop_buzzing self else self in
  mkBuzzer true (Some (List.length (timers self))) LOW
    (timers self ++ [mkTimer (now self + duration_seconds) Waiting])
    (now self).

Definition set_tstate (st : timer_state) (t : Timer) : Timer :=
  mkTimer (deadline t) st.

(** The thread of timer [i] moves on to state [st]. *)
Definition mark (i : nat) (st : timer_state) (self : BuzzerController)
  : BuzzerController :=
  mkBuzzer (buzzing self) (timer self) (pin self)
    (update i (set_tstate st) (timers self)) (now self).

(** The thread of timer [i]: its wait ends uncancelled; it runs the
    first statement of the callback; it runs the second and ends. *)
Definition wake (i : nat) (self : BuzzerController) : BuzzerController :=
  mark i Running self.

Definition silence (i : nat) (self : BuzzerController) : BuzzerController :=
  mark i Releasing (silence_pin self).

Definition release (i : nat) (self : BuzzerController) : BuzzerController :=
  mark i Fired (cancel_timer self).

(** The run of timer [i] when no call falls between its steps. *)
Definition fire (i : nat) (self : BuzzerController) : BuzzerController :=
  release i (silence i (wake i self)).

(** What can happen to a controller.  [Expire] is the whole run of a
    timer with nothing in between; [Wake], [Silence] and [Release] are
    its three steps, one at a time. *)
Inductive event : Type :=
| Start (duration_seconds : Q)
| Stop
| Elapse (dt : Q)
| Expire (i : nat)
| Wake (i : nat)
| Silence (i : nat)
| Release (i : nat).

Definition due (i : nat) (self : BuzzerController) : bool :=
  match nth_error (timers self) i with
  | Some t =>
      match tstate t with
      | Waiting => Qle_bool (deadline t) (now self)
      | _ => false
      end
  | None => false
  end.

(** Timer [i] is in state [Running], or in state [Releasing]. *)
Definition running (i : nat) (self : BuzzerController) : bool :=
  match nth_error (timers self) i with
  | Some t => match tstate t with Running => true | _ => false end
  | None => false
  end.

Definition releasing (i : nat) (self : BuzzerController) : bool :=
  match nth_error (timers self) i with
  | Some t => match tstate t with Releasing => true | _ => false end
  | None => false
  end.

Definition step (self : BuzzerController) (e : event) : BuzzerController :=
  match e with
  | Start d => start_buzzing d self
  | Stop => stop_buzzing self
  | Elapse dt =>
      if Qle_bool 0 dt
      then mkBuzzer (buzzing self) (timer self) (pin self) (timers self)
             (now self + dt)
      else self
  | Expire i => if due i self then fire i self else self
  | Wake i => if due i self then wake i self else self
  | Silence i => if running i self then silence i self else self
  | Release i => if releasing i self then release i self else self
  end.

Definition run (es : list event) (self : BuzzerController) : BuzzerController :=
  fold_left step es self.

(** An event during which no other can happen: a call, time passing, or
    the whole run of a timer. *)
Definition atomic (e : event) : bool :=
  match e with
  | Wake _ | Silence _ | Release _ => false
  | _ => true
  end.

(** An event that is not a call of [start_buzzing] or [stop_buzzing]. *)
Definition calls_free (e : event) : bool :=
  match e with
  | Start _ | Stop => false
  | _ => true
  end.

Definition none_alive (self : BuzzerController) : Prop :=
  forall j t, nth_error (timers self) j = Some t -> is_alive t = false.

(** Callbacks executed along a run. *)
Fixpoint callbacks (es : list event) (self : BuzzerController) : nat :=
  match es with
  | [] => O
  | e :: es' =>
      (match e with
       | Expire i => if due i self then 1 else 0
       | Silence i => if running i self then 1 else 0
       | _ => 0
       end + callbacks es' (step self e))%nat
  end.

Definition starts (es : list event) : nat :=
  List.length (filter (fun e => match e with Start _ => true | _ => false end) es).

(** The state in which [start_buzzing] arms its timer. *)
Definition quiet (self : BuzzerController) : BuzzerController :=
  if buzzing self then stop_buzzing self else self.

(** Between events, a waiting timer is the one [self.timer] refers to,
    and the buzzer sounds exactly while its timer waits. *)
Definition Inv (self : BuzzerController) : Prop :=
  (forall j t, nth_error (timers self) j = Some t -> tstate t = Waiting ->
               timer self = Some j /\ buzzing self = true) /\
  (buzzing self = true ->
   exists i t, timer self = Some i /\ nth_error (timers self) i = Some t
               /\ tstate t = Waiting).

Definition no_waiting (l : list Timer) : Prop :=
  forall j t, nth_error l j = Some t -> tstate t <> Waiting.

(** The pin is LOW exactly while the buzzer is flagged as sounding. *)
Definition pin_follows (self : BuzzerController) : Prop :=
  pin self = LOW <-> buzzing self = true.

End Buzzer.

(* ================================================================== *)
(** * Properties *)

(** ** Doubles *)

Module DoubleFacts.

Lemma round_half_even_nonneg (q : Q) : (0 <= q)%Q -> 0 <= round_half_even q.
Proof.
  intros H. unfold round_half_even.
  assert (Hf : 0 <= Qfloor q)
    by (change 0 with (Qfloor 0); now apply Qfloor_resp_le).
  destruct (Qcompare (q - inject_Z (Qfloor q)) (1 # 2));
    [destruct (Z.even (Qfloor q)) | |]; lia.
Qed.

Lemma pow2_pos (e : Z) : (0 < pow2 e)%Q.
Proof.
  unfold pow2. destruct (0 <=? e) eqn:E.
  - apply Z.leb_le in E. change 0%Q with (inject_Z 0). rewrite <- Zlt_Qlt.
    now apply Z.pow_pos_nonneg.
  - reflexivity.
Qed.

(** The double nearest to a number depends on the number only. *)
Lemma double_of_comp (x y : Q) : (x == y)%Q -> double_of x = double_of y.
Proof.
  intros H. unfold double_of. now rewrite (Qred_complete x y H).
Qed.

Lemma double_of_Qred (q : Q) : double_of (Qred q) = double_of q.
Proof. apply double_of_comp, Qred_correct. Qed.

(** Rounding to a double keeps the sign. *)
Lemma double_of_nonpos (q : Q) : (q <= 0)%Q -> (double_of q <= 0)%Q.
Proof.
  intros H. unfold double_of.
  assert (Hn : Qnum (Qred q) <= 0).
  { assert (Hr : (Qred q <= 0)%Q) by now rewrite Qred_correct.
    unfold Qle in Hr. simpl in Hr. lia. }
  destruct (Qnum (Qred q) =? 0) eqn:E; [apply Qle_refl |].
  apply Z.eqb_neq in E.
  set (e := Z.max _ _).
  set (m := round_half_even _).
  assert (Hm : 0 <= m).
  { apply round_half_even_nonneg. unfold Qdiv.
    apply Qmult_le_0_compat.
    - unfold Qle. simpl. lia.
    - apply Qinv_le_0_compat, Qlt_le_weak, pow2_pos. }
  rewrite Qred_correct.
  assert (Hs : Z.sgn (Qnum (Qred q)) = -1) by (apply Z.sgn_neg; lia).
  rewrite Hs.
  pose proof (pow2_pos e) as Hp. clearbody m e.
  destruct (pow2 e) as [pn pd].
  unfold Qlt in Hp. unfold Qle. cbn [Qnum Qden Qmult inject_Z] in *. nia.
Qed.

End DoubleFacts.

(** ** Pressure driver: compensation *)

Module BMP280Facts.
Import Bus BMP280.


(** [_compensate_temperature] stores the fine value and returns the
    scaled temperature. *)
Lemma compensate_temperature_eq (self : SimpleBMP280) (temp_raw : Z) :
  _compensate_temperature temp_raw self =
  (set_t_fine (t_fine_of self temp_raw) self,
   Ret (Qred (inject_Z (Z.shiftr (t_fine_of self temp_raw * 5 + 128) 8) / 100))).
Proof. reflexivity. Qed.

Lemma compensate_pressure_zero (self : SimpleBMP280) (press_raw : Z) :
  first_stage_divisor self = 0 ->
  _compensate_pressure press_raw self = (self, Ret None).
Proof.
  intros H. unfold _compensate_pressure, bind, get.
  change (Z.shiftr
            ((Z.shiftl 1 47
              + (Z.shiftr ((t_fine self - 128000) * (t_fine self - 128000)
                           * dig_P3 self) 8
                 + Z.shiftl ((t_fine self - 128000) * dig_P2 self) 12))
             * dig_P1 self) 33)
    with (first_stage_divisor self).
  rewrite H. reflexivity.
Qed.

Lemma compensate_pressure_nonzero (self : SimpleBMP280) (press_raw : Z) :
  first_stage_divisor self <> 0 ->
  _compensate_pressure press_raw self =
  (self, Ret (Some (Qred (inject_Z (p_fixed self press_raw) / 25600)))).
Proof.
  intros H. unfold _compensate_pressure, bind, get, lift, floordiv.
  change (Z.shiftr
            ((Z.shiftl 1 47
              + (Z.shiftr ((t_fine self - 128000) * (t_fine self - 128000)
                           * dig_P3 self) 8
                 + Z.shiftl ((t_fine self - 128000) * dig_P2 self) 12))
             * dig_P1 self) 33)
    with (first_stage_divisor self).
  destruct (first_stage_divisor self =? 0) eqn:E.
  - apply Z.eqb_eq in E. contradiction.
  - reflexivity.
Qed.

(** The division of the pipeline is never reached with a zero divisor:
    [_compensate_pressure] always returns. *)
Lemma compensate_pressure_returns (self : SimpleBMP280) (press_raw : Z) :
  exists r, _compensate_pressure press_raw self = (self, Ret r).
Proof.
  destruct (Z.eq_dec (first_stage_divisor self) 0) as [H | H].
  - exists None. now apply compensate_pressure_zero.
  - eexists. now apply compensate_pressure_nonzero.
Qed.

(** [read] absorbs every exception of its body. *)
Lemma read_returns (self : SimpleBMP280) :
  exists self' r, read self = (self', Ret r).
Proof.
  unfold read, try_except, ret.
  destruct (read_body self) as [s' [r | e]]; eauto.
Qed.




(** C6: when the first-stage divisor evaluates to zero, the pressure
    compensation returns [None] without dividing, [read] returns
    [(None, None)] instead of raising, and the collector then stores
    no field for the pressure driver. *)
Theorem zero_divisor_reports_no_fields
    (self self1 : SimpleBMP280) (temp_raw press_raw : Z)
    (float_pow : Q -> Q -> Q) (c : Collector.SensorCollector)
    (w : Collector.cycle) (data : Collector.reading) :
  _read_raw_data self = (self1, Ret (temp_raw, press_raw)) ->
  first_stage_divisor (set_t_fine (t_fine_of self1 temp_raw) self1) = 0 ->
  let self2 := set_t_fine (t_fine_of self1 temp_raw) self1 in
  _compensate_pressure press_raw self2 = (self2, Ret None) /\
  read self = (self2, Ret (None, None)) /\
  (Collector.bmp280_read w = snd (read self) ->
   Collector.poll_bmp280 float_pow c w data = data).
Proof.
  intros Hraw Hz self2.
  assert (Hp : _compensate_pressure press_raw self2 = (self2, Ret None))
    by now apply compensate_pressure_zero.
  assert (Hr : read self = (self2, Ret (None, None))).
  { unfold read, try_except, read_body, bind. rewrite Hraw.
    rewrite compensate_temperature_eq. fold self2. rewrite Hp. reflexivity. }
  split; [exact Hp |]. split; [exact Hr |].
  intros Hw. rewrite Hr in Hw. simpl in Hw.
  unfold Collector.poll_bmp280, Collector.sensor_read. rewrite Hw.
  destruct (Collector.bmp280 (Collector.init_success c)); [| reflexivity].
  destruct (Collector.bmp280 (Collector.sensors c)); reflexivity.
Qed.

Lemma zero_divisor_reports_no_fields_witness :
  let self := faulty (mkSMBus [Ack burst] []) in
  let self1 := faulty (mkSMBus [] []) in
  let self2 := set_t_fine 128422 self1 in
  let c := Collector.mkCollector (Collector.mkFlags true false false false) 0
             true (Collector.mkFlags true false false false) in
  let w := Collector.mkCycle (Raise OSError) (Ret (None, None)) (Raise OSError)
             (Raise OSError) 0 in
  _compensate_pressure 415148 self2 = (self2, Ret None) /\
  read self = (self2, Ret (None, None)) /\
  Collector.poll_bmp280 (fun _ _ => 0%Q) c w [] = [].
Proof.
  intros self self1 self2 c w.
  destruct (zero_divisor_reports_no_fields self self1 519888 415148
              (fun _ _ => 0%Q) c w [] eq_refl eq_refl) as [H1 [H2 H3]].
  split; [exact H1 |]. split; [exact H2 |]. exact (H3 eq_refl).
Defined.

End BMP280Facts.

(** ** Gas-index driver: environment words *)

Module ENS160Facts.
Import Bus ENS160.

Lemma land_255 (v : Z) : Z.land v 0xFF = v mod 256.
Proof. exact (Z.land_ones v 8 ltac:(lia)). Qed.

Lemma shiftr_8 (v : Z) : Z.shiftr v 8 = v / 256.
Proof. exact (Z.shiftr_div_pow2 v 8 ltac:(lia)). Qed.

(** The byte pair written by [_write_word] is the low 16 bits of the
    value, low byte first. *)
Lemma word_bytes (v : Z) :
  Z.land v 0xFF + 256 * Z.land (Z.shiftr v 8) 0xFF = v mod 65536.
Proof.
  rewrite !land_255, shiftr_8.
  change 65536 with (256 * 256).
  rewrite Z.rem_mul_r by lia. reflexivity.
Qed.

Lemma write_word_ack (reg value : Z) (a : list Z) (rest : list txn)
    (log : list (Z * Z * list Z)) (addr : Z) :
  _write_word reg value (mkENS160 (mkSMBus (Ack a :: rest) log) addr) =
  (mkENS160
     (mkSMBus rest
        (log ++ [(addr, reg, [Z.land value 0xFF;
                              Z.land (Z.shiftr value 8) 0xFF])])) addr,
   Ret tt).
Proof. reflexivity. Qed.

(** [int()] truncates: on a non-negative float it is the floor. *)
Lemma int_of_float_floor (q : Q) :
  (0 <= q)%Q -> int_of_float q = Qfloor q.
Proof.
  destruct q as [n d]. unfold Qle, int_of_float, Qfloor. simpl.
  intros H. apply Z.quot_div_nonneg; lia.
Qed.



End ENS160Facts.

(** ** Dictionaries *)

Module DictFacts.

Section Dict.
Context {A : Type}.
Implicit Types (d : dict A) (k : string) (v : A).

Lemma dget_dset_eq k v d : dget k (dset k v d) = Some v.
Proof.
  induction d as [| [k' v'] d IH]; simpl.
  - now rewrite String.eqb_refl.
  - destruct (String.eqb k k') eqn:E; simpl; rewrite E; auto.
Qed.

Lemma dget_dset_neq k k' v d :
  k <> k' -> dget k (dset k' v d) = dget k d.
Proof.
  intros Hne. induction d as [| [k'' v''] d IH]; simpl.
  - apply String.eqb_neq in Hne. now rewrite Hne.
  - destruct (String.eqb k' k'') eqn:E; simpl.
    + apply String.eqb_eq in E. subst k''.
      apply String.eqb_neq in Hne. now rewrite Hne.
    + now rewrite IH.
Qed.

Lemma dget_dpop_neq k k' d :
  k <> k' -> dget k (dpop k' d) = dget k d.
Proof.
  intros Hne. induction d as [| [k'' v''] d IH]; simpl; [reflexivity |].
  destruct (String.eqb k' k'') eqn:E; simpl.
  - apply String.eqb_eq in E. subst k''.
    apply String.eqb_neq in Hne. now rewrite Hne.
  - now rewrite IH.
Qed.

Lemma dset_not_empty k v d : dset k v d <> [].
Proof.
  destruct d as [| [k' v'] d]; simpl; [discriminate |].
  destruct (String.eqb k k'); discriminate.
Qed.

Lemma dmem_dset k k' v d :
  dmem k (dset k' v d) = String.eqb k k' || dmem k d.
Proof.
  unfold dmem. destruct (String.eqb k k') eqn:E.
  - apply String.eqb_eq in E. subst. now rewrite dget_dset_eq.
  - apply String.eqb_neq in E. now rewrite dget_dset_neq.
Qed.

Lemma unique_keys_dset k v d :
  unique_keys d = true -> unique_keys (dset k v d) = true.
Proof.
  induction d as [| [k' v'] d IH]; simpl; [reflexivity |].
  intros H. apply andb_true_iff in H. destruct H as [H1 H2].
  destruct (String.eqb k k') eqn:E; simpl.
  - now rewrite H1, H2.
  - rewrite dmem_dset, IH by assumption.
    rewrite String.eqb_sym, E. simpl. now rewrite H1.
Qed.

Lemma dmem_dpop_false k k' d :
  dmem k d = false -> dmem k (dpop k' d) = false.
Proof.
  unfold dmem. induction d as [| [k'' v''] d IH]; simpl; [reflexivity |].
  destruct (String.eqb k k'') eqn:E; [discriminate |].
  intros H. destruct (String.eqb k' k''); simpl; [exact H |].
  rewrite E. now apply IH.
Qed.

Lemma unique_keys_dpop k d :
  unique_keys d = true -> unique_keys (dpop k d) = true.
Proof.
  induction d as [| [k' v'] d IH]; simpl; [reflexivity |].
  intros H. apply andb_true_iff in H. destruct H as [H1 H2].
  destruct (String.eqb k k'); simpl; [exact H2 |].
  apply negb_true_iff in H1.
  now rewrite (dmem_dpop_false _ k _ H1), IH.
Qed.

Lemma dmem_false_dget k d : dmem k d = false -> dget k d = None.
Proof. unfold dmem. now destruct (dget k d). Qed.

End Dict.

End DictFacts.

(** ** Collector: single-shot read *)

Module CollectorFacts.
Import Collector DictFacts.

Section Reads.
Variable float_pow : Q -> Q -> Q.

Lemma is_empty_dset {A} k (v : A) d : is_empty (dset k v d) = false.
Proof.
  destruct (dset k v d) eqn:E; [| reflexivity].
  now apply dset_not_empty in E.
Qed.

Lemma poll_aht21_spec self w data :
  (aht21_contributes self w = false /\ poll_aht21 self w data = data) \/
  (aht21_contributes self w = true /\ is_empty (poll_aht21 self w data) = false).
Proof.
  unfold aht21_contributes, poll_aht21, sensor_read.
  destruct (aht21 (init_success self)), (aht21 (sensors self)); simpl; auto.
  destruct (aht21_read w) as [[[h |] [t |]] | e]; simpl; auto.
  right. split; [reflexivity | apply is_empty_dset].
Qed.

Lemma poll_bmp280_spec self w data :
  (bmp280_contributes self w = false /\ poll_bmp280 float_pow self w data = data) \/
  (bmp280_contributes self w = true
   /\ is_empty (poll_bmp280 float_pow self w data) = false).
Proof.
  unfold bmp280_contributes, poll_bmp280, sensor_read.
  destruct (bmp280 (init_success self)), (bmp280 (sensors self)); simpl; auto.
  destruct (bmp280_read w) as [[[h |] [t |]] | e]; simpl; auto.
  right. split; [reflexivity | apply is_empty_dset].
Qed.

Lemma poll_ens160_spec self w data :
  (ens160_contributes self w = false /\ poll_ens160 self w data = data) \/
  (ens160_contributes self w = true /\ is_empty (poll_ens160 self w data) = false).
Proof.
  unfold ens160_contributes, poll_ens160, sensor_read.
  destruct (ens160 (init_success self)), (ens160 (sensors self)); simpl; auto.
  destruct (ens160_read w) as [[h |] | e]; simpl; auto.
  right. split; [reflexivity | apply is_empty_dset].
Qed.

Lemma poll_mq2_spec self w data :
  (mq2_contributes self w = false /\ poll_mq2 self w data = data) \/
  (mq2_contributes self w = true /\ is_empty (poll_mq2 self w data) = false).
Proof.
  unfold mq2_contributes, poll_mq2, sensor_read.
  destruct (mq2 (init_success self)), (mq2 (sensors self)); simpl; auto.
  destruct (mq2_read w) as [[h |] | e]; simpl; auto.
  right. split; [reflexivity | apply is_empty_dset].
Qed.

Lemma polled_empty_iff self w :
  is_empty (polled float_pow self w) = negb (any_contributes self w).
Proof.
  unfold polled, any_contributes.
  destruct (poll_aht21_spec self w []) as [[Ha Ea] | [Ha Ea]]; rewrite Ha.
  - rewrite Ea.
    destruct (poll_bmp280_spec self w []) as [[Hb Eb] | [Hb Eb]]; rewrite Hb.
    + rewrite Eb.
      destruct (poll_ens160_spec self w []) as [[He Ee] | [He Ee]]; rewrite He.
      * rewrite Ee.
        destruct (poll_mq2_spec self w []) as [[Hm Em] | [Hm Em]]; rewrite Hm.
        -- now rewrite Em.
        -- now rewrite Em.
      * simpl.
        destruct (poll_mq2_spec self w (poll_ens160 self w []))
          as [[Hm Em] | [Hm Em]]; [now rewrite Em | exact Em].
    + simpl.
      destruct (poll_ens160_spec self w (poll_bmp280 float_pow self w []))
        as [[He Ee] | [He Ee]];
      destruct (poll_mq2_spec self w
                  (poll_ens160 self w (poll_bmp280 float_pow self w [])))
        as [[Hm Em] | [Hm Em]]; try exact Em.
      * rewrite Em, Ee. exact Eb.
      * rewrite Em. exact Ee.
  - simpl.
    destruct (poll_bmp280_spec self w (poll_aht21 self w []))
      as [[Hb Eb] | [Hb Eb]];
    destruct (poll_ens160_spec self w
                (poll_bmp280 float_pow self w (poll_aht21 self w [])))
      as [[He Ee] | [He Ee]];
    destruct (poll_mq2_spec self w
                (poll_ens160 self w
                   (poll_bmp280 float_pow self w (poll_aht21 self w []))))
      as [[Hm Em] | [Hm Em]]; try exact Em.
    + rewrite Em, Ee, Eb. exact Ea.
    + rewrite Em. exact Ee.
    + rewrite Em, Ee. exact Eb.
    + rewrite Em. exact Ee.
Qed.

Lemma read_single_measurement_eq w self :
  read_single_measurement float_pow w self =
  if any_contributes self w
  then (set_reading_count (reading_count self + 1) self,
        Ret (Some (finish self w (polled float_pow self w))))
  else (self, Ret None).
Proof.
  unfold read_single_measurement, bind, get.
  fold (polled float_pow self w). rewrite polled_empty_iff.
  destruct (any_contributes self w); reflexivity.
Qed.

(** C10: a single-shot read increments the reading counter by exactly
    one if and only if at least one driver contributed a field; when no
    driver does, it returns [None] and leaves the collector unchanged.
    (When one does, only the counter changes.) *)
Theorem counter_increments_iff_contributed (w : cycle) (self : SensorCollector) :
  let self' := fst (read_single_measurement float_pow w self) in
  let result := snd (read_single_measurement float_pow w self) in
  (reading_count self' = reading_count self + 1
   <-> any_contributes self w = true) /\
  (any_contributes self w = true ->
   (exists data, result = Ret (Some data)) /\
   self' = set_reading_count (reading_count self + 1) self) /\
  (any_contributes self w = false -> result = Ret None /\ self' = self).
Proof.
  intros self' result. subst self' result.
  rewrite read_single_measurement_eq.
  destruct (any_contributes self w); simpl.
  - split; [tauto |]. split; [| discriminate].
    intros _. split; [eauto | reflexivity].
  - split; [split; [lia | discriminate] |]. split; [discriminate | auto].
Qed.

Lemma any_contributes_set_reading_count n self w :
  any_contributes (set_reading_count n self) w = any_contributes self w.
Proof. reflexivity. Qed.

Lemma window_cons w rest acc self :
  window float_pow (w :: rest) acc self =
  if any_contributes self w
  then window float_pow rest (acc ++ [finish self w (polled float_pow self w)])
         (set_reading_count (reading_count self + 1) self)
  else window float_pow rest acc self.
Proof.
  simpl. unfold bind, try_except. rewrite read_single_measurement_eq.
  destruct (any_contributes self w); reflexivity.
Qed.

Lemma window_all_fail cycles acc self :
  (forall w, In w cycles -> any_contributes self w = false) ->
  window float_pow cycles acc self = (self, Ret acc).
Proof.
  induction cycles as [| w rest IH]; intros H; [reflexivity |].
  rewrite window_cons, (H w (or_introl eq_refl)).
  apply IH. intros w' Hin. apply H. now right.
Qed.

Lemma window_without_fields (num_readings : nat) (world : nat -> cycle)
    (now : Q) (self : SensorCollector) :
  (forall i, (i < num_readings)%nat -> any_contributes self (world i) = false) ->
  collect_multiple_readings float_pow num_readings world now self =
    (self, Ret (empty_window now)).
Proof.
  intros H. unfold collect_multiple_readings, bind.
  rewrite window_all_fail; [reflexivity |].
  intros w Hin. apply in_map_iff in Hin. destruct Hin as [i [<- Hi]].
  apply in_seq in Hi. apply H. lia.
Qed.

(** C2: when no driver contributes a field in any cycle of the window,
    the windowed read returns the error record ([error_code] 1,
    [samples_count] 0), which carries no data field and no data-source
    tag, and the collector is unchanged. *)
Theorem empty_window_is_reported (num_readings : nat) (world : nat -> cycle)
    (now : Q) (self : SensorCollector) :
  (forall i, (i < num_readings)%nat -> any_contributes self (world i) = false) ->
  collect_multiple_readings float_pow num_readings world now self =
    (self, Ret (empty_window now)) /\
  dget "error_code" (empty_window now) = Some (VInt 1) /\
  dget "samples_count" (empty_window now) = Some (VInt 0) /\
  forall key, dget key (empty_window now) <> None ->
              key = "error_code" \/ key = "timestamp" \/ key = "samples_count".
Proof.
  intros H. split; [| split; [reflexivity | split; [reflexivity |]]].
  - now apply window_without_fields.
  - intros key. unfold empty_window. simpl.
    destruct (String.eqb_spec key "error_code"); [auto |].
    destruct (String.eqb_spec key "timestamp"); [auto |].
    destruct (String.eqb_spec key "samples_count"); [auto |].
    intros Hn. now elim Hn.
Qed.

Lemma close_eq self :
  close self =
  (mkCollector (mkFlags false false false false) (reading_count self) false
     (init_success self), Ret tt).
Proof. reflexivity. Qed.

Lemma closed_contributes_nothing self w :
  any_contributes (fst (close self)) w = false.
Proof.
  rewrite close_eq. unfold any_contributes, aht21_contributes,
    bmp280_contributes, ens160_contributes, mq2_contributes. simpl.
  now rewrite !andb_false_r.
Qed.

(** C8, as the code has it: after [close], a single-shot read polls no
    driver and returns [None], a windowed read returns the error record
    of an empty window, and both leave the collector (counter included)
    unchanged; neither raises. *)
Theorem reads_after_close (self : SensorCollector) (w : cycle)
    (num_readings : nat) (world : nat -> cycle) (now : Q) :
  let closed := fst (close self) in
  read_single_measurement float_pow w closed = (closed, Ret None) /\
  collect_multiple_readings float_pow num_readings world now closed =
    (closed, Ret (empty_window now)).
Proof.
  intros closed. split.
  - rewrite read_single_measurement_eq.
    unfold closed. now rewrite closed_contributes_nothing.
  - apply window_without_fields.
    intros i _. apply closed_contributes_nothing.
Qed.

(** *** Reduction of a window *)

Lemma field_values_cons key r rs :
  field_values key (r :: rs) = numeric_at key r ++ field_values key rs.
Proof. reflexivity. Qed.

Lemma dget_default_dset_eq {A} k (v dflt : A) d :
  dget_default k dflt (dset k v d) = v.
Proof. unfold dget_default. now rewrite dget_dset_eq. Qed.

Lemma dget_default_dset_neq {A} k k' (v dflt : A) d :
  k <> k' -> dget_default k dflt (dset k' v d) = dget_default k dflt d.
Proof. intros H. unfold dget_default. now rewrite dget_dset_neq. Qed.

(** The inner loop appends to [numeric_fields[key]] the numeric value
    the reading holds for [key], if any. *)
Lemma collect_fields_get key r : forall nf,
  unique_keys r = true ->
  dget_default key [] (collect_fields nf r) =
  dget_default key [] nf ++ numeric_at key r.
Proof.
  unfold collect_fields, numeric_at.
  induction r as [| [k v] r IH]; intros nf Hu.
  - simpl. now rewrite app_nil_r.
  - simpl in Hu. apply andb_true_iff in Hu. destruct Hu as [Hk Hu].
    apply negb_true_iff in Hk.
    cbn [fold_left dget]. rewrite IH by exact Hu.
    destruct (String.eqb_spec key k) as [-> | Hne].
    + rewrite (dmem_false_dget _ _ Hk), app_nil_r.
      destruct (is_number v); [| now rewrite app_nil_r].
      apply dget_default_dset_eq.
    + f_equal. destruct (is_number v); [| reflexivity].
      now apply dget_default_dset_neq.
Qed.

Lemma collect_all_get key rs : forall nf,
  forallb unique_keys rs = true ->
  dget_default key [] (fold_left collect_fields rs nf) =
  dget_default key [] nf ++ field_values key rs.
Proof.
  induction rs as [| r rs IH]; intros nf Hu.
  - simpl. now rewrite app_nil_r.
  - simpl in Hu. apply andb_true_iff in Hu. destruct Hu as [Hr Hu].
    cbn [fold_left].
    rewrite IH by exact Hu. rewrite collect_fields_get by exact Hr.
    rewrite field_values_cons. now rewrite app_assoc.
Qed.

Lemma fields_ok_step nf k v :
  fields_ok nf -> fields_ok (dset k (dget_default k [] nf ++ [v]) nf).
Proof.
  intros [Hu Hn]. split; [now apply unique_keys_dset |].
  intros k' l. destruct (String.eqb_spec k' k) as [-> | Hne].
  - rewrite dget_dset_eq. intros [= <-]. now destruct (dget_default k [] nf).
  - rewrite dget_dset_neq by exact Hne. apply Hn.
Qed.

Lemma fields_ok_collect r : forall nf,
  fields_ok nf -> fields_ok (collect_fields nf r).
Proof.
  unfold collect_fields.
  induction r as [| [k v] r IH]; intros nf H; simpl; [exact H |].
  apply IH. destruct (is_number v); [now apply fields_ok_step | exact H].
Qed.

Lemma fields_ok_collect_all rs : forall nf,
  fields_ok nf -> fields_ok (fold_left collect_fields rs nf).
Proof.
  induction rs as [| r rs IH]; intros nf H; simpl; [exact H |].
  apply IH. now apply fields_ok_collect.
Qed.

Lemma fields_ok_nil : fields_ok [].
Proof. split; [reflexivity | discriminate]. Qed.

(** What [numeric_fields] holds for [key] after the first loop. *)
Lemma numeric_fields_get key rs :
  forallb unique_keys rs = true ->
  dget key (fold_left collect_fields rs []) =
  match field_values key rs with
  | [] => None
  | vs => Some vs
  end.
Proof.
  intros Hu.
  pose proof (collect_all_get key rs [] Hu) as Hg.
  destruct (fields_ok_collect_all rs [] fields_ok_nil) as [_ Hn].
  unfold dget_default in Hg. simpl in Hg.
  destruct (dget key (fold_left collect_fields rs [])) as [l |] eqn:E.
  - specialize (Hn key l E). rewrite <- Hg.
    destruct l; [now elim Hn | reflexivity].
  - now rewrite <- Hg.
Qed.

Lemma reduce_field_eq last_reading result key values :
  reduce_field last_reading result (key, values) =
  if (0 <? List.length values)%nat
  then dset key (reduced last_reading key values) result
  else result.
Proof.
  unfold reduce_field, reduced.
  destruct (0 <? List.length values)%nat; [| reflexivity].
  now destruct (categorical key).
Qed.

(** The second loop sets each key of [numeric_fields] once and touches
    no other key. *)
Lemma reduce_all_get last_reading key nf : forall result,
  unique_keys nf = true ->
  dget key (fold_left (reduce_field last_reading) nf result) =
  match dget key nf with
  | Some values =>
      if (0 <? List.length values)%nat
      then Some (reduced last_reading key values)
      else dget key result
  | None => dget key result
  end.
Proof.
  induction nf as [| [k vs] nf IH]; intros result Hu; [reflexivity |].
  simpl in Hu. apply andb_true_iff in Hu. destruct Hu as [Hk Hu].
  apply negb_true_iff in Hk.
  cbn [fold_left dget]. rewrite IH by exact Hu. rewrite reduce_field_eq.
  destruct (String.eqb_spec key k) as [-> | Hne].
  - rewrite (dmem_false_dget _ _ Hk).
    destruct (0 <? List.length vs)%nat; [apply dget_dset_eq | reflexivity].
  - destruct (dget key nf) as [values |].
    + destruct (0 <? List.length values)%nat; [reflexivity |].
      destruct (0 <? List.length vs)%nat; [now apply dget_dset_neq | reflexivity].
    + destruct (0 <? List.length vs)%nat; [now apply dget_dset_neq | reflexivity].
Qed.

Lemma calculate_averages_eq readings now :
  readings <> [] ->
  _calculate_averages float_pow readings now =
  match dget "pressure" (reduced_fields readings now) with
  | Some p =>
      dset "altitude" (VFloat (calculate_altitude float_pow (to_Q p) 1013.25))
        (reduced_fields readings now)
  | None => reduced_fields readings now
  end.
Proof. destruct readings; [intros H; now elim H | reflexivity]. Qed.

Lemma reduced_fields_get key readings now :
  forallb unique_keys readings = true ->
  field_values key readings <> [] ->
  dget key (reduced_fields readings now) =
  Some (reduced (last readings []) key (field_values key readings)).
Proof.
  intros Hu Hv. unfold reduced_fields.
  destruct (fields_ok_collect_all readings [] fields_ok_nil) as [Hk _].
  rewrite reduce_all_get by exact Hk.
  rewrite numeric_fields_get by exact Hu.
  destruct (field_values key readings) as [| v vs]; [now elim Hv | reflexivity].
Qed.

Lemma reduced_fields_pressure_absent readings now :
  forallb unique_keys readings = true ->
  field_values "pressure" readings = [] ->
  dget "pressure" (reduced_fields readings now) = None.
Proof.
  intros Hu Hv. unfold reduced_fields.
  destruct (fields_ok_collect_all readings [] fields_ok_nil) as [Hk _].
  rewrite reduce_all_get by exact Hk.
  rewrite numeric_fields_get by exact Hu.
  now rewrite Hv.
Qed.

Lemma calculate_averages_get key readings now :
  key <> "altitude" ->
  dget key (_calculate_averages float_pow readings now) =
  match readings with
  | [] => None
  | _ => dget key (reduced_fields readings now)
  end.
Proof.
  intros Hne. destruct readings as [| r rs]; [reflexivity |].
  rewrite calculate_averages_eq by discriminate.
  destruct (dget "pressure" (reduced_fields (r :: rs) now));
    [now apply dget_dset_neq | reflexivity].
Qed.

Lemma categorical_not_altitude key : categorical key = true -> key <> "altitude".
Proof. intros H ->. discriminate. Qed.

Lemma continuous_not_categorical key :
  continuous key = true -> categorical key = false.
Proof.
  unfold continuous. cbn [existsb]. rewrite !orb_true_iff.
  intros H. repeat destruct H as [H | H]; try discriminate H;
    apply String.eqb_eq in H; subst key; reflexivity.
Qed.

(** C3, as the code has it: in a window of well-formed readings, a
    field that holds a number in at least one reading is reduced as
    follows.  A categorical field ([aqi], [mq2_status],
    [temperature_source]) takes the value the last reading of the window
    holds for it, and 0 when that reading lacks it.  A continuous field
    ([temperature], [humidity], [pressure], [altitude], [tvoc], [eco2],
    [mq2_adc], [mq2_voltage]), the altitude of a window with pressure
    apart, takes [round(statistics.mean(values), 2)]: the mean of the
    values as the nearest double, rounded to 2 decimal places. *)
Theorem window_reduction (readings : list reading) (now : Q) (key : string) :
  forallb unique_keys readings = true ->
  field_values key readings <> [] ->
  let result := _calculate_averages float_pow readings now in
  (categorical key = true ->
   dget key result = Some (dget_default key (VInt 0) (last readings []))) /\
  (continuous key = true ->
   key <> "altitude" \/ field_values "pressure" readings = [] ->
   dget key result = Some (round2 (mean (field_values key readings)))).
Proof.
  intros Hu Hv result. subst result.
  assert (Hne : readings <> []) by (intros ->; now apply Hv).
  pose proof (reduced_fields_get key readings now Hu Hv) as Hg.
  unfold reduced in Hg. split.
  - intros Hc. rewrite Hc in Hg.
    rewrite calculate_averages_get by now apply categorical_not_altitude.
    destruct readings; [now elim Hne | exact Hg].
  - intros Hc Hcase. rewrite (continuous_not_categorical key Hc) in Hg.
    destruct Hcase as [Ha | Hp].
    + rewrite calculate_averages_get by exact Ha.
      destruct readings; [now elim Hne | exact Hg].
    + rewrite calculate_averages_eq by exact Hne.
      now rewrite (reduced_fields_pressure_absent readings now Hu Hp).
Qed.

(** The reduced pressure of a window of well-formed readings. *)
Lemma reduced_pressure_get readings now :
  forallb unique_keys readings = true ->
  dget "pressure" (_calculate_averages float_pow readings now) =
  match field_values "pressure" readings with
  | [] => None
  | values => Some (round2 (mean values))
  end.
Proof.
  intros Hu. rewrite calculate_averages_get by discriminate.
  destruct readings as [| r rs]; [reflexivity |].
  destruct (field_values "pressure" (r :: rs)) as [| v vs] eqn:Ev.
  - now apply reduced_fields_pressure_absent.
  - rewrite reduced_fields_get by (try exact Hu; rewrite Ev; discriminate).
    now rewrite Ev.
Qed.

Lemma altitude_get readings now p :
  dget "pressure" (_calculate_averages float_pow readings now) = Some p ->
  dget "altitude" (_calculate_averages float_pow readings now) =
  Some (VFloat (calculate_altitude float_pow (to_Q p) 1013.25)).
Proof.
  intros Hp.
  assert (Hne : readings <> []) by (intros ->; discriminate).
  rewrite calculate_averages_eq in * by exact Hne.
  destruct (dget "pressure" (reduced_fields readings now)) as [p0 |] eqn:E.
  - rewrite dget_dset_neq in Hp by discriminate.
    rewrite E in Hp. injection Hp as ->. apply dget_dset_eq.
  - rewrite E in Hp. discriminate.
Qed.

(** C4, as the code has it: whenever the reduced record holds a
    pressure [p], its altitude is [calculate_altitude(p)]; in a window
    of well-formed readings [p] is the rounded mean of the readings'
    pressures, and the altitude depends on these pressures alone: any
    other window with the same pressures, whatever the altitudes and the
    other fields of its readings, reduces to the same altitude. *)
Theorem altitude_from_reduced_pressure (readings : list reading) (now : Q)
    (p : value) :
  dget "pressure" (_calculate_averages float_pow readings now) = Some p ->
  dget "altitude" (_calculate_averages float_pow readings now) =
    Some (VFloat (calculate_altitude float_pow (to_Q p) 1013.25)) /\
  (forallb unique_keys readings = true ->
   p = round2 (mean (field_values "pressure" readings)) /\
   forall readings' now',
     forallb unique_keys readings' = true ->
     field_values "pressure" readings' = field_values "pressure" readings ->
     dget "altitude" (_calculate_averages float_pow readings' now') =
     dget "altitude" (_calculate_averages float_pow readings now)).
Proof.
  intros Hp. split; [now apply altitude_get |].
  intros Hu. pose proof Hp as Hp0.
  rewrite (reduced_pressure_get readings now Hu) in Hp0.
  destruct (field_values "pressure" readings) as [| v vs] eqn:Ev;
    [discriminate |].
  injection Hp0 as Hp0. split; [now symmetry |].
  intros readings' now' Hu' Hv'.
  rewrite (altitude_get readings now p Hp).
  apply altitude_get.
  rewrite (reduced_pressure_get readings' now' Hu'), Hv'.
  now rewrite Hp0.
Qed.

(** *** The data-source tag of an aggregated record *)

Lemma finish_data_source self w data :
  dget "data_source" (finish self w data) = Some (VInt 0).
Proof. unfold finish. apply dget_dset_eq. Qed.

Lemma unique_keys_polled self w : unique_keys (polled float_pow self w) = true.
Proof.
  unfold polled, poll_mq2, poll_ens160, poll_bmp280, poll_aht21, sensor_read.
  repeat match goal with
         | |- context [match ?x with _ => _ end] => destruct x
         end;
    repeat apply unique_keys_dset; reflexivity.
Qed.

Lemma unique_keys_finish self w data :
  unique_keys data = true -> unique_keys (finish self w data) = true.
Proof.
  intros H. unfold finish.
  apply unique_keys_dset. do 2 apply unique_keys_dpop.
  repeat match goal with
         | |- context [match ?x with _ => _ end] => destruct x
         end;
    repeat apply unique_keys_dset; exact H.
Qed.

Lemma window_single_shot cycles : forall acc self,
  Forall single_shot acc ->
  exists self' rs,
    window float_pow cycles acc self = (self', Ret rs) /\ Forall single_shot rs.
Proof.
  induction cycles as [| w rest IH]; intros acc self Hacc.
  - exists self, acc. split; [reflexivity | exact Hacc].
  - rewrite window_cons. destruct (any_contributes self w); [| now apply IH].
    apply IH. apply Forall_app. split; [exact Hacc |].
    constructor; [| constructor]. split.
    + apply unique_keys_finish, unique_keys_polled.
    + apply finish_data_source.
Qed.

Lemma field_values_data_source rs :
  Forall single_shot rs ->
  field_values "data_source" rs = repeat (VInt 0) (List.length rs).
Proof.
  induction 1 as [| r rs [_ Hr] _ IH]; [reflexivity |].
  rewrite field_values_cons, IH. unfold numeric_at. now rewrite Hr.
Qed.

Lemma is_int_zeros n : forallb is_int (repeat (VInt 0) n) = true.
Proof. induction n as [| n IH]; [reflexivity | exact IH]. Qed.

Lemma Qsum_zeros n : (Qsum (map exact_of (repeat (VInt 0) n)) == 0)%Q.
Proof.
  induction n as [| n IH]; [reflexivity |].
  change (0 + Qsum (map exact_of (repeat (VInt 0) n)) == 0)%Q.
  rewrite IH. reflexivity.
Qed.

Lemma mean_zeros n : mean (repeat (VInt 0) (S n)) = VInt 0.
Proof.
  unfold mean.
  assert (Hq : Qred (Qsum (map exact_of (repeat (VInt 0) (S n)))
                     / inject_Z (Z.of_nat (List.length (repeat (VInt 0) (S n)))))
               = 0%Q).
  { change 0%Q with (Qred 0). apply Qred_complete.
    unfold Qdiv. rewrite (Qsum_zeros (S n)). apply Qmult_0_l. }
  rewrite Hq, is_int_zeros. reflexivity.
Qed.

(** Whatever the window, the windowed read returns either the
    empty-window record or a record whose [data_source] is 0. *)
Lemma aggregated_data_source_zero (num_readings : nat) (world : nat -> cycle)
    (now : Q) (self : SensorCollector) :
  exists self' record,
    collect_multiple_readings float_pow num_readings world now self
      = (self', Ret record) /\
    (record = empty_window now \/ dget "data_source" record = Some (VInt 0)).
Proof.
  unfold collect_multiple_readings, bind.
  destruct (window_single_shot (map world (seq 0 num_readings)) [] self
              (Forall_nil _)) as [self' [rs [-> Hrs]]].
  exists self'. destruct rs as [| r rs]; simpl is_empty; cbv iota.
  - eexists. split; [reflexivity | now left].
  - eexists. split; [reflexivity | right].
    assert (Hu : forallb unique_keys (r :: rs) = true).
    { apply forallb_forall. intros x Hx.
      rewrite Forall_forall in Hrs. now destruct (Hrs x Hx). }
    rewrite calculate_averages_get by discriminate.
    assert (Hv : field_values "data_source" (r :: rs)
                 = repeat (VInt 0) (S (List.length rs)))
      by apply (field_values_data_source _ Hrs).
    rewrite reduced_fields_get by (try exact Hu; rewrite Hv; discriminate).
    unfold reduced. simpl categorical. cbv iota.
    now rewrite Hv, mean_zeros.
Qed.

End Reads.

Lemma window_reduction_witness :
  dget "temperature" (_calculate_averages linear_pow window_t_h 0)
    = Some (VFloat 22) /\
  dget "humidity" (_calculate_averages linear_pow window_t_h 0)
    = Some (VFloat 42) /\
  dget "aqi" (_calculate_averages linear_pow window_tiers 0) = Some (VInt 3) /\
  dget "temperature" (_calculate_averages linear_pow window_tenths 0)
    = Some (VFloat (2023 # 100)) /\
  dget "pressure" (_calculate_averages linear_pow window_hundredths 0)
    = Some (VFloat (100653 # 100)).
Proof.
  split; [| split; [| split; [| split]]].
  - refine (proj2 (window_reduction linear_pow window_t_h 0 "temperature"
                     eq_refl _) eq_refl (or_introl _)); discriminate.
  - refine (proj2 (window_reduction linear_pow window_t_h 0 "humidity"
                     eq_refl _) eq_refl (or_introl _)); discriminate.
  - refine (proj1 (window_reduction linear_pow window_tiers 0 "aqi"
                     eq_refl _) eq_refl); discriminate.
  - refine (proj2 (window_reduction linear_pow window_tenths 0 "temperature"
                     eq_refl _) eq_refl (or_introl _)); discriminate.
  - refine (proj2 (window_reduction linear_pow window_hundredths 0 "pressure"
                     eq_refl _) eq_refl (or_introl _)); discriminate.
Defined.

(** C3 as stated fails: the gas-index driver answers tier 3 in the first
    cycle and fails in the second; the reduced tier is 0, not the 3 of
    the last reading that contains the field. *)
Lemma categorical_is_not_last_containing :
  let readings :=
    match snd (window linear_pow [gas_then_silent 0; gas_then_silent 1] []
                 station) with
    | Ret rs => rs
    | Raise _ => []
    end in
  map (dget "aqi") readings = [Some (VInt 3); None] /\
  snd (collect_multiple_readings linear_pow 2 gas_then_silent 2 station)
    = Ret (_calculate_averages linear_pow readings 2) /\
  dget "aqi" (_calculate_averages linear_pow readings 2) = Some (VInt 0).
Proof. vm_compute. auto. Qed.

Lemma altitude_from_reduced_pressure_witness :
  dget "pressure" (_calculate_averages linear_pow window_pressure 0)
    = Some (VFloat 1005) /\
  dget "altitude" (_calculate_averages linear_pow window_pressure 0)
    = Some (VFloat (calculate_altitude linear_pow 1005 1013.25)) /\
  VFloat 1005 = round2 (mean (field_values "pressure" window_pressure)) /\
  dget "altitude" (_calculate_averages linear_pow window_pressure' 7)
    = dget "altitude" (_calculate_averages linear_pow window_pressure 0).
Proof.
  assert (H : dget "pressure" (_calculate_averages linear_pow window_pressure 0)
              = Some (VFloat 1005)) by reflexivity.
  split; [exact H |].
  destruct (altitude_from_reduced_pressure linear_pow window_pressure 0
              (VFloat 1005) H) as [Ha Hm].
  split; [exact Ha |].
  destruct (Hm eq_refl) as [Hp Hi].
  split; [exact Hp |].
  exact (Hi window_pressure' 7%Q eq_refl eq_refl).
Defined.

(** C4 as stated fails: in a steady window, the pressure driver
    answering 1000.0 hPa in both cycles, each reading holds the altitude
    110.9, and the altitude of the reduced record, recomputed from the
    reduced pressure 1000.0, is 110.9: the mean of the readings'
    altitudes, rounded as every averaged field is. *)
Lemma altitude_equals_mean_of_altitudes :
  let readings :=
    match snd (window pow_steady [steady 0; steady 1] [] barometer) with
    | Ret rs => rs
    | Raise _ => []
    end in
  field_values "pressure" readings = [VFloat 1000; VFloat 1000] /\
  field_values "altitude" readings
    = [VFloat (1109 # 10); VFloat (1109 # 10)] /\
  snd (collect_multiple_readings pow_steady 2 steady 2 barometer)
    = Ret (_calculate_averages pow_steady readings 2) /\
  dget "altitude" (_calculate_averages pow_steady readings 2)
    = Some (VFloat (1109 # 10)) /\
  exact_of (mean (field_values "altitude" readings))
    = exact_of (VFloat (1109 # 10)) /\
  round2 (mean (field_values "altitude" readings)) = VFloat (1109 # 10).
Proof. vm_compute. auto 7. Qed.

(** C1 fails on the code: every single-shot reading carries
    [data_source] 0, the reduction averages that field like any other,
    and the aggregated record ends with [data_source] 0 although it is
    created with 1. *)
Theorem aggregated_data_source_overwritten :
  let readings :=
    match snd (window linear_pow [gas_then_silent 0; gas_then_silent 1] []
                 station) with
    | Ret rs => rs
    | Raise _ => []
    end in
  map (dget "data_source") readings = [Some (VInt 0); Some (VInt 0)] /\
  snd (collect_multiple_readings linear_pow 2 gas_then_silent 2 station)
    = Ret (_calculate_averages linear_pow readings 2) /\
  dget "data_source" (_calculate_averages linear_pow readings 2)
    = Some (VInt 0) /\
  dget "samples_count" (_calculate_averages linear_pow readings 2)
    = Some (VInt 2).
Proof. vm_compute. auto 6. Qed.

(** C8 as stated fails: after [close] a read raises nothing; the
    single-shot read returns [None] and the windowed read returns the
    very record an open collector returns for a window in which every
    driver failed. *)
Lemma read_after_close_is_not_an_error :
  let closed := fst (close full_station) in
  snd (read_single_measurement linear_pow (gas_then_silent 0) closed)
    = Ret None /\
  (forall e, snd (read_single_measurement linear_pow (gas_then_silent 0) closed)
             <> Raise e) /\
  snd (collect_multiple_readings linear_pow 3 gas_then_silent 9 closed)
    = Ret (empty_window 9) /\
  snd (collect_multiple_readings linear_pow 3 gas_then_silent 9 closed)
    = snd (collect_multiple_readings linear_pow 3 silent 9 full_station).
Proof.
  intros closed. split; [reflexivity |]. split; [discriminate |].
  split; reflexivity.
Qed.

Lemma empty_window_is_reported_witness :
  collect_multiple_readings linear_pow 3 silent 9 full_station
    = (full_station, Ret (empty_window 9)).
Proof.
  refine (proj1 (empty_window_is_reported linear_pow 3 silent 9 full_station _)).
  intros i _. reflexivity.
Defined.

End CollectorFacts.

(** ** Alarm actuator: the auto-off timer *)

Module BuzzerFacts.
Import Buzzer.

Lemma nth_error_update {A} (f : A -> A) (l : list A) : forall i j,
  nth_error (update i f l) j =
  if (i =? j)%nat then option_map f (nth_error l j) else nth_error l j.
Proof.
  induction l as [| x l IH]; intros i j.
  - destruct i, j; simpl; try reflexivity;
      match goal with |- context [(?a =? ?b)%nat] => now destruct (a =? b)%nat end.
  - destruct i as [| i], j as [| j]; simpl; try reflexivity.
    apply IH.
Qed.

Lemma length_update {A} (f : A -> A) (l : list A) : forall i,
  List.length (update i f l) = List.length l.
Proof.
  induction l as [| x l IH]; intros [| i]; simpl; auto.
Qed.

Lemma update_fixed {A} (f : A -> A) (l : list A) : forall i,
  (forall t, nth_error l i = Some t -> f t = t) -> update i f l = l.
Proof.
  induction l as [| x l IH]; intros [| i] H; simpl; auto.
  - now rewrite (H x eq_refl).
  - now rewrite IH.
Qed.

Lemma cancel_not_waiting t : tstate (cancel t) <> Waiting.
Proof. unfold cancel. destruct (tstate t) eqn:E; simpl; congruence. Qed.

Lemma cancel_fixed t : tstate t <> Waiting -> cancel t = t.
Proof. unfold cancel. destruct (tstate t); congruence. Qed.

Lemma silence_pin_eq self :
  silence_pin self =
  mkBuzzer false (timer self) (if buzzing self then HIGH else pin self)
    (timers self) (now self).
Proof. unfold silence_pin. destruct self as [b t p l n]. simpl. now destruct b. Qed.

Lemma cancel_timer_eq self :
  cancel_timer self =
  mkBuzzer (buzzing self) (timer self) (pin self)
    (match timer self with
     | Some i => update i cancel (timers self)
     | None => timers self
     end)
    (now self).
Proof.
  unfold cancel_timer. destruct self as [b tm p l n]. simpl.
  destruct tm as [i |]; [| reflexivity].
  destruct (nth_error l i) as [t |] eqn:En.
  - destruct (is_alive t) eqn:Ea; [reflexivity |].
    rewrite update_fixed; [reflexivity |].
    intros t' Ht'. rewrite En in Ht'. injection Ht' as <-.
    apply cancel_fixed. unfold is_alive in Ea.
    destruct (tstate t); congruence.
  - rewrite update_fixed; [reflexivity |].
    intros t' Ht'. rewrite En in Ht'. discriminate.
Qed.

(** [stop_buzzing] silences the pin and cancels [self.timer]. *)
Lemma stop_buzzing_eq self :
  stop_buzzing self =
  mkBuzzer false (timer self) (if buzzing self then HIGH else pin self)
    (match timer self with
     | Some i => update i cancel (timers self)
     | None => timers self
     end)
    (now self).
Proof.
  unfold stop_buzzing. rewrite cancel_timer_eq, silence_pin_eq. reflexivity.
Qed.

Lemma Inv_init t0 : Inv (init t0).
Proof.
  split.
  - intros [| j] t H; discriminate H.
  - discriminate.
Qed.

Lemma Inv_no_waiting self :
  buzzing self = false -> no_waiting (timers self) -> Inv self.
Proof.
  intros Hb Hn. split.
  - intros j t Hj Hw. now elim (Hn j t Hj).
  - rewrite Hb. discriminate.
Qed.

Lemma stop_no_waiting self :
  Inv self -> no_waiting (timers (stop_buzzing self)).
Proof.
  intros [Ha _] j t Hj Hw. rewrite stop_buzzing_eq in Hj. simpl in Hj.
  destruct (timer self) as [i |] eqn:Et.
  - rewrite nth_error_update in Hj.
    destruct (Nat.eqb_spec i j) as [-> | Hne].
    + destruct (nth_error (timers self) j) as [t0 |]; [| discriminate].
      injection Hj as <-. now apply cancel_not_waiting in Hw.
    + destruct (Ha j t Hj Hw) as [E _]. congruence.
  - destruct (Ha j t Hj Hw) as [E _]. congruence.
Qed.

Lemma buzzing_stop self : buzzing (stop_buzzing self) = false.
Proof. now rewrite stop_buzzing_eq. Qed.

Lemma Inv_stop self : Inv self -> Inv (stop_buzzing self).
Proof.
  intros H. apply Inv_no_waiting; [apply buzzing_stop | now apply stop_no_waiting].
Qed.

Lemma quiet_no_waiting self : Inv self -> no_waiting (timers (quiet self)).
Proof.
  intros H. unfold quiet. destruct (buzzing self) eqn:Eb.
  - now apply stop_no_waiting.
  - intros j t Hj Hw. destruct H as [Ha _].
    destruct (Ha j t Hj Hw) as [_ E]. congruence.
Qed.

Lemma start_buzzing_eq d self :
  start_buzzing d self =
  mkBuzzer true (Some (List.length (timers (quiet self)))) LOW
    (timers (quiet self) ++ [mkTimer (now (quiet self) + d) Waiting])
    (now (quiet self)).
Proof. reflexivity. Qed.

Lemma nth_error_snoc {A} (l : list A) (x : A) j :
  nth_error (l ++ [x]) j =
  if (j =? List.length l)%nat then Some x else nth_error l j.
Proof.
  destruct (Nat.eqb_spec j (List.length l)) as [-> | Hne].
  - rewrite nth_error_app2 by lia. now rewrite Nat.sub_diag.
  - destruct (Nat.lt_ge_cases j (List.length l)) as [Hlt | Hge].
    + now apply nth_error_app1.
    + rewrite nth_error_app2 by lia.
      destruct (j - List.length l)%nat as [| k] eqn:E; [lia |].
      simpl. destruct k; simpl.
      * symmetry. apply nth_error_None. lia.
      * symmetry. apply nth_error_None. lia.
Qed.

(** After [start_buzzing] the only waiting timer is the new one. *)
Lemma start_single_waiting d self :
  Inv self ->
  forall j t, nth_error (timers (start_buzzing d self)) j = Some t ->
              tstate t = Waiting ->
              j = List.length (timers (quiet self)).
Proof.
  intros H j t Hj Hw. rewrite start_buzzing_eq in Hj. simpl in Hj.
  rewrite nth_error_snoc in Hj.
  destruct (Nat.eqb_spec j (List.length (timers (quiet self)))); [assumption |].
  now elim (quiet_no_waiting self H j t Hj).
Qed.

Lemma Inv_start d self : Inv self -> Inv (start_buzzing d self).
Proof.
  intros H. split.
  - intros j t Hj Hw.
    rewrite (start_single_waiting d self H j t Hj Hw).
    now rewrite start_buzzing_eq.
  - intros _. rewrite start_buzzing_eq. simpl. eexists. eexists.
    split; [reflexivity |]. split.
    + rewrite nth_error_snoc. now rewrite Nat.eqb_refl.
    + reflexivity.
Qed.

Lemma due_waiting i self :
  due i self = true ->
  exists t, nth_error (timers self) i = Some t /\ tstate t = Waiting.
Proof.
  unfold due. destruct (nth_error (timers self) i) as [t |]; [| discriminate].
  destruct (tstate t) eqn:E; try discriminate. eauto.
Qed.

(** The run of a timer with nothing in between: the callback
    [stop_buzzing], and the timer's own state moving to [Fired]. *)
Lemma fire_eq i self :
  fire i self =
  mkBuzzer false (timer self) (if buzzing self then HIGH else pin self)
    (update i (set_tstate Fired)
       (match timer self with
        | Some j =>
            update j cancel
              (update i (set_tstate Releasing)
                 (update i (set_tstate Running) (timers self)))
        | None =>
            update i (set_tstate Releasing)
              (update i (set_tstate Running) (timers self))
        end))
    (now self).
Proof.
  unfold fire, release, silence, wake, mark.
  rewrite cancel_timer_eq, silence_pin_eq. reflexivity.
Qed.

Lemma buzzing_fire i self : buzzing (fire i self) = false.
Proof. now rewrite fire_eq. Qed.

Lemma timers_fire i self :
  timer self = Some i ->
  timers (fire i self) =
  update i (set_tstate Fired)
    (update i cancel
       (update i (set_tstate Releasing)
          (update i (set_tstate Running) (timers self)))).
Proof.
  intros Et. rewrite fire_eq. simpl. now rewrite Et.
Qed.

Lemma Inv_fire i self : Inv self -> due i self = true -> Inv (fire i self).
Proof.
  intros H Hd. destruct (due_waiting i self Hd) as [ti [Hi Hwi]].
  destruct H as [Ha Hc]. destruct (Ha i ti Hi Hwi) as [Et _].
  apply Inv_no_waiting; [apply buzzing_fire |].
  intros j t Hj Hw. rewrite (timers_fire i self Et) in Hj.
  rewrite !nth_error_update in Hj.
  destruct (Nat.eqb_spec i j) as [-> | Hne].
  - destruct (nth_error (timers self) j); [| discriminate].
    injection Hj as <-. discriminate Hw.
  - destruct (Ha j t Hj Hw) as [E _]. congruence.
Qed.

Lemma Inv_step e self : atomic e = true -> Inv self -> Inv (step self e).
Proof.
  intros Ha H. destruct e as [d | | dt | i | i | i | i];
    try discriminate Ha; simpl.
  - now apply Inv_start.
  - now apply Inv_stop.
  - destruct (Qle_bool 0 dt); [| exact H]. exact H.
  - destruct (due i self) eqn:Hd; [now apply Inv_fire | exact H].
Qed.

Lemma Inv_run es : forall self,
  forallb atomic es = true -> Inv self -> Inv (run es self).
Proof.
  unfold run. induction es as [| e es IH]; intros self Ha H; simpl; [exact H |].
  simpl in Ha. apply andb_true_iff in Ha. destruct Ha as [He Ha].
  apply IH; [exact Ha |]. now apply Inv_step.
Qed.

(** Along a run in which no call falls inside a timer's run, the
    callbacks executed are bounded by the start calls made, plus one if
    a timer was already waiting. *)
Lemma callbacks_bound es : forall self,
  forallb atomic es = true -> Inv self ->
  (callbacks es self <= (if buzzing self then 1 else 0) + starts es)%nat.
Proof.
  induction es as [| e es IH]; intros self Hat H; [simpl; lia |].
  simpl in Hat. apply andb_true_iff in Hat. destruct Hat as [He Hat].
  pose proof (IH (step self e) Hat (Inv_step e self He H)) as Hs.
  change (callbacks (e :: es) self)
    with ((match e with
           | Expire i => if due i self then 1 else 0
           | Silence i => if running i self then 1 else 0
           | _ => 0
           end + callbacks es (step self e))%nat).
  destruct e as [d | | dt | i | i | i | i]; try discriminate He;
    cbn [step] in Hs |- *.
  - change (starts (Start d :: es)) with (S (starts es)).
    destruct (buzzing (start_buzzing d self)), (buzzing self); lia.
  - change (starts (Stop :: es)) with (starts es).
    rewrite buzzing_stop in Hs. lia.
  - change (starts (Elapse dt :: es)) with (starts es).
    destruct (Qle_bool 0 dt); cbn [buzzing] in Hs; lia.
  - change (starts (Expire i :: es)) with (starts es).
    destruct (due i self) eqn:Hd.
    + rewrite buzzing_fire in Hs.
      destruct (due_waiting i self Hd) as [t [Hi Hw]].
      destruct H as [Ha _]. destruct (Ha i t Hi Hw) as [_ ->]. lia.
    + lia.
Qed.

(** A cancelled timer stays cancelled, whatever happens and however the
    steps interleave: its callback never runs. *)
Lemma cancelled_step e self j t :
  nth_error (timers self) j = Some t -> tstate t = Cancelled ->
  nth_error (timers (step self e)) j = Some t.
Proof.
  intros Hj Hc.
  assert (Hcan : forall s, nth_error (timers s) j = Some t ->
                           nth_error (timers (cancel_timer s)) j = Some t).
  { intros s Hs. rewrite cancel_timer_eq. simpl.
    destruct (timer s) as [i |]; [| exact Hs].
    rewrite nth_error_update, Hs.
    destruct (i =? j)%nat; [| reflexivity].
    simpl. rewrite cancel_fixed; [reflexivity | congruence]. }
  assert (Hstop : forall s, nth_error (timers s) j = Some t ->
                            nth_error (timers (stop_buzzing s)) j = Some t).
  { intros s Hs. unfold stop_buzzing. apply Hcan.
    now rewrite silence_pin_eq. }
  assert (Hmark : forall i st s, i <> j ->
                    nth_error (timers s) j = Some t ->
                    nth_error (timers (mark i st s)) j = Some t).
  { intros i st s Hne Hs. unfold mark. simpl. rewrite nth_error_update.
    apply Nat.eqb_neq in Hne. now rewrite Hne. }
  destruct e as [d | | dt | i | i | i | i]; cbn [step].
  - rewrite start_buzzing_eq. cbn [timers]. rewrite nth_error_snoc.
    assert (Hq : nth_error (timers (quiet self)) j = Some t).
    { unfold quiet. destruct (buzzing self); [now apply Hstop | exact Hj]. }
    destruct (Nat.eqb_spec j (List.length (timers (quiet self)))) as [E | _];
      [| exact Hq].
    assert (j < List.length (timers (quiet self)))%nat
      by (apply nth_error_Some; congruence).
    lia.
  - now apply Hstop.
  - now destruct (Qle_bool 0 dt).
  - destruct (due i self) eqn:Hd; [| exact Hj].
    destruct (due_waiting i self Hd) as [ti [Hi Hwi]].
    assert (Hne : i <> j) by (intros ->; congruence).
    unfold fire, release, silence, wake.
    apply Hmark; [exact Hne |]. apply Hcan.
    apply Hmark; [exact Hne |]. rewrite silence_pin_eq. cbn [timers].
    now apply Hmark.
  - destruct (due i self) eqn:Hd; [| exact Hj].
    destruct (due_waiting i self Hd) as [ti [Hi Hwi]].
    assert (Hne : i <> j) by (intros ->; congruence).
    unfold wake. now apply Hmark.
  - destruct (running i self) eqn:Hr; [| exact Hj].
    assert (Hne : i <> j).
    { intros ->. unfold running in Hr. rewrite Hj, Hc in Hr. discriminate. }
    unfold silence. apply Hmark; [exact Hne |]. now rewrite silence_pin_eq.
  - destruct (releasing i self) eqn:Hr; [| exact Hj].
    assert (Hne : i <> j).
    { intros ->. unfold releasing in Hr. rewrite Hj, Hc in Hr. discriminate. }
    unfold release. apply Hmark; [exact Hne |]. now apply Hcan.
Qed.

Lemma cancelled_run es : forall self j t,
  nth_error (timers self) j = Some t -> tstate t = Cancelled ->
  nth_error (timers (run es self)) j = Some t.
Proof.
  unfold run. induction es as [| e es IH]; intros self j t Hj Hc; [exact Hj |].
  simpl. apply IH; [| exact Hc]. now apply cancelled_step.
Qed.

(** Once no timer is alive, a sounding buzzer keeps sounding until the
    next call: time and the timers' threads change neither the flag nor
    the pin. *)
Lemma stuck_step e self :
  calls_free e = true -> none_alive self ->
  step self e = self \/
  exists dt, step self e =
             mkBuzzer (buzzing self) (timer self) (pin self) (timers self)
               (now self + dt).
Proof.
  intros Hf Hn. destruct e as [d | | dt | i | i | i | i];
    try discriminate Hf; cbn [step].
  - destruct (Qle_bool 0 dt); [right; now exists dt | now left].
  - left. unfold due.
    destruct (nth_error (timers self) i) as [t |] eqn:E; [| reflexivity].
    specialize (Hn i t E). unfold is_alive in Hn.
    destruct (tstate t); try discriminate; reflexivity.
  - left. unfold due.
    destruct (nth_error (timers self) i) as [t |] eqn:E; [| reflexivity].
    specialize (Hn i t E). unfold is_alive in Hn.
    destruct (tstate t); try discriminate; reflexivity.
  - left. unfold running.
    destruct (nth_error (timers self) i) as [t |] eqn:E; [| reflexivity].
    specialize (Hn i t E). unfold is_alive in Hn.
    destruct (tstate t); try discriminate; reflexivity.
  - left. unfold releasing.
    destruct (nth_error (timers self) i) as [t |] eqn:E; [| reflexivity].
    specialize (Hn i t E). unfold is_alive in Hn.
    destruct (tstate t); try discriminate; reflexivity.
Qed.

Lemma stuck_run es : forall self,
  forallb calls_free es = true -> none_alive self ->
  buzzing (run es self) = buzzing self /\ pin (run es self) = pin self /\
  timers (run es self) = timers self.
Proof.
  unfold run. induction es as [| e es IH]; intros self Hf Hn; [now repeat split |].
  simpl in Hf. apply andb_true_iff in Hf. destruct Hf as [He Hf].
  cbn [fold_left].
  destruct (stuck_step e self He Hn) as [-> | [dt ->]]; [now apply IH |].
  destruct (IH (mkBuzzer (buzzing self) (timer self) (pin self) (timers self)
                  (now self + dt)) Hf) as [H1 [H2 H3]]; [exact Hn |].
  now repeat split.
Qed.

(** C9 fails in the code.  A first [start_buzzing(60)]; 60 s later the
    thread of its timer ends its wait, and before the callback runs
    [start_buzzing(60)] is called again, the buzzer still sounding.
    [cancel()] cannot stop the old timer any more, whose callback then
    silences the buzzer and cancels the NEW timer: the deadline is not
    reset, the buzzer stops at once.  And when the second call falls
    between the two statements of the callback, the new timer is
    cancelled while the buzzer sounds: no timer is left alive, and the
    buzzer sounds until the next call, whatever time passes. *)
Theorem restart_races_with_callback :
  let active := run [Start 60; Elapse 60; Wake 0] (init 0) in
  let restarted := step active (Start 60) in
  let after := run [Silence 0; Release 0] restarted in
  let stuck :=
    run [Start 60; Elapse 60; Wake 0; Silence 0; Start 60; Release 0] (init 0) in
  (buzzing active = true /\ pin active = LOW /\
   timers active = [mkTimer (0 + 60) Running]) /\
  (timer restarted = Some 1%nat /\
   timers restarted
     = [mkTimer (0 + 60) Running; mkTimer (0 + 60 + 60) Waiting]) /\
  (buzzing after = false /\ pin after = HIGH /\
   timers after = [mkTimer (0 + 60) Fired; mkTimer (0 + 60 + 60) Cancelled]) /\
  (buzzing stuck = true /\ pin stuck = LOW /\
   timers stuck = [mkTimer (0 + 60) Fired; mkTimer (0 + 60 + 60) Cancelled]) /\
  (forall es, forallb calls_free es = true ->
              buzzing (run es stuck) = true /\ pin (run es stuck) = LOW).
Proof.
  intros active restarted after stuck.
  split; [repeat split |]. split; [repeat split |].
  split; [repeat split |]. split; [repeat split |].
  intros es Hf.
  assert (Hn : none_alive stuck).
  { intros [| [| [| j]]] t Hj; try discriminate Hj;
      injection Hj as <-; reflexivity. }
  destruct (stuck_run es stuck Hf Hn) as [Hb [Hp _]].
  rewrite Hb, Hp. split; reflexivity.
Qed.

(** X22: when no call falls inside a timer's run, the restart is
    debounced: in any state so reached, a call of [start_buzzing] while
    the buzzer sounds cancels the waiting timer before it arms the new
    one: the old timer is cancelled and its callback never runs
    afterwards, however the later steps interleave; the new timer is
    the only one waiting and its deadline is the current time plus the
    fresh duration; and at most one callback fires per start call. *)
Theorem sequential_restart_is_debounced (t0 : Q) (es : list event) (d : Q) :
  forallb atomic es = true ->
  let self := run es (init t0) in
  buzzing self = true ->
  (callbacks es (init t0) <= starts es)%nat /\
  exists i old,
    timer self = Some i /\ nth_error (timers self) i = Some old /\
    tstate old = Waiting /\
    let self' := start_buzzing d self in
    nth_error (timers self') i = Some (mkTimer (deadline old) Cancelled) /\
    timer self' = Some (List.length (timers self)) /\
    nth_error (timers self') (List.length (timers self))
      = Some (mkTimer (now self + d) Waiting) /\
    (forall j t, nth_error (timers self') j = Some t -> tstate t = Waiting ->
                 j = List.length (timers self)) /\
    (forall es', nth_error (timers (run es' self')) i
                 = Some (mkTimer (deadline old) Cancelled)) /\
    (forall es', forallb atomic es' = true ->
                 (callbacks es' self' <= 1 + starts es')%nat).
Proof.
  intros Hat self Hb.
  assert (HI : Inv self) by (apply Inv_run; [exact Hat | apply Inv_init]).
  split.
  { pose proof (callbacks_bound es (init t0) Hat (Inv_init t0)) as H.
    simpl in H. exact H. }
  destruct HI as [Ha Hc]. destruct (Hc Hb) as [i [old [Et [Hi Hw]]]].
  exists i, old. split; [exact Et |]. split; [exact Hi |]. split; [exact Hw |].
  intros self'.
  assert (Hq : quiet self = stop_buzzing self) by (unfold quiet; now rewrite Hb).
  assert (Htq : timers (quiet self) = update i cancel (timers self))
    by (rewrite Hq, stop_buzzing_eq; simpl; now rewrite Et).
  assert (Hnq : now (quiet self) = now self)
    by (rewrite Hq, stop_buzzing_eq; reflexivity).
  assert (Hlen : List.length (timers (quiet self)) = List.length (timers self))
    by (rewrite Htq; apply length_update).
  assert (Hlt : (i < List.length (timers self))%nat)
    by (apply nth_error_Some; congruence).
  assert (Hold : nth_error (timers self') i
                 = Some (mkTimer (deadline old) Cancelled)).
  { unfold self'. rewrite start_buzzing_eq. cbn [timers].
    rewrite nth_error_snoc, Hlen.
    destruct (Nat.eqb_spec i (List.length (timers self))); [lia |].
    rewrite Htq, nth_error_update, Nat.eqb_refl, Hi. simpl.
    unfold cancel. now rewrite Hw. }
  split; [exact Hold |]. split.
  { unfold self'. rewrite start_buzzing_eq. cbn [timer]. now rewrite Hlen. }
  split.
  { unfold self'. rewrite start_buzzing_eq. cbn [timers].
    rewrite nth_error_snoc, Hlen, Nat.eqb_refl. now rewrite Hnq. }
  split.
  { intros j t Hj Hwj. rewrite <- Hlen.
    apply (start_single_waiting d self (conj Ha Hc) j t Hj Hwj). }
  split.
  { intros es'. now apply cancelled_run. }
  intros es' Hat'.
  pose proof (callbacks_bound es' self' Hat'
                (Inv_start d self (conj Ha Hc))) as H.
  unfold self' in *. rewrite start_buzzing_eq in H at 2. cbn [buzzing] in H.
  exact H.
Qed.

Lemma sequential_restart_is_debounced_witness :
  let self := run [Start 60; Elapse 20] (init 0) in
  buzzing self = true /\
  ((callbacks [Start 60; Elapse 20] (init 0) <= starts [Start 60; Elapse 20])%nat /\
  exists i old,
    timer self = Some i /\ nth_error (timers self) i = Some old /\
    tstate old = Waiting /\
    let self' := start_buzzing 60 self in
    nth_error (timers self') i = Some (mkTimer (deadline old) Cancelled) /\
    timer self' = Some (List.length (timers self)) /\
    nth_error (timers self') (List.length (timers self))
      = Some (mkTimer (now self + 60) Waiting) /\
    (forall j t, nth_error (timers self') j = Some t -> tstate t = Waiting ->
                 j = List.length (timers self)) /\
    (forall es', nth_error (timers (run es' self')) i
                 = Some (mkTimer (deadline old) Cancelled)) /\
    (forall es', forallb atomic es' = true ->
                 (callbacks es' self' <= 1 + starts es')%nat)).
Proof.
  intros self. split; [reflexivity |].
  exact (sequential_restart_is_debounced 0 [Start 60; Elapse 20] 60
           eq_refl eq_refl).
Defined.

(** The example of the specification: with 40 s remaining of a first
    60 s, a second start(60) cancels the first timer and sets the
    deadline 60 s ahead. *)
Example restart_with_40s_remaining :
  let self := run [Start 60; Elapse 20] (init 0) in
  timers self = [mkTimer (0 + 60) Waiting] /\
  timers (start_buzzing 60 self)
    = [mkTimer (0 + 60) Cancelled; mkTimer (0 + 20 + 60) Waiting].
Proof. split; reflexivity. Qed.

End BuzzerFacts.

(** ** Register decoding *)

Module BitFacts.

(** OR-ing a value below [2^n] into a value shifted left by [n] adds. *)
Lemma lor_shiftl_low (x y n : Z) :
  0 <= n -> 0 <= y < 2 ^ n ->
  Z.lor (Z.shiftl x n) y = x * 2 ^ n + y.
Proof.
  intros Hn Hy. rewrite Z.shiftl_mul_pow2 by exact Hn.
  assert (H0 : Z.land (x * 2 ^ n) y = 0).
  { apply Z.bits_inj'. intros m Hm. rewrite Z.land_spec, Z.bits_0.
    destruct (Z.lt_ge_cases m n) as [Hlt | Hge].
    - rewrite Z.mul_pow2_bits_low by exact Hlt. reflexivity.
    - destruct (Z.eq_dec y 0) as [-> | Hy0].
      + rewrite Z.bits_0. apply andb_false_r.
      + rewrite (Z.bits_above_log2 y m); [apply andb_false_r | lia |].
        assert (Z.log2 y < n) by (apply Z.log2_lt_pow2; lia). lia. }
  rewrite <- Z.lxor_lor by exact H0.
  symmetry. now apply Z.add_nocarry_lxor.
Qed.

Lemma shiftr_4 (v : Z) : Z.shiftr v 4 = v / 16.
Proof. exact (Z.shiftr_div_pow2 v 4 ltac:(lia)). Qed.

Lemma shiftl_8 (v : Z) : Z.shiftl v 8 = v * 256.
Proof. exact (Z.shiftl_mul_pow2 v 8 ltac:(lia)). Qed.

(** [(b0 << 12) | (b1 << 4) | (b2 >> 4)] on three bytes. *)
Lemma packed_20bit (b0 b1 b2 : Z) :
  0 <= b0 < 256 -> 0 <= b1 < 256 -> 0 <= b2 < 256 ->
  Z.lor (Z.lor (Z.shiftl b0 12) (Z.shiftl b1 4)) (Z.shiftr b2 4)
  = b0 * 4096 + b1 * 16 + b2 / 16.
Proof.
  intros H0 H1 H2.
  assert (Hq : 0 <= b2 / 16 < 16)
    by (split; [apply Z.div_pos; lia | apply Z.div_lt_upper_bound; lia]).
  rewrite shiftr_4.
  rewrite (Z.shiftl_mul_pow2 b1 4) by lia.
  rewrite (lor_shiftl_low b0 (b1 * 2 ^ 4) 12) by lia.
  change (2 ^ 12) with 4096. change (2 ^ 4) with 16.
  assert (E : b0 * 4096 + b1 * 16 = Z.shiftl (b0 * 256 + b1) 4)
    by (rewrite Z.shiftl_mul_pow2 by lia; change (2 ^ 4) with 16; lia).
  rewrite E at 1.
  rewrite lor_shiftl_low by (change (2 ^ 4) with 16; lia).
  change (2 ^ 4) with 16. lia.
Qed.

End BitFacts.

(** ** Pressure driver: registers and faults *)

Module BMP280Registers.
Import Bus BMP280 BitFacts.

(** X1: a calibration word is read little-endian; the unsigned reader
    returns [lo + 256*hi] in [0, 65535], the signed reader returns its
    two's-complement reading in [-32768, 32767], negative exactly when
    the top bit of the high byte is set. *)
Theorem calibration_word_decode (self : SimpleBMP280) (reg lo hi : Z)
    (rest : list txn) :
  is_byte lo -> is_byte hi ->
  script (bus self) = Ack [lo; hi] :: rest ->
  let self' := set_bus (mkSMBus rest (written (bus self))) self in
  _read_unsigned_short reg self = (self', Ret (lo + 256 * hi)) /\
  0 <= lo + 256 * hi < 65536 /\
  exists v,
    _read_signed_short reg self = (self', Ret v) /\
    -32768 <= v < 32768 /\
    v mod 65536 = lo + 256 * hi /\
    (v < 0 <-> 128 <= hi).
Proof.
  intros Hlo Hhi Hs self'. unfold is_byte in Hlo, Hhi.
  assert (Hu : _read_unsigned_short reg self = (self', Ret (lo + 256 * hi))).
  { unfold _read_unsigned_short, bind, get, on_bus, read_i2c_block_data, lift.
    rewrite Hs. cbn -[Z.shiftl Z.mul Z.add]. unfold ret. rewrite shiftl_8.
    f_equal. f_equal. lia. }
  split; [exact Hu |]. split; [lia |].
  unfold _read_signed_short, bind, get, on_bus, read_i2c_block_data, lift.
  rewrite Hs. cbn -[Z.shiftl Z.mul Z.add Z.sub Z.ltb]. rewrite shiftl_8.
  destruct (32767 <? lo + hi * 256) eqn:E.
  - apply Z.ltb_lt in E. exists (lo + hi * 256 - 65536).
    split; [reflexivity |]. split; [lia |]. split; [| lia].
    rewrite <- (Z.mod_unique (lo + hi * 256 - 65536) 65536 (-1)
                  (lo + 256 * hi)); [reflexivity | left; lia | lia].
  - apply Z.ltb_ge in E. exists (lo + hi * 256).
    split; [reflexivity |]. split; [lia |]. split; [| lia].
    rewrite Z.mod_small by lia. lia.
Qed.

Lemma calibration_word_decode_witness :
  let self := datasheet (mkSMBus [Ack [0x18; 0xFC]] []) in
  let self' := datasheet (mkSMBus [] []) in
  _read_unsigned_short 0x8C self = (self', Ret 64536) /\
  _read_signed_short 0x8C self = (self', Ret (-1000)).
Proof.
  intros self self'.
  destruct (calibration_word_decode self 0x8C 0x18 0xFC []
              ltac:(unfold is_byte; lia) ltac:(unfold is_byte; lia) eq_refl)
    as [Hu [_ [v [Hv _]]]].
  split; [exact Hu |].
  assert (E : _read_signed_short 140 self = (self', Ret (-1000))) by reflexivity.
  exact E.
Defined.

Lemma raw_samples (self : SimpleBMP280) (d0 d1 d2 d3 d4 d5 : Z)
    (rest : list txn) :
  is_byte d0 -> is_byte d1 -> is_byte d2 ->
  is_byte d3 -> is_byte d4 -> is_byte d5 ->
  script (bus self) = Ack [d0; d1; d2; d3; d4; d5] :: rest ->
  _read_raw_data self =
    (set_bus (mkSMBus rest (written (bus self))) self,
     Ret (d3 * 4096 + d4 * 16 + d5 / 16, d0 * 4096 + d1 * 16 + d2 / 16)).
Proof.
  intros H0 H1 H2 H3 H4 H5 Hs.
  unfold is_byte in H0, H1, H2, H3, H4, H5.
  unfold _read_raw_data, bind, get, on_bus, read_i2c_block_data, lift.
  rewrite Hs. cbn -[Z.shiftl Z.shiftr Z.lor Z.mul Z.add Z.div]. unfold ret.
  rewrite !packed_20bit by assumption. reflexivity.
Qed.

(** X2: on an acknowledged 6-byte burst, [_read_raw_data] returns the
    two 20-bit samples [b0*4096 + b1*16 + b2//16] (pressure from bytes
    0-2, temperature from bytes 3-5), both in [0, 2^20), and changes
    nothing of the driver but the bus position. *)
Theorem raw_samples_decode (self : SimpleBMP280) (d0 d1 d2 d3 d4 d5 : Z)
    (rest : list txn) :
  is_byte d0 -> is_byte d1 -> is_byte d2 ->
  is_byte d3 -> is_byte d4 -> is_byte d5 ->
  script (bus self) = Ack [d0; d1; d2; d3; d4; d5] :: rest ->
  let press_raw := d0 * 4096 + d1 * 16 + d2 / 16 in
  let temp_raw := d3 * 4096 + d4 * 16 + d5 / 16 in
  _read_raw_data self =
    (set_bus (mkSMBus rest (written (bus self))) self,
     Ret (temp_raw, press_raw)) /\
  0 <= press_raw < 1048576 /\ 0 <= temp_raw < 1048576.
Proof.
  intros H0 H1 H2 H3 H4 H5 Hs press_raw temp_raw.
  unfold is_byte in H0, H1, H2, H3, H4, H5.
  assert (Hq2 : 0 <= d2 / 16 < 16)
    by (split; [apply Z.div_pos; lia | apply Z.div_lt_upper_bound; lia]).
  assert (Hq5 : 0 <= d5 / 16 < 16)
    by (split; [apply Z.div_pos; lia | apply Z.div_lt_upper_bound; lia]).
  split; [| unfold press_raw, temp_raw; lia].
  now apply raw_samples.
Qed.

Lemma raw_samples_decode_witness :
  _read_raw_data (datasheet (mkSMBus [Ack burst] [])) =
    (datasheet (mkSMBus [] []), Ret (519888, 415148)).
Proof.
  refine (proj1 (raw_samples_decode (datasheet (mkSMBus [Ack burst] []))
                   0x65 0x5A 0xC0 0x7E 0xED 0x00 [] _ _ _ _ _ _ eq_refl));
    unfold is_byte; lia.
Defined.

Lemma raw_data_fault (self : SimpleBMP280) :
  (forall data rest, script (bus self) = Ack data :: rest ->
                     (List.length data < 6)%nat) ->
  exists self' e,
    _read_raw_data self = (self', Raise e) /\ t_fine self' = t_fine self.
Proof.
  intros H.
  unfold _read_raw_data, bind, get, on_bus, read_i2c_block_data, lift.
  destruct (script (bus self)) as [| [data |] rest] eqn:Hs;
    [do 2 eexists; split; reflexivity | | do 2 eexists; split; reflexivity].
  specialize (H data rest eq_refl).
  destruct data as [| a0 [| a1 [| a2 [| a3 [| a4 [| a5 data]]]]]];
    cbn [List.length] in H; try lia;
    cbn -[Z.shiftl Z.shiftr Z.lor]; do 2 eexists; split; reflexivity.
Qed.

(** X3: when the burst read is not acknowledged, or delivers fewer than
    6 bytes, [read] returns [(None, None)] without raising, and the
    fine temperature kept by the driver is unchanged. *)
Theorem read_fault_reports_no_fields (self : SimpleBMP280) :
  (forall data rest, script (bus self) = Ack data :: rest ->
                     (List.length data < 6)%nat) ->
  snd (read self) = Ret (None, None) /\
  t_fine (fst (read self)) = t_fine self.
Proof.
  intros H. destruct (raw_data_fault self H) as [self' [e [Hr Ht]]].
  unfold read, try_except, read_body, bind. rewrite Hr.
  split; [reflexivity | exact Ht].
Qed.

Lemma read_fault_reports_no_fields_witness :
  snd (read (datasheet (mkSMBus [Nack] []))) = Ret (None, None) /\
  snd (read (datasheet (mkSMBus [Ack [0x65; 0x5A; 0xC0]] []))) = Ret (None, None).
Proof.
  split.
  - refine (proj1 (read_fault_reports_no_fields
                     (datasheet (mkSMBus [Nack] [])) _)).
    intros data rest H. discriminate H.
  - refine (proj1 (read_fault_reports_no_fields
                     (datasheet (mkSMBus [Ack [0x65; 0x5A; 0xC0]] [])) _)).
    intros data rest H. injection H as <- _. simpl. lia.
Defined.

End BMP280Registers.

(** ** Pressure driver: construction *)

Module BMP280Construction.
Import Bus BMP280 BitFacts.

Lemma keeps_ret {S A} (I : S -> Prop) (a : A) : keeps I (ret a).
Proof. intros s H. exact H. Qed.

Lemma keeps_modify {S} (I : S -> Prop) (f : S -> S) :
  (forall s, I s -> I (f s)) -> keeps I (modify f).
Proof. intros H s Hs. now apply H. Qed.

Lemma keeps_bind {S A B} (I : S -> Prop) (m : M S A) (k : A -> M S B)
    (R : A -> Prop) :
  yields I m R -> (forall a, R a -> keeps I (k a)) -> keeps I (bind m k).
Proof.
  intros Hm Hk s Hs. unfold bind.
  destruct (Hm s Hs) as [HI HR].
  destruct (m s) as [s' [a | e]]; simpl in *.
  - now apply (Hk a (HR a eq_refl)).
  - exact HI.
Qed.

Lemma keeps_yields {S A} (I : S -> Prop) (m : M S A) :
  keeps I m -> yields I m (fun _ => True).
Proof. intros H s Hs. split; [now apply H | trivial]. Qed.

Lemma byteb_spec b : byteb b = true -> 0 <= b < 256.
Proof. unfold byteb. intros H. apply andb_true_iff in H. lia. Qed.

Section Reads.
Variables (a : Z) (log : list (Z * Z * list Z)).

Lemma construction_set_bus rest self :
  under_construction a log self ->
  wf_script rest = true ->
  under_construction a log (set_bus (mkSMBus rest (written (bus self))) self).
Proof.
  intros [Ha [Hw [Ht [_ Hc]]]] Hr. repeat split; try assumption; apply Hc.
Qed.

(** What one 16-bit read does to a driver under construction. *)
Lemma short_read_cases reg self :
  under_construction a log self ->
  (exists e self',
     on_bus (read_i2c_block_data (address self) reg 2) self = (self', Raise e)
     /\ under_construction a log self') \/
  (exists data rest,
     on_bus (read_i2c_block_data (address self) reg 2) self
       = (set_bus (mkSMBus rest (written (bus self))) self, Ret data)
     /\ under_construction a log
          (set_bus (mkSMBus rest (written (bus self))) self)
     /\ forallb byteb data = true).
Proof.
  intros H. pose proof H as [_ [_ [_ [Hwf _]]]].
  unfold on_bus, read_i2c_block_data.
  destruct (script (bus self)) as [| [data |] rest] eqn:Hs.
  - left. do 2 eexists. split; [reflexivity |].
    destruct self as [[sc wr] ad tf t1 t2 t3 p1 p2 p3 p4 p5 p6 p7 p8 p9].
    simpl in *. subst sc. exact H.
  - simpl in Hwf. apply andb_true_iff in Hwf. destruct Hwf as [Hd Hr].
    right. exists data, rest. split; [reflexivity |].
    split; [now apply construction_set_bus | exact Hd].
  - simpl in Hwf. left. do 2 eexists. split; [reflexivity |].
    now apply construction_set_bus.
Qed.

Lemma unsigned_short_yields reg :
  yields (under_construction a log) (_read_unsigned_short reg) unsigned16.
Proof.
  intros self H. unfold _read_unsigned_short, bind, get.
  destruct (short_read_cases reg self H)
    as [[e [self' [-> H']]] | [data [rest [-> [H' Hd]]]]].
  - split; [exact H' | discriminate].
  - destruct data as [| d0 [| d1 data]];
      cbn -[Z.shiftl Z.add]; try (split; [exact H' | discriminate]).
    split; [exact H' |]. intros v Hv.
    assert (Ev : v = d0 + Z.shiftl d1 8) by congruence. subst v.
    simpl in Hd. apply andb_true_iff in Hd. destruct Hd as [H0 Hd].
    apply andb_true_iff in Hd. destruct Hd as [H1 _].
    apply byteb_spec in H0, H1. rewrite shiftl_8. unfold unsigned16. lia.
Qed.

Lemma signed_short_yields reg :
  yields (under_construction a log) (_read_signed_short reg) signed16.
Proof.
  intros self H. unfold _read_signed_short, bind, get.
  destruct (short_read_cases reg self H)
    as [[e [self' [-> H']]] | [data [rest [-> [H' Hd]]]]].
  - split; [exact H' | discriminate].
  - destruct data as [| d0 [| d1 data]];
      cbn -[Z.shiftl Z.add Z.sub Z.ltb];
      try (split; [exact H' | discriminate]).
    simpl in Hd. apply andb_true_iff in Hd. destruct Hd as [H0 Hd].
    apply andb_true_iff in Hd. destruct Hd as [H1 _].
    apply byteb_spec in H0, H1. rewrite shiftl_8.
    destruct (32767 <? d0 + d1 * 256) eqn:E.
    + apply Z.ltb_lt in E. cbv beta iota delta [fst snd ret].
      split; [exact H' |].
      intros v Hv. assert (Ev : v = d0 + d1 * 256 - 65536) by congruence.
      subst v. unfold signed16. lia.
    + apply Z.ltb_ge in E. cbv beta iota delta [fst snd ret].
      split; [exact H' |].
      intros v Hv. assert (Ev : v = d0 + d1 * 256) by congruence.
      subst v. unfold signed16. lia.
Qed.

Ltac setter_keeps :=
  intros s [Ha [Hw [Ht [Hs Hc]]]];
  unfold cal_ranges in Hc;
  unfold under_construction, cal_ranges; simpl; intuition.

Ltac load reader :=
  eapply keeps_bind;
  [ apply reader
  | intros ? ?; eapply keeps_bind;
    [ apply keeps_yields, keeps_modify; setter_keeps | intros _ _ ] ].

Lemma read_calibration_keeps :
  keeps (under_construction a log) _read_calibration.
Proof.
  unfold _read_calibration.
  load unsigned_short_yields. load signed_short_yields.
  load signed_short_yields. load unsigned_short_yields.
  load signed_short_yields. load signed_short_yields.
  load signed_short_yields. load signed_short_yields.
  load signed_short_yields. load signed_short_yields.
  load signed_short_yields. load signed_short_yields.
  apply keeps_ret.
Qed.

Lemma configure_writes self self' :
  under_construction a log self ->
  _configure self = (self', Ret tt) ->
  address self' = a /\ t_fine self' = 0 /\ cal_ranges self' /\
  written (bus self') = log ++ [(a, 0xF4, [0x67]); (a, 0xF5, [0x10])].
Proof.
  intros [Ha [Hw [Ht [_ Hc]]]].
  unfold _configure, bind, get, on_bus, write_byte_data, write_i2c_block_data.
  destruct (script (bus self)) as [| [d1 |] [| [d2 |] rest]]; simpl;
    try discriminate.
  intros [= <-]. simpl. rewrite Ha, Hw, <- app_assoc.
  repeat split; try assumption; apply Hc.
Qed.

End Reads.

Lemma blank_ranges b a :
  cal_ranges (mkBMP280 b a 0 0 0 0 0 0 0 0 0 0 0 0 0).
Proof. unfold cal_ranges, unsigned16, signed16. simpl. lia. Qed.

(** How the detection ends well: the chip identity 0x58 answers at the
    given address, or at 0x77 after another identity at the first. *)
Lemma detect_cases b a self :
  wf_script (script b) = true ->
  detect (mkBMP280 b a 0 0 0 0 0 0 0 0 0 0 0 0 0) = (self, Ret true) ->
  under_construction (address self) (written b) self /\
  ((exists x rest, script b = Ack (0x58 :: x) :: rest /\ address self = a) \/
   (exists c x y rest,
      script b = Ack (c :: x) :: Ack (0x58 :: y) :: rest /\ c <> 0x58
      /\ address self = 0x77)).
Proof.
  intros Hwf.
  unfold detect, bind, get, on_bus, read_byte_data, modify.
  destruct b as [sc wr]. simpl in *.
  destruct sc as [| [[| c x] |] sc]; simpl; try discriminate.
  simpl in Hwf. apply andb_true_iff in Hwf. destruct Hwf as [_ Hwf].
  destruct (c =? 88) eqn:Ec.
  - apply Z.eqb_eq in Ec. subst c. intros [= <-]. simpl. split.
    + repeat split; try assumption; apply blank_ranges.
    + left. eauto.
  - apply Z.eqb_neq in Ec. simpl.
    destruct sc as [| [[| c2 y] |] sc]; simpl; try discriminate.
    simpl in Hwf. apply andb_true_iff in Hwf. destruct Hwf as [_ Hwf].
    destruct (c2 =? 88) eqn:Ec2; simpl; [| discriminate].
    apply Z.eqb_eq in Ec2. subst c2. intros [= <-]. simpl. split.
    + repeat split; try assumption; apply (blank_ranges (mkSMBus sc wr) 119).
    + right. exists c, x, y, sc. auto.
Qed.

(** X4: when [SimpleBMP280(address)] returns on a bus that delivers
    bytes, a chip has answered the identity 0x58 at the given address or,
    after another identity there, at 0x77, and the driver is committed
    to that address; the fine temperature is 0; every calibration
    coefficient lies in the range of its 16-bit type (T1 and P1
    unsigned, the others signed); and the only writes made are 0x67 to
    register 0xF4 and 0x10 to register 0xF5 at the committed address. *)
Theorem constructed_driver (b : SMBus) (a : Z) (self : SimpleBMP280) :
  wf_script (script b) = true ->
  __init__ b a = (self, Built tt) ->
  ((exists x rest, script b = Ack (0x58 :: x) :: rest /\ address self = a) \/
   (exists c x y rest,
      script b = Ack (c :: x) :: Ack (0x58 :: y) :: rest /\ c <> 0x58
      /\ address self = 0x77)) /\
  t_fine self = 0 /\ cal_ranges self /\
  written (bus self)
    = written b ++ [(address self, 0xF4, [0x67]); (address self, 0xF5, [0x10])].
Proof.
  intros Hwf. unfold __init__.
  destruct (detect (mkBMP280 b a 0 0 0 0 0 0 0 0 0 0 0 0 0))
    as [s1 [[|] | e]] eqn:Hd; try discriminate.
  destruct (detect_cases b a s1 Hwf Hd) as [H1 Hid].
  unfold bind.
  pose proof (read_calibration_keeps (address s1) (written b) s1 H1) as H2.
  destruct (_read_calibration s1) as [s2 [[] | e]] eqn:Hc; simpl in H2;
    [| discriminate].
  destruct (_configure s2) as [s3 [[] | e]] eqn:Hf; [| discriminate].
  intros [= <-].
  destruct (configure_writes (address s1) (written b) s2 s3 H2 Hf)
    as [Ha [Ht [Hr Hw]]].
  rewrite Ha. split; [| split; [exact Ht | split; [exact Hr | exact Hw]]].
  destruct Hid as [[x [rest [Hs Hx]]] | [c [x [y [rest [Hs [Hne Hx]]]]]]].
  - left. exists x, rest. now rewrite <- Hx.
  - right. exists c, x, y, rest. now rewrite <- Hx.
Qed.

Lemma constructed_driver_witness :
  __init__ (mkSMBus boot_script []) 0x76
    = (datasheet (mkSMBus [] [(0x76, 0xF4, [0x67]); (0x76, 0xF5, [0x10])]),
       Built tt) /\
  cal_ranges (datasheet (mkSMBus [] [(0x76, 0xF4, [0x67]); (0x76, 0xF5, [0x10])])).
Proof.
  assert (H : __init__ (mkSMBus boot_script []) 0x76
              = (datasheet (mkSMBus [] [(0x76, 0xF4, [0x67]);
                                        (0x76, 0xF5, [0x10])]), Built tt))
    by reflexivity.
  split; [exact H |].
  exact (proj1 (proj2 (proj2
           (constructed_driver (mkSMBus boot_script []) 0x76 _ eq_refl H)))).
Defined.

End BMP280Construction.

(** ** Gas-index driver: read, faults, construction *)

Module ENS160Registers.
Import Bus ENS160 BitFacts ENS160Facts DoubleFacts.

(** X5: when the three read transactions are acknowledged, [read]
    returns the tier byte as it is (also as its description) and the two
    concentrations decoded little-endian; when the first transaction is
    not acknowledged it returns [None]; it never raises. *)
Theorem air_quality_decode (self : SimpleENS160) :
  (forall a x t0 t1 y e0 e1 z rest,
     script (bus self)
       = Ack (a :: x) :: Ack (t0 :: t1 :: y) :: Ack (e0 :: e1 :: z) :: rest ->
     read self =
       (mkENS160 (mkSMBus rest (written (bus self))) (address self),
        Ret (Some (mkAir a a (t0 + 256 * t1) (e0 + 256 * e1))))) /\
  (forall rest, script (bus self) = [] \/ script (bus self) = Nack :: rest ->
                snd (read self) = Ret None) /\
  (forall e, snd (read self) <> Raise e).
Proof.
  split; [| split].
  - intros a x t0 t1 y e0 e1 z rest Hs.
    unfold read, try_except, bind, get, on_bus, read_byte_data,
      read_i2c_block_data, lift.
    rewrite Hs. cbn -[Z.shiftl Z.add Z.mul]. unfold ret.
    rewrite !shiftl_8. do 4 f_equal; lia.
  - intros rest [Hs | Hs];
      unfold read, try_except, bind, get, on_bus, read_byte_data;
      rewrite Hs; reflexivity.
  - intros e. unfold read, try_except.
    match goal with
    | |- context [match ?m self with _ => _ end] =>
        destruct (m self) as [s' [r | e']]
    end; discriminate.
Qed.

Lemma air_quality_decode_witness :
  read (mkENS160 (mkSMBus [Ack [2]; Ack [0x2C; 0x01]; Ack [0x58; 0x02]] [])
          0x52)
    = (mkENS160 (mkSMBus [] []) 0x52,
       Ret (Some (mkAir 2 2 (0x2C + 256 * 0x01) (0x58 + 256 * 0x02)))).
Proof.
  exact (proj1 (air_quality_decode
                  (mkENS160
                     (mkSMBus [Ack [2]; Ack [0x2C; 0x01]; Ack [0x58; 0x02]] [])
                     0x52))
           2 [] 0x2C 0x01 [] 0x58 0x02 [] [] eq_refl).
Defined.

Lemma int_of_float_bounds (q : Q) (n : Z) :
  (0 <= q)%Q -> (q < inject_Z n)%Q -> 0 <= int_of_float q < n.
Proof.
  intros H0 Hn. rewrite int_of_float_floor by exact H0. split.
  - change 0 with (Qfloor 0). now apply Qfloor_resp_le.
  - rewrite Zlt_Qlt. eapply Qle_lt_trans; [apply Qfloor_le | exact Hn].
Qed.

Lemma word_of_pair (v : Z) :
  0 <= v < 65536 ->
  word_of [Z.land v 0xFF; Z.land (Z.shiftr v 8) 0xFF] = Some v.
Proof.
  intros H. unfold word_of. rewrite shiftl_8.
  pose proof (word_bytes v) as E. rewrite Z.mod_small in E by exact H.
  f_equal. lia.
Qed.

(** Every temperature of one decimal from -40.0 to 85.0 and every
    humidity of one decimal from 0.0 to 100.0, one by one. *)
Lemma kelvin_products :
  forallb
    (fun k => within 0 65536
                (fmul (fadd (tenths (Z.of_nat k - 400)) 273.15) 64))
    (seq 0 1251) = true.
Proof. vm_compute. reflexivity. Qed.

Lemma humidity_products :
  forallb
    (fun k => within 0 513 (fmul (fdiv (tenths (Z.of_nat k)) 100) 512))
    (seq 0 1001) = true.
Proof. vm_compute. reflexivity. Qed.

Lemma within_spec (lo hi x : Q) :
  within lo hi x = true -> (lo <= x)%Q /\ (x < hi)%Q.
Proof.
  unfold within. intros H. apply andb_true_iff in H. destruct H as [H1 H2].
  split; [now apply Qle_bool_iff |].
  apply Qnot_le_lt. intros H. apply Qle_bool_iff in H.
  rewrite H in H2. discriminate.
Qed.

(** X6: for every temperature of one decimal in [-40.0, 85.0] and every
    humidity of one decimal in [0.0, 100.0], the values the
    humidity/temperature driver returns, on a bus that acknowledges both
    writes, the byte pairs written to registers 0x13 and 0x15 decode
    little-endian to exactly [int((T+273.15)*64)] and [int(H/100*512)],
    products taken in double arithmetic: no bit is lost to the 16-bit
    word. *)
Theorem environment_words_fit (temperature humidity : Q) (t h : Z)
    (a1 a2 : list Z) (rest : list txn) (log : list (Z * Z * list Z))
    (addr : Z) :
  (temperature == tenths t)%Q -> -400 <= t <= 850 ->
  (humidity == tenths h)%Q -> 0 <= h <= 1000 ->
  exists p1 p2,
    written (bus (fst (set_environment temperature humidity
                         (mkENS160 (mkSMBus (Ack a1 :: Ack a2 :: rest) log)
                            addr))))
      = log ++ [(addr, 0x13, p1); (addr, 0x15, p2)] /\
    word_of p1 = Some (int_of_float (fmul (fadd temperature 273.15) 64)) /\
    word_of p2 = Some (int_of_float (fmul (fdiv humidity 100) 512)) /\
    0 <= int_of_float (fmul (fadd temperature 273.15) 64) < 65536 /\
    0 <= int_of_float (fmul (fdiv humidity 100) 512) <= 512.
Proof.
  intros Et Ht Eh Hh.
  assert (Bt : 0 <= int_of_float (fmul (fadd temperature 273.15) 64) < 65536).
  { unfold fadd. rewrite (double_of_comp temperature (tenths t) Et).
    pose proof kelvin_products as K. rewrite forallb_forall in K.
    specialize (K (Z.to_nat (t + 400))).
    rewrite Z2Nat.id in K by lia.
    replace (t + 400 - 400) with t in K by lia.
    destruct (within_spec _ _ _ (K ltac:(apply in_seq; lia))) as [K1 K2].
    now apply int_of_float_bounds. }
  assert (Bh : 0 <= int_of_float (fmul (fdiv humidity 100) 512) < 513).
  { unfold fdiv. rewrite (double_of_comp humidity (tenths h) Eh).
    pose proof humidity_products as K. rewrite forallb_forall in K.
    specialize (K (Z.to_nat h)).
    rewrite Z2Nat.id in K by lia.
    destruct (within_spec _ _ _ (K ltac:(apply in_seq; lia))) as [K1 K2].
    now apply int_of_float_bounds. }
  eexists. eexists. split.
  - unfold set_environment, try_except, bind.
    rewrite !write_word_ack. cbn [fst bus written].
    rewrite <- app_assoc. reflexivity.
  - split; [apply word_of_pair; exact Bt |].
    split; [apply word_of_pair; lia |]. split; [exact Bt | lia].
Qed.

(** At -20.4 degrees the double product is 16175.999999999998, and the
    word written is 16175. *)
Lemma environment_words_fit_witness :
  exists p1 p2,
    written (bus (fst (set_environment (-20.4) 50
                         (mkENS160 (mkSMBus [Ack []; Ack []] []) 0x52))))
      = [] ++ [(0x52, 0x13, p1); (0x52, 0x15, p2)] /\
    word_of p1 = Some 16175 /\
    word_of p2 = Some 256 /\
    0 <= 16175 < 65536 /\ 0 <= 256 <= 512.
Proof.
  apply (environment_words_fit (-20.4) 50 (-204) 500 [] [] [] [] 0x52);
    try reflexivity; lia.
Defined.


(** X8: [SimpleENS160()] returns only if the part identity read
    little-endian from register 0 is 0x0160 and both mode writes are
    acknowledged; it has then written 0xF0 and 0x02, in this order, to
    register 0x10 and nothing else. *)
Theorem constructed_gas_driver (b : SMBus) (a : Z) (self : SimpleENS160) :
  __init__ b a = (self, Built tt) ->
  exists d0 d1 x a1 a2 rest,
    script b = Ack (d0 :: d1 :: x) :: Ack a1 :: Ack a2 :: rest /\
    d0 + 256 * d1 = 0x0160 /\
    self = mkENS160
             (mkSMBus rest (written b ++ [(a, 0x10, [0xF0]); (a, 0x10, [0x02])]))
             a.
Proof.
  unfold __init__, detect, bind, get, on_bus, read_i2c_block_data, lift,
    write_byte_data, write_i2c_block_data.
  destruct b as [sc wr]. cbn [bus script written address].
  destruct sc as [| [[| d0 [| d1 x]] |] sc];
    cbn -[Z.shiftl Z.add Z.mul Z.eqb]; try discriminate.
  rewrite shiftl_8.
  destruct (d0 + d1 * 256 =? 352) eqn:E; cbn -[Z.shiftl Z.add Z.mul Z.eqb];
    [| discriminate].
  apply Z.eqb_eq in E.
  destruct sc as [| [a1 |] [| [a2 |] rest]]; cbn -[Z.add Z.mul];
    try discriminate.
  intros [= <-]. exists d0, d1, x, a1, a2, rest.
  split; [reflexivity |]. split; [lia |].
  now rewrite <- app_assoc.
Qed.

Lemma constructed_gas_driver_witness :
  exists d0 d1 x a1 a2 rest,
    [Ack [0x60; 0x01]; Ack []; Ack []]
      = Ack (d0 :: d1 :: x) :: Ack a1 :: Ack a2 :: rest /\
    d0 + 256 * d1 = 0x0160 /\
    mkENS160 (mkSMBus [] [(0x52, 0x10, [0xF0]); (0x52, 0x10, [0x02])]) 0x52
      = mkENS160
          (mkSMBus rest ([] ++ [(0x52, 0x10, [0xF0]); (0x52, 0x10, [0x02])]))
          0x52.
Proof.
  exact (constructed_gas_driver
           (mkSMBus [Ack [0x60; 0x01]; Ack []; Ack []] []) 0x52 _ eq_refl).
Defined.

End ENS160Registers.

(** ** Humidity/temperature driver *)

Module AHT21Facts.
Import Bus AHT21 BitFacts.

(** Rounding half to even stays between integer bounds. *)
Lemma round_half_even_bounds (q : Q) (lo hi : Z) :
  (inject_Z lo <= q)%Q -> (q <= inject_Z hi)%Q ->
  lo <= round_half_even q <= hi.
Proof.
  intros Hlo Hhi. unfold round_half_even.
  assert (Hf1 : lo <= Qfloor q)
    by (rewrite <- (Qfloor_Z lo); now apply Qfloor_resp_le).
  assert (Hf2 : Qfloor q <= hi)
    by (rewrite <- (Qfloor_Z hi); now apply Qfloor_resp_le).
  assert (Hup : (0 < q - inject_Z (Qfloor q))%Q -> Qfloor q + 1 <= hi).
  { intros Hpos.
    assert (Hlt : (inject_Z (Qfloor q) < inject_Z hi)%Q).
    { apply Qlt_le_trans with q; [| exact Hhi].
      apply (Qplus_lt_l _ _ (- inject_Z (Qfloor q))).
      rewrite Qplus_opp_r. exact Hpos. }
    rewrite <- Zlt_Qlt in Hlt. lia. }
  destruct (Qcompare (q - inject_Z (Qfloor q)) (1 # 2)) eqn:E.
  - apply Qeq_alt in E.
    destruct (Z.even (Qfloor q)); [lia |].
    split; [lia |]. apply Hup. rewrite E. reflexivity.
  - lia.
  - apply Qgt_alt in E. split; [lia |]. apply Hup.
    apply Qlt_trans with (1 # 2); [reflexivity | exact E].
Qed.

Lemma round1f_bounds (q : Q) (lo hi : Z) :
  (inject_Z lo <= q)%Q -> (q <= inject_Z hi)%Q ->
  (inject_Z lo <= round1f q)%Q /\ (round1f q <= inject_Z hi)%Q.
Proof.
  intros Hlo Hhi. unfold round1f. rewrite Qred_correct.
  assert (H : lo * 10 <= round_half_even (q * 10) <= hi * 10).
  { apply round_half_even_bounds.
    - rewrite inject_Z_mult. apply Qmult_le_compat_r; [exact Hlo | discriminate].
    - rewrite inject_Z_mult. apply Qmult_le_compat_r; [exact Hhi | discriminate]. }
  generalize dependent (round_half_even (q * 10)). intros r Hr.
  unfold Qle, Qdiv, Qmult, Qinv, inject_Z. simpl. lia.
Qed.

(** The four plausibility tests of [read]. *)
Lemma plausible_spec (humidity temperature : Q) :
  (Qle_bool 0 humidity && Qle_bool humidity 100)
  && (Qle_bool (-40) temperature && Qle_bool temperature 85) = true ->
  (0 <= humidity)%Q /\ (humidity <= 100)%Q
  /\ (-40 <= temperature)%Q /\ (temperature <= 85)%Q.
Proof.
  intros H. apply andb_true_iff in H. destruct H as [Hh Ht].
  apply andb_true_iff in Hh. apply andb_true_iff in Ht.
  destruct Hh as [H1 H2], Ht as [H3 H4].
  apply Qle_bool_iff in H1, H2, H3, H4. auto.
Qed.

(** The outcomes of the body of [read]. *)
Lemma read_body_cases (self : AHT21_Reliable) :
  (exists e, snd (read_body self) = Raise e) \/
  snd (read_body self) = Ret (None, None) \/
  (exists humidity temperature,
     snd (read_body self)
       = Ret (Some (round1f humidity), Some (round1f temperature))
     /\ (Qle_bool 0 humidity && Qle_bool humidity 100)
        && (Qle_bool (-40) temperature && Qle_bool temperature 85) = true).
Proof.
  unfold read_body, bind, get, on_bus, write_i2c_block_data,
    read_i2c_block_data, lift.
  destruct (script (bus self)) as [| [a |] [| [data |] rest]];
    cbn [bus script written address fst snd];
    try (left; eexists; reflexivity).
  destruct data as [| d0 [| d1 [| d2 [| d3 [| d4 [| d5 data]]]]]];
    cbn [index nth_error]; try (left; eexists; reflexivity).
  match goal with
  | |- context [if ?c then _ else _] => destruct c eqn:E
  end.
  - right. right. eexists. eexists. split; [reflexivity | exact E].
  - right. left. reflexivity.
Qed.

(** X9: whatever the bus delivers, [read] returns either no value at
    all or a humidity within [0, 100] together with a temperature
    within [-40, 85], both after rounding to one decimal; it never
    returns one value without the other and never raises. *)
Theorem plausible_or_nothing (self : AHT21_Reliable) :
  snd (read self) = Ret (None, None) \/
  exists humidity temperature,
    snd (read self) = Ret (Some humidity, Some temperature) /\
    (0 <= humidity)%Q /\ (humidity <= 100)%Q /\
    (-40 <= temperature)%Q /\ (temperature <= 85)%Q.
Proof.
  unfold read, try_except.
  destruct (read_body_cases self) as [[e H] | [H | [h [t [H Hp]]]]];
    destruct (read_body self) as [s' [r | e']]; simpl in H;
    try discriminate.
  - left. reflexivity.
  - left. exact H.
  - right. exists (round1f h), (round1f t).
    split; [exact H |].
    destruct (plausible_spec h t Hp) as [H1 [H2 [H3 H4]]].
    destruct (round1f_bounds h 0 100 H1 H2) as [B1 B2].
    destruct (round1f_bounds t (-40) 85 H3 H4) as [B3 B4].
    auto.
Qed.

Lemma land_15 (v : Z) : Z.land v 0x0F = v mod 16.
Proof. exact (Z.land_ones v 4 ltac:(lia)). Qed.

(** [((b3 & 0x0F) << 16) | (b4 << 8) | b5] on three bytes. *)
Lemma packed_temperature (b3 b4 b5 : Z) :
  0 <= b3 < 256 -> 0 <= b4 < 256 -> 0 <= b5 < 256 ->
  Z.lor (Z.lor (Z.shiftl (Z.land b3 0x0F) 16) (Z.shiftl b4 8)) b5
  = (b3 mod 16) * 65536 + b4 * 256 + b5.
Proof.
  intros H3 H4 H5. rewrite land_15.
  assert (Hm : 0 <= b3 mod 16 < 16) by (apply Z.mod_pos_bound; lia).
  rewrite (shiftl_8 b4).
  rewrite (lor_shiftl_low (b3 mod 16) (b4 * 256) 16)
    by (change (2 ^ 16) with 65536; lia).
  change (2 ^ 16) with 65536.
  assert (E : b3 mod 16 * 65536 + b4 * 256
              = Z.shiftl (b3 mod 16 * 256 + b4) 8)
    by (rewrite shiftl_8; lia).
  rewrite E at 1.
  rewrite lor_shiftl_low by (change (2 ^ 8) with 256; lia).
  change (2 ^ 8) with 256. lia.
Qed.

Lemma humidity_always_plausible (humidity_raw : Z) :
  0 <= humidity_raw < 1048576 ->
  Qle_bool 0 (humidity_of humidity_raw) && Qle_bool (humidity_of humidity_raw) 100
  = true.
Proof.
  intros H. apply andb_true_iff.
  split; apply Qle_bool_iff; unfold humidity_of, Qle, Qdiv, Qmult, Qinv, inject_Z;
    simpl; lia.
Qed.

Lemma temperature_plausible_iff (temperature_raw : Z) :
  Qle_bool (-40) (temperature_of temperature_raw)
  && Qle_bool (temperature_of temperature_raw) 85
  = (52429 <=? temperature_raw) && (temperature_raw <=? 707788).
Proof.
  apply eq_true_iff_eq. rewrite !andb_true_iff, !Qle_bool_iff.
  rewrite Z.leb_le, Z.leb_le.
  unfold temperature_of, Qle, Qminus, Qplus, Qopp, Qdiv, Qmult, Qinv, inject_Z.
  simpl. lia.
Qed.

(** X10: on an acknowledged trigger and 6-byte answer, the raw humidity
    is [b1*4096 + b2*16 + b3//16] and the raw temperature is
    [(b3 mod 16)*65536 + b4*256 + b5]; the humidity test never
    rejects, and [read] returns values exactly when the raw temperature
    lies in [52429, 707788] (the codes of -40 to 85 degrees); outside,
    it returns [(None, None)], not a clamped value. *)
Theorem measurement_decode (self : AHT21_Reliable) (a : list Z)
    (d0 d1 d2 d3 d4 d5 : Z) (rest : list txn) :
  0 <= d1 < 256 -> 0 <= d2 < 256 -> 0 <= d3 < 256 ->
  0 <= d4 < 256 -> 0 <= d5 < 256 ->
  script (bus self) = Ack a :: Ack [d0; d1; d2; d3; d4; d5] :: rest ->
  let humidity_raw := d1 * 4096 + d2 * 16 + d3 / 16 in
  let temperature_raw := (d3 mod 16) * 65536 + d4 * 256 + d5 in
  snd (read self) =
    if (52429 <=? temperature_raw) && (temperature_raw <=? 707788)
    then Ret (Some (round1f (humidity_of humidity_raw)),
              Some (round1f (temperature_of temperature_raw)))
    else Ret (None, None).
Proof.
  intros H1 H2 H3 H4 H5 Hs humidity_raw temperature_raw.
  assert (Hq : 0 <= d3 / 16 < 16)
    by (split; [apply Z.div_pos; lia | apply Z.div_lt_upper_bound; lia]).
  unfold read, try_except, read_body, bind, get, on_bus,
    write_i2c_block_data, read_i2c_block_data, lift.
  rewrite Hs. cbn [bus script written address fst snd index nth_error].
  rewrite packed_20bit, packed_temperature by assumption.
  fold humidity_raw temperature_raw.
  rewrite humidity_always_plausible by (unfold humidity_raw; lia).
  rewrite andb_true_l, temperature_plausible_iff.
  destruct ((52429 <=? temperature_raw) && (temperature_raw <=? 707788));
    reflexivity.
Qed.

Lemma measurement_decode_witness :
  snd (read (mkAHT21
               (mkSMBus [Ack []; Ack [0x1C; 0x80; 0x00; 0x05; 0x99; 0x9A]] [])
               0x38))
    = Ret (Some 50%Q, Some 20%Q) /\
  snd (read (mkAHT21
               (mkSMBus [Ack []; Ack [0x1C; 0x80; 0x00; 0x0F; 0xFF; 0xFF]] [])
               0x38))
    = Ret (None, None).
Proof.
  split.
  - exact (measurement_decode
             (mkAHT21 (mkSMBus [Ack []; Ack [0x1C; 0x80; 0x00; 0x05; 0x99; 0x9A]]
                         []) 0x38)
             [] 0x1C 0x80 0x00 0x05 0x99 0x9A []
             ltac:(lia) ltac:(lia) ltac:(lia) ltac:(lia) ltac:(lia) eq_refl).
  - exact (measurement_decode
             (mkAHT21 (mkSMBus [Ack []; Ack [0x1C; 0x80; 0x00; 0x0F; 0xFF; 0xFF]]
                         []) 0x38)
             [] 0x1C 0x80 0x00 0x0F 0xFF 0xFF []
             ltac:(lia) ltac:(lia) ltac:(lia) ltac:(lia) ltac:(lia) eq_refl).
Defined.

End AHT21Facts.

(** ** Analog gas driver *)

Module MQ2Facts.
Import Collector MQ2.




End MQ2Facts.

(** ** Collector: the fields of a reading *)

Module CollectorReadings.
Import Collector DictFacts CollectorFacts.

Lemma dget_dpop_eq {A} k (d : dict A) :
  unique_keys d = true -> dget k (dpop k d) = None.
Proof.
  induction d as [| [k' v'] d IH]; simpl; [reflexivity |].
  intros H. apply andb_true_iff in H. destruct H as [H1 H2].
  apply negb_true_iff in H1.
  destruct (String.eqb_spec k k') as [-> | Hne].
  - now apply dmem_false_dget.
  - simpl. apply String.eqb_neq in Hne. rewrite Hne. now apply IH.
Qed.

Ltac dget_other :=
  repeat first [ rewrite dget_dset_neq by (assumption || discriminate)
               | rewrite dget_dpop_neq by (assumption || discriminate) ].

Section Readings.
Variable float_pow : Q -> Q -> Q.

Lemma poll_aht21_true self w data :
  aht21_contributes self w = true ->
  exists humidity temperature,
    aht21_read w = Ret (Some humidity, Some temperature) /\
    poll_aht21 self w data
      = dset "humidity" (VFloat humidity)
          (dset "temperature_aht" (VFloat temperature) data).
Proof.
  unfold aht21_contributes, poll_aht21, sensor_read.
  destruct (aht21 (init_success self)), (aht21 (sensors self));
    simpl; try discriminate.
  destruct (aht21_read w) as [[[h |] [t |]] | e]; try discriminate.
  intros _. eauto.
Qed.

Lemma poll_aht21_false self w data :
  aht21_contributes self w = false -> poll_aht21 self w data = data.
Proof.
  intros H. destruct (poll_aht21_spec self w data) as [[_ E] | [E _]];
    [exact E | congruence].
Qed.

Lemma poll_bmp280_true self w data :
  bmp280_contributes self w = true ->
  exists temp_bmp pressure,
    bmp280_read w = Ret (Some temp_bmp, Some pressure) /\
    poll_bmp280 float_pow self w data
      = dset "altitude" (VFloat (calculate_altitude float_pow pressure 1013.25))
          (dset "pressure" (VFloat pressure)
             (dset "temperature_bmp" (VFloat temp_bmp) data)).
Proof.
  unfold bmp280_contributes, poll_bmp280, sensor_read.
  destruct (bmp280 (init_success self)), (bmp280 (sensors self));
    simpl; try discriminate.
  destruct (bmp280_read w) as [[[h |] [t |]] | e]; try discriminate.
  intros _. eauto.
Qed.

Lemma poll_bmp280_false self w data :
  bmp280_contributes self w = false -> poll_bmp280 float_pow self w data = data.
Proof.
  intros H. destruct (poll_bmp280_spec float_pow self w data)
    as [[_ E] | [E _]]; [exact E | congruence].
Qed.

(** The gas-index and analog polls set none of the environment keys. *)
Lemma poll_ens160_other key self w data :
  key <> "aqi" -> key <> "tvoc" -> key <> "eco2" ->
  dget key (poll_ens160 self w data) = dget key data.
Proof.
  intros H1 H2 H3. unfold poll_ens160.
  destruct (ens160 (init_success self)); [| reflexivity].
  destruct (sensor_read (ens160 (sensors self)) (ens160_read w))
    as [[ens |] | e]; try reflexivity.
  now dget_other.
Qed.

Lemma poll_mq2_other key self w data :
  key <> "mq2_adc" -> key <> "mq2_voltage" -> key <> "mq2_status" ->
  dget key (poll_mq2 self w data) = dget key data.
Proof.
  intros H1 H2 H3. unfold poll_mq2.
  destruct (mq2 (init_success self)); [| reflexivity].
  destruct (sensor_read (mq2 (sensors self)) (mq2_read w))
    as [[m |] | e]; try reflexivity.
  now dget_other.
Qed.

Lemma poll_aht21_other key self w data :
  key <> "temperature_aht" -> key <> "humidity" ->
  dget key (poll_aht21 self w data) = dget key data.
Proof.
  intros H1 H2. unfold poll_aht21.
  destruct (aht21 (init_success self)); [| reflexivity].
  destruct (sensor_read (aht21 (sensors self)) (aht21_read w))
    as [[[h |] [t |]] | e]; try reflexivity.
  now dget_other.
Qed.

Lemma poll_bmp280_other key self w data :
  key <> "temperature_bmp" -> key <> "pressure" -> key <> "altitude" ->
  dget key (poll_bmp280 float_pow self w data) = dget key data.
Proof.
  intros H1 H2 H3. unfold poll_bmp280.
  destruct (bmp280 (init_success self)); [| reflexivity].
  destruct (sensor_read (bmp280 (sensors self)) (bmp280_read w))
    as [[[h |] [t |]] | e]; try reflexivity.
  now dget_other.
Qed.

(** An environment key of the polled dictionary comes from the first
    two polls. *)
Lemma polled_environment key self w :
  key <> "aqi" -> key <> "tvoc" -> key <> "eco2" ->
  key <> "mq2_adc" -> key <> "mq2_voltage" -> key <> "mq2_status" ->
  dget key (polled float_pow self w)
  = dget key (poll_bmp280 float_pow self w (poll_aht21 self w [])).
Proof.
  intros. unfold polled.
  rewrite poll_mq2_other, poll_ens160_other by assumption. reflexivity.
Qed.

(** A key no driver and no bookkeeping step sets is absent. *)
Lemma polled_foreign key self w :
  key <> "aqi" -> key <> "tvoc" -> key <> "eco2" ->
  key <> "mq2_adc" -> key <> "mq2_voltage" -> key <> "mq2_status" ->
  key <> "temperature_bmp" -> key <> "pressure" -> key <> "altitude" ->
  key <> "temperature_aht" -> key <> "humidity" ->
  dget key (polled float_pow self w) = None.
Proof.
  intros. rewrite polled_environment by assumption.
  rewrite poll_bmp280_other, poll_aht21_other by assumption. reflexivity.
Qed.

Lemma finish_eq self w data :
  finish self w data
  = dset "data_source" (VInt 0)
      (dpop "temperature_bmp" (dpop "temperature_aht" (sourced self w data))).
Proof. reflexivity. Qed.

Lemma unique_keys_sourced self w data :
  unique_keys data = true -> unique_keys (sourced self w data) = true.
Proof.
  intros H. unfold sourced.
  repeat match goal with
         | |- context [match ?x with _ => _ end] => destruct x
         end;
    repeat apply unique_keys_dset; exact H.
Qed.

Lemma finish_get key self w data :
  key <> "data_source" -> key <> "temperature_aht" ->
  key <> "temperature_bmp" ->
  dget key (finish self w data) = dget key (sourced self w data).
Proof. intros. rewrite finish_eq. now dget_other. Qed.

Lemma sourced_other key self w data :
  key <> "timestamp" -> key <> "reading_count" ->
  key <> "temperature" -> key <> "temperature_source" ->
  dget key (sourced self w data) = dget key data.
Proof.
  intros. unfold sourced.
  repeat match goal with
         | |- context [match ?x with _ => _ end] => destruct x
         end;
    now dget_other.
Qed.

Lemma sourced_temperature self w data :
  dget "temperature" data = None ->
  dget "temperature_source" data = None ->
  dget "temperature" (sourced self w data)
  = match dget "temperature_aht" data with
    | Some t => Some t
    | None => dget "temperature_bmp" data
    end
  /\ dget "temperature_source" (sourced self w data)
     = match dget "temperature_aht" data, dget "temperature_bmp" data with
       | Some _, _ => Some (VInt 0)
       | None, Some _ => Some (VInt 1)
       | None, None => None
       end.
Proof.
  intros Ht Hs. unfold sourced.
  rewrite !(dget_dset_neq "temperature_aht") by discriminate.
  rewrite !(dget_dset_neq "temperature_bmp") by discriminate.
  destruct (dget "temperature_aht" data) as [t |].
  - split; [| apply dget_dset_eq].
    rewrite dget_dset_neq by discriminate. apply dget_dset_eq.
  - destruct (dget "temperature_bmp" data) as [t |].
    + split; [| apply dget_dset_eq].
      rewrite dget_dset_neq by discriminate. apply dget_dset_eq.
    + split; now dget_other.
Qed.

Lemma sourced_meta self w data :
  dget "timestamp" (sourced self w data) = Some (VFloat (clock w)) /\
  dget "reading_count" (sourced self w data) = Some (VInt (reading_count self)).
Proof.
  unfold sourced.
  repeat match goal with
         | |- context [match ?x with _ => _ end] => destruct x
         end;
    split; dget_other; apply dget_dset_eq.
Qed.

(** What the first two polls leave under the environment keys. *)
Lemma polled_aht21_keys self w :
  (aht21_contributes self w = true ->
   exists humidity temperature,
     aht21_read w = Ret (Some humidity, Some temperature) /\
     dget "humidity" (polled float_pow self w) = Some (VFloat humidity) /\
     dget "temperature_aht" (polled float_pow self w)
       = Some (VFloat temperature)) /\
  (aht21_contributes self w = false ->
   dget "humidity" (polled float_pow self w) = None /\
   dget "temperature_aht" (polled float_pow self w) = None).
Proof.
  split; intros H.
  - destruct (poll_aht21_true self w [] H) as [h [t [Hr Hp]]].
    exists h, t. split; [exact Hr |].
    rewrite !polled_environment by discriminate.
    rewrite !poll_bmp280_other by discriminate. rewrite Hp.
    split; [apply dget_dset_eq |].
    rewrite dget_dset_neq by discriminate. apply dget_dset_eq.
  - rewrite !polled_environment by discriminate.
    rewrite !poll_bmp280_other by discriminate.
    rewrite (poll_aht21_false self w [] H). split; reflexivity.
Qed.

Lemma polled_bmp280_keys self w :
  (bmp280_contributes self w = true ->
   exists temp_bmp pressure,
     bmp280_read w = Ret (Some temp_bmp, Some pressure) /\
     dget "temperature_bmp" (polled float_pow self w) = Some (VFloat temp_bmp) /\
     dget "pressure" (polled float_pow self w) = Some (VFloat pressure) /\
     dget "altitude" (polled float_pow self w)
       = Some (VFloat (calculate_altitude float_pow pressure 1013.25))) /\
  (bmp280_contributes self w = false ->
   dget "temperature_bmp" (polled float_pow self w) = None /\
   dget "pressure" (polled float_pow self w) = None /\
   dget "altitude" (polled float_pow self w) = None).
Proof.
  split; intros H.
  - destruct (poll_bmp280_true self w (poll_aht21 self w []) H)
      as [t [p [Hr Hp]]].
    exists t, p. split; [exact Hr |].
    rewrite !polled_environment by discriminate. rewrite Hp.
    split; [| split].
    + do 2 rewrite dget_dset_neq by discriminate. apply dget_dset_eq.
    + rewrite dget_dset_neq by discriminate. apply dget_dset_eq.
    + apply dget_dset_eq.
  - rewrite !polled_environment by discriminate.
    rewrite (poll_bmp280_false self w _ H).
    rewrite !poll_aht21_other by discriminate. repeat split.
Qed.

(** The fields of the record built from the polled dictionary. *)
Lemma finish_fields (w : cycle) (self : SensorCollector) :
  let data := finish self w (polled float_pow self w) in
  (dget "temperature_aht" data = None /\ dget "temperature_bmp" data = None /\
   dget "timestamp" data = Some (VFloat (clock w)) /\
   dget "reading_count" data = Some (VInt (reading_count self)) /\
   dget "data_source" data = Some (VInt 0)) /\
  (aht21_contributes self w = true ->
   exists humidity temperature,
     aht21_read w = Ret (Some humidity, Some temperature) /\
     dget "humidity" data = Some (VFloat humidity) /\
     dget "temperature" data = Some (VFloat temperature) /\
     dget "temperature_source" data = Some (VInt 0)) /\
  (aht21_contributes self w = false ->
   dget "humidity" data = None /\
   (bmp280_contributes self w = true ->
    exists temp_bmp pressure,
      bmp280_read w = Ret (Some temp_bmp, Some pressure) /\
      dget "temperature" data = Some (VFloat temp_bmp) /\
      dget "temperature_source" data = Some (VInt 1)) /\
   (bmp280_contributes self w = false ->
    dget "temperature" data = None /\
    dget "temperature_source" data = None)) /\
  (bmp280_contributes self w = true ->
   exists temp_bmp pressure,
     bmp280_read w = Ret (Some temp_bmp, Some pressure) /\
     dget "pressure" data = Some (VFloat pressure) /\
     dget "altitude" data
       = Some (VFloat (calculate_altitude float_pow pressure 1013.25))) /\
  (bmp280_contributes self w = false ->
   dget "pressure" data = None /\ dget "altitude" data = None).
Proof.
  intros data. subst data.
  pose proof (unique_keys_sourced self w _ (unique_keys_polled float_pow self w))
    as Hu.
  destruct (sourced_meta self w (polled float_pow self w)) as [Hts Hrc].
  assert (Hfor : dget "temperature" (polled float_pow self w) = None
                 /\ dget "temperature_source" (polled float_pow self w) = None)
    by (split; apply polled_foreign; discriminate).
  destruct Hfor as [Hft Hfs].
  destruct (sourced_temperature self w _ Hft Hfs) as [Htemp Hsrc].
  destruct (polled_aht21_keys self w) as [Hat Haf].
  destruct (polled_bmp280_keys self w) as [Hbt Hbf].
  split; [| split; [| split; [| split]]].
  - rewrite finish_eq. repeat split.
    + rewrite dget_dset_neq, dget_dpop_neq by discriminate.
      now apply dget_dpop_eq.
    + rewrite dget_dset_neq by discriminate.
      apply dget_dpop_eq. now apply unique_keys_dpop.
    + now dget_other.
    + now dget_other.
    + apply dget_dset_eq.
  - intros Ha. destruct (Hat Ha) as [h [t [Hr [Hh Hta]]]].
    exists h, t. split; [exact Hr |].
    rewrite !finish_get by discriminate.
    rewrite sourced_other by discriminate.
    rewrite Htemp, Hsrc, Hta. auto.
  - intros Ha. destruct (Haf Ha) as [Hh Hta].
    rewrite !finish_get by discriminate.
    rewrite sourced_other by discriminate.
    rewrite Htemp, Hsrc, Hta. split; [exact Hh |]. split.
    + intros Hb. destruct (Hbt Hb) as [t [p [Hr [Htb _]]]].
      exists t, p. rewrite Htb. auto.
    + intros Hb. destruct (Hbf Hb) as [Htb _]. rewrite Htb. auto.
  - intros Hb. destruct (Hbt Hb) as [t [p [Hr [_ [Hp Hal]]]]].
    exists t, p. split; [exact Hr |].
    rewrite !finish_get by discriminate.
    rewrite !sourced_other by discriminate. auto.
  - intros Hb. destruct (Hbf Hb) as [_ [Hp Hal]].
    rewrite !finish_get by discriminate.
    rewrite !sourced_other by discriminate. auto.
Qed.

(** X12: the record of a successful single-shot read carries the clock,
    the counter value before the read and the single-shot tag; the
    temporary keys are gone.  The temperature is the
    humidity/temperature driver's whenever that driver contributed
    (source 0), the pressure driver's only otherwise (source 1), and
    absent with its source tag when neither contributed.  Pressure and
    altitude are present exactly when the pressure driver contributed,
    the altitude being [calculate_altitude] of that pressure. *)
Theorem reading_fields (w : cycle) (self self' : SensorCollector)
    (data : reading) :
  read_single_measurement float_pow w self = (self', Ret (Some data)) ->
  (dget "temperature_aht" data = None /\ dget "temperature_bmp" data = None /\
   dget "timestamp" data = Some (VFloat (clock w)) /\
   dget "reading_count" data = Some (VInt (reading_count self)) /\
   dget "data_source" data = Some (VInt 0)) /\
  (aht21_contributes self w = true ->
   exists humidity temperature,
     aht21_read w = Ret (Some humidity, Some temperature) /\
     dget "humidity" data = Some (VFloat humidity) /\
     dget "temperature" data = Some (VFloat temperature) /\
     dget "temperature_source" data = Some (VInt 0)) /\
  (aht21_contributes self w = false ->
   dget "humidity" data = None /\
   (bmp280_contributes self w = true ->
    exists temp_bmp pressure,
      bmp280_read w = Ret (Some temp_bmp, Some pressure) /\
      dget "temperature" data = Some (VFloat temp_bmp) /\
      dget "temperature_source" data = Some (VInt 1)) /\
   (bmp280_contributes self w = false ->
    dget "temperature" data = None /\
    dget "temperature_source" data = None)) /\
  (bmp280_contributes self w = true ->
   exists temp_bmp pressure,
     bmp280_read w = Ret (Some temp_bmp, Some pressure) /\
     dget "pressure" data = Some (VFloat pressure) /\
     dget "altitude" data
       = Some (VFloat (calculate_altitude float_pow pressure 1013.25))) /\
  (bmp280_contributes self w = false ->
   dget "pressure" data = None /\ dget "altitude" data = None).
Proof.
  rewrite read_single_measurement_eq.
  destruct (any_contributes self w); [| discriminate].
  intros [= _ <-]. apply finish_fields.
Qed.

End Readings.

Lemma reading_fields_witness :
  let w := mkCycle (Ret (Some 40%Q, Some 20%Q)) (Ret (Some 21%Q, Some 1000%Q))
             (Ret None) (Raise OSError) 7 in
  exists data,
    read_single_measurement linear_pow w full_station
      = (set_reading_count 1 full_station, Ret (Some data)) /\
    dget "temperature" data = Some (VFloat 20) /\
    dget "temperature_source" data = Some (VInt 0) /\
    dget "pressure" data = Some (VFloat 1000) /\
    dget "temperature_bmp" data = None.
Proof.
  intros w.
  assert (E : exists data,
             read_single_measurement linear_pow w full_station
             = (set_reading_count 1 full_station, Ret (Some data)))
    by (exists (finish full_station w (polled linear_pow full_station w));
        reflexivity).
  destruct E as [data E]. exists data. split; [exact E |].
  destruct (reading_fields linear_pow w full_station _ data E)
    as [[_ [Hb _]] [Ha [_ [Hp _]]]].
  destruct (Ha eq_refl) as [h [t [Hr [_ [Ht Hs]]]]].
  destruct (Hp eq_refl) as [t' [p [Hr' [Hpr _]]]].
  injection Hr as <- <-. injection Hr' as <- <-. auto.
Defined.

End CollectorReadings.

(** ** Collector: whole windows *)

Module CollectorWindows.
Import Collector DictFacts CollectorFacts CollectorReadings.

Lemma filter_length {A} (f : A -> bool) (l : list A) :
  (List.length (filter f l) <= List.length l)%nat.
Proof.
  induction l as [| x l IH]; simpl; [lia |].
  destruct (f x); simpl; lia.
Qed.

Lemma field_values_absent key rs :
  Forall (fun r => dget key r = None) rs -> field_values key rs = [].
Proof.
  induction 1 as [| r rs Hr _ IH]; [reflexivity |].
  rewrite field_values_cons, IH. unfold numeric_at. now rewrite Hr.
Qed.

Lemma field_values_present key rs :
  rs <> [] ->
  Forall (fun r => exists v, dget key r = Some v /\ is_number v = true) rs ->
  field_values key rs <> [].
Proof.
  intros Hne H. destruct H as [| r rs [v [Hv Hn]] _]; [now elim Hne |].
  rewrite field_values_cons. unfold numeric_at. rewrite Hv, Hn. discriminate.
Qed.

Section Windows.
Variable float_pow : Q -> Q -> Q.

(** A key no reading holds keeps the value the record was created
    with. *)
Lemma reduced_fields_untouched key readings now :
  forallb unique_keys readings = true ->
  field_values key readings = [] ->
  dget key (reduced_fields readings now)
  = dget key [("timestamp", VFloat now);
              ("samples_count", VInt (Z.of_nat (List.length readings)));
              ("data_source", VInt 1)].
Proof.
  intros Hu Hv. unfold reduced_fields.
  destruct (fields_ok_collect_all readings [] fields_ok_nil) as [Hk _].
  rewrite reduce_all_get by exact Hk.
  rewrite numeric_fields_get by exact Hu.
  now rewrite Hv.
Qed.

(** The loop over the cycles of a window: the readings it appends, one
    per contributing cycle, and the collector it leaves. *)
Lemma window_run (P : reading -> Prop) cycles : forall acc self,
  (forall n w, In w cycles -> any_contributes self w = true ->
               P (finish (set_reading_count n self) w (polled float_pow self w))) ->
  exists self' rs,
    window float_pow cycles acc self = (self', Ret (acc ++ rs)) /\
    sensors self' = sensors self /\ init_success self' = init_success self /\
    initialized self' = initialized self /\
    reading_count self'
      = reading_count self + Z.of_nat (contributing self cycles) /\
    List.length rs = contributing self cycles /\
    Forall P rs.
Proof.
  induction cycles as [| w rest IH]; intros acc self HP.
  - exists self, []. rewrite app_nil_r. unfold contributing. simpl.
    repeat split; auto. lia.
  - rewrite window_cons. unfold contributing. cbn [filter].
    destruct (any_contributes self w) eqn:E.
    + destruct (IH (acc ++ [finish self w (polled float_pow self w)])
                  (set_reading_count (reading_count self + 1) self))
        as [s' [rs [Hw [H1 [H2 [H3 [H4 [H5 H6]]]]]]]].
      { intros n w' Hin Hc. apply (HP n w'); [now right | exact Hc]. }
      exists s', (finish self w (polled float_pow self w) :: rs).
      rewrite Hw, <- app_assoc. cbn [List.length].
      change (contributing (set_reading_count (reading_count self + 1) self) rest)
        with (contributing self rest) in H4, H5.
      unfold contributing in H4, H5. cbn [reading_count set_reading_count] in H4.
      repeat split; auto; try lia.
      constructor; [| exact H6].
      apply (HP (reading_count self) w); [now left | exact E].
    + destruct (IH acc self) as [s' [rs H]].
      { intros n w' Hin Hc. apply (HP n w'); [now right | exact Hc]. }
      exists s', rs. exact H.
Qed.

Lemma finish_plain self w :
  plain (finish self w (polled float_pow self w)).
Proof.
  split; [apply unique_keys_finish, unique_keys_polled |].
  split; rewrite finish_get, sourced_other by discriminate;
    apply polled_foreign; discriminate.
Qed.

Lemma forallb_unique_keys (P : reading -> Prop) rs :
  (forall r, P r -> unique_keys r = true) ->
  Forall P rs -> forallb unique_keys rs = true.
Proof.
  intros HP H. apply forallb_forall. intros r Hr.
  rewrite Forall_forall in H. now apply HP, H.
Qed.

(** X13: a windowed read over [num_readings] cycles advances the
    reading counter by the number [k] of cycles in which some driver
    contributed, and changes nothing else of the collector; the record
    it returns has [samples_count] [k]; it carries [error_code] 1
    exactly when [k] is 0 and no [error_code] otherwise. *)
Theorem window_counts (num_readings : nat) (world : nat -> cycle) (now : Q)
    (self : SensorCollector) :
  let k := contributing self (map world (seq 0 num_readings)) in
  exists self' record,
    collect_multiple_readings float_pow num_readings world now self
      = (self', Ret record) /\
    reading_count self' = reading_count self + Z.of_nat k /\
    sensors self' = sensors self /\ init_success self' = init_success self /\
    initialized self' = initialized self /\
    (k <= num_readings)%nat /\
    dget "samples_count" record = Some (VInt (Z.of_nat k)) /\
    dget "error_code" record
      = (if (k =? 0)%nat then Some (VInt 1) else None).
Proof.
  intros k.
  destruct (window_run plain (map world (seq 0 num_readings)) [] self)
    as [s' [rs [Hw [H1 [H2 [H3 [H4 [H5 H6]]]]]]]].
  { intros n w _ _. apply (finish_plain (set_reading_count n self) w). }
  fold k in H4, H5. simpl in Hw.
  unfold collect_multiple_readings, bind. rewrite Hw.
  assert (Hk : (k <= num_readings)%nat).
  { unfold k, contributing.
    eapply Nat.le_trans; [apply filter_length |].
    rewrite length_map, length_seq. lia. }
  destruct rs as [| r rs]; cbn [is_empty].
  - exists s'. eexists. split; [reflexivity |].
    simpl in H5. rewrite <- H5 in *. repeat split; auto; lia.
  - exists s'. eexists. split; [reflexivity |].
    cbn [List.length] in H5. rewrite <- H5 in *.
    assert (Hu : forallb unique_keys (r :: rs) = true)
      by (apply (forallb_unique_keys plain); [now intros x [Hx _] | exact H6]).
    repeat split; auto; try lia.
    + rewrite calculate_averages_get by discriminate.
      rewrite reduced_fields_untouched; [reflexivity | exact Hu |].
      apply field_values_absent.
      eapply Forall_impl; [| exact H6]. now intros x [_ [Hx _]].
    + rewrite calculate_averages_get by discriminate.
      rewrite reduced_fields_untouched; [reflexivity | exact Hu |].
      apply field_values_absent.
      eapply Forall_impl; [| exact H6]. now intros x [_ [_ Hx]].
Qed.

(** X14: when in every cycle of a non-empty window the
    humidity/temperature driver contributes and the pressure driver
    does not, the aggregated record holds a humidity and a temperature,
    holds neither pressure nor altitude, has [temperature_source] 0 and
    counts every cycle as a sample. *)
Theorem pressure_driver_silent (num_readings : nat) (world : nat -> cycle)
    (now : Q) (self : SensorCollector) :
  (0 < num_readings)%nat ->
  (forall i, (i < num_readings)%nat ->
             aht21_contributes self (world i) = true
             /\ bmp280_contributes self (world i) = false) ->
  exists self' record,
    collect_multiple_readings float_pow num_readings world now self
      = (self', Ret record) /\
    dget "pressure" record = None /\ dget "altitude" record = None /\
    dget "temperature_source" record = Some (VInt 0) /\
    dget "humidity" record <> None /\ dget "temperature" record <> None /\
    dget "samples_count" record = Some (VInt (Z.of_nat num_readings)).
Proof.
  intros Hn Hall.
  assert (Hcyc : forall w, In w (map world (seq 0 num_readings)) ->
                           aht21_contributes self w = true
                           /\ bmp280_contributes self w = false).
  { intros w Hin. apply in_map_iff in Hin. destruct Hin as [i [<- Hi]].
    apply in_seq in Hi. apply Hall. lia. }
  destruct (window_run (fun r => humidity_only r /\ plain r)
              (map world (seq 0 num_readings)) [] self)
    as [s' [rs [Hw [_ [_ [_ [_ [H5 H6]]]]]]]].
  { intros n w Hin _. destruct (Hcyc w Hin) as [Ha Hb].
    split; [| apply (finish_plain (set_reading_count n self) w)].
    destruct (finish_fields float_pow w (set_reading_count n self))
      as [_ [Hat [_ [_ Hbf]]]].
    destruct (Hat Ha) as [h [t [_ [Hh [Ht Hs]]]]].
    destruct (Hbf Hb) as [Hp Hal].
    split; [apply unique_keys_finish, unique_keys_polled |].
    repeat split; eauto. }
  assert (Hk : contributing self (map world (seq 0 num_readings)) = num_readings).
  { unfold contributing.
    rewrite forallb_filter_id.
    - now rewrite length_map, length_seq.
    - apply forallb_forall. intros w Hin. destruct (Hcyc w Hin) as [Ha _].
      unfold any_contributes. now rewrite Ha. }
  rewrite Hk in H5. simpl in Hw.
  unfold collect_multiple_readings, bind. rewrite Hw.
  destruct rs as [| r rs]; [simpl in H5; lia |]. cbn [is_empty].
  exists s'. eexists. split; [reflexivity |].
  assert (Hu : forallb unique_keys (r :: rs) = true)
    by (apply (forallb_unique_keys (fun r => humidity_only r /\ plain r));
        [now intros x [[Hx _] _] | exact H6]).
  assert (Hp : field_values "pressure" (r :: rs) = []).
  { apply field_values_absent. eapply Forall_impl; [| exact H6].
    now intros x [[_ [Hx _]] _]. }
  assert (Hlast : humidity_only (last (r :: rs) [])).
  { rewrite Forall_forall in H6.
    apply (H6 (last (r :: rs) [])).
    destruct (exists_last (l := r :: rs) ltac:(discriminate)) as [l' [x E]].
    rewrite E, last_last. apply in_or_app. right. now left. }
  rewrite calculate_averages_eq by discriminate.
  rewrite (reduced_fields_pressure_absent _ now Hu Hp).
  split; [now apply reduced_fields_pressure_absent |]. split.
  { rewrite reduced_fields_untouched; [reflexivity | exact Hu |].
    apply field_values_absent. eapply Forall_impl; [| exact H6].
    now intros x [[_ [_ [Hx _]]] _]. }
  split.
  { rewrite reduced_fields_get; [| exact Hu |].
    - unfold reduced. change (categorical "temperature_source") with true.
      cbv iota. destruct Hlast as [_ [_ [_ [Hs _]]]].
      unfold dget_default.
      match goal with
      | |- context [dget ?k ?d] =>
          replace (dget k d) with (Some (VInt 0)) by (symmetry; exact Hs)
      end.
      reflexivity.
    - apply field_values_present; [discriminate |].
      eapply Forall_impl; [| exact H6].
      intros x [[_ [_ [_ [Hx _]]]] _]. eauto. }
  split.
  { rewrite reduced_fields_get; [discriminate | exact Hu |].
    apply field_values_present; [discriminate |].
    eapply Forall_impl; [| exact H6].
    intros x [[_ [_ [_ [_ [[h Hx] _]]]]] _]. eauto. }
  split.
  { rewrite reduced_fields_get; [discriminate | exact Hu |].
    apply field_values_present; [discriminate |].
    eapply Forall_impl; [| exact H6].
    intros x [[_ [_ [_ [_ [_ [t Hx]]]]]] _]. eauto. }
  rewrite reduced_fields_untouched; [| exact Hu |].
  - transitivity (Some (VInt (Z.of_nat (List.length (r :: rs)))));
      [reflexivity | do 3 f_equal; exact H5].
  - apply field_values_absent. eapply Forall_impl; [| exact H6].
    now intros x [_ [_ [Hx _]]].
Qed.

End Windows.

Lemma pressure_driver_silent_witness :
  exists self' record,
    collect_multiple_readings linear_pow 2 gas_then_silent 2 station
      = (self', Ret record) /\
    dget "pressure" record = None /\ dget "altitude" record = None /\
    dget "temperature_source" record = Some (VInt 0) /\
    dget "humidity" record <> None /\ dget "temperature" record <> None /\
    dget "samples_count" record = Some (VInt (Z.of_nat 2)).
Proof.
  apply (pressure_driver_silent linear_pow 2 gas_then_silent 2 station);
    [lia |].
  intros i _. split; reflexivity.
Defined.

End CollectorWindows.

(** ** Collector: altitude guards and construction *)

Module CollectorSetup.
Import Collector CollectorFacts DoubleFacts.

Lemma round2f_zero (x : Q) : (x == 0)%Q -> round2f x = 0%Q.
Proof.
  intros H. unfold round2f. rewrite (double_of_comp x 0 H). reflexivity.
Qed.

(** X15: [calculate_altitude] returns 0.0 for a pressure that is not
    positive and for a zero reference pressure, without evaluating the
    power; and, provided the power of 1 is 1, it returns 0.0 when the
    pressure equals the reference. *)
Theorem altitude_guards (float_pow : Q -> Q -> Q)
    (pressure_hpa sea_level_pressure : Q) :
  ((pressure_hpa <= 0)%Q ->
   calculate_altitude float_pow pressure_hpa sea_level_pressure = 0%Q) /\
  ((sea_level_pressure == 0)%Q ->
   calculate_altitude float_pow pressure_hpa sea_level_pressure = 0%Q) /\
  ((0 < pressure_hpa)%Q ->
   (forall x, (x == 1)%Q -> (float_pow x 0.1903 == 1)%Q) ->
   calculate_altitude float_pow pressure_hpa pressure_hpa = 0%Q).
Proof.
  unfold calculate_altitude. split; [| split].
  - intros H. apply double_of_nonpos in H. apply Qle_bool_iff in H.
    now rewrite H.
  - intros H. destruct (Qle_bool (double_of pressure_hpa) 0); [reflexivity |].
    now rewrite (double_of_comp sea_level_pressure 0 H).
  - intros Hp Hpow.
    destruct (Qle_bool (double_of pressure_hpa) 0); [reflexivity |].
    destruct (Qeq_bool (double_of pressure_hpa) 0) eqn:E2; [reflexivity |].
    assert (Hnz : ~ (double_of pressure_hpa == 0)%Q).
    { intros H0. apply Qeq_bool_iff in H0. congruence. }
    assert (Hd : fdiv pressure_hpa pressure_hpa = double_of 1).
    { unfold fdiv. apply double_of_comp. now apply Qmult_inv_r. }
    assert (Hs : fsub 1 (float_pow (fdiv pressure_hpa pressure_hpa) 0.1903%Q)
                 = double_of 0).
    { unfold fsub.
      rewrite (double_of_comp
                 (float_pow (fdiv pressure_hpa pressure_hpa) 0.1903%Q) 1)
        by (apply Hpow; rewrite Hd; reflexivity).
      reflexivity. }
    rewrite Hs. reflexivity.
Qed.

Lemma altitude_guards_witness :
  calculate_altitude linear_pow 0 1013.25 = 0%Q /\
  calculate_altitude linear_pow 1013.25 0 = 0%Q /\
  calculate_altitude linear_pow 1013.25 1013.25 = 0%Q.
Proof.
  split; [| split].
  - apply (proj1 (altitude_guards linear_pow 0 1013.25)). discriminate.
  - apply (proj1 (proj2 (altitude_guards linear_pow 1013.25 0))). reflexivity.
  - apply (proj2 (proj2 (altitude_guards linear_pow 1013.25 1013.25)));
      [reflexivity | intros x Hx; exact Hx].
Defined.

Lemma compensate_length w : forall remaining attempt calls,
  (List.length (compensate w attempt remaining calls)
   <= List.length calls + remaining)%nat.
Proof.
  induction remaining as [| r IH]; intros attempt calls; simpl; [lia |].
  destruct (aht21_probe w attempt) as [[[h |] [t |]] | e];
    try (eapply Nat.le_trans; [apply IH | lia]); try lia.
  destruct (set_environment_result w attempt) as [[|] | e];
    try (rewrite length_app; simpl; lia).
  eapply Nat.le_trans; [apply IH |]. rewrite length_app. simpl. lia.
Qed.

(** X16: construction records each driver on its own: a driver is
    flagged, and registered, exactly when its constructor returned (the
    pressure driver at either address); the counter starts at 0; the
    collector is initialised exactly when some driver is flagged.
    [set_environment] is called at most 3 times, and only when both the
    humidity/temperature and the gas-index driver were constructed.  A
    collector left uninitialised answers every windowed read with the
    empty-window record. *)
Theorem construction_outcome (w : init_world) :
  let self := fst (__init__ w) in
  let calls := snd (__init__ w) in
  init_success self
    = mkFlags (bmp280_new_76 w || bmp280_new_77 w) (mq2_new w) (ens160_new w)
        (aht21_new w) /\
  sensors self = init_success self /\
  reading_count self = 0 /\
  initialized self
    = (aht21_new w || (bmp280_new_76 w || bmp280_new_77 w)
       || ens160_new w || mq2_new w) /\
  (List.length calls <= 3)%nat /\
  (calls <> [] -> aht21_new w = true /\ ens160_new w = true) /\
  (initialized self = false ->
   forall float_pow num_readings world now,
     collect_multiple_readings float_pow num_readings world now self
       = (self, Ret (empty_window now))).
Proof.
  intros self calls. subst self calls.
  pose proof (compensate_length w 3 0 []) as Hc. simpl in Hc.
  unfold __init__, _init_all_sensors.
  destruct (aht21_new w), (bmp280_new_76 w), (bmp280_new_77 w),
    (ens160_new w), (mq2_new w); cbn -[compensate];
    repeat split; auto; try discriminate; try lia;
    try (intros H; now elim H).
  intros _ float_pow num_readings world now.
  apply window_without_fields. intros i _. reflexivity.
Qed.

End CollectorSetup.

(** ** Alarm actuator: stopping and the auto-off *)

Module BuzzerCycle.
Import Buzzer BuzzerFacts.

Lemma update_idem {A} (f : A -> A) (l : list A) : forall i,
  (forall t, f (f t) = f t) -> update i f (update i f l) = update i f l.
Proof.
  induction l as [| x l IH]; intros [| i] H; simpl; auto.
  - now rewrite H.
  - now rewrite IH.
Qed.

Lemma cancel_idem t : cancel (cancel t) = cancel t.
Proof. unfold cancel. destruct t as [d []]; reflexivity. Qed.

(** X17: [stop_buzzing] is idempotent, in any state: a second call
    changes nothing; after it the buzzer is silent, and the pin is HIGH
    if the buzzer was sounding. *)
Theorem stop_is_idempotent (self : BuzzerController) :
  stop_buzzing (stop_buzzing self) = stop_buzzing self /\
  buzzing (stop_buzzing self) = false /\
  (buzzing self = true -> pin (stop_buzzing self) = HIGH).
Proof.
  split; [| split].
  - rewrite (stop_buzzing_eq (stop_buzzing self)).
    rewrite (stop_buzzing_eq self). simpl.
    destruct (timer self) as [i |]; [| reflexivity].
    now rewrite update_idem by apply cancel_idem.
  - apply buzzing_stop.
  - intros H. rewrite stop_buzzing_eq. simpl. now rewrite H.
Qed.

Lemma pin_follows_step e self :
  atomic e = true -> pin_follows self -> pin_follows (step self e).
Proof.
  unfold pin_follows. intros Ha H.
  destruct e as [d | | dt | i | i | i | i]; try discriminate Ha; cbn [step].
  - rewrite start_buzzing_eq. simpl. tauto.
  - rewrite stop_buzzing_eq. simpl.
    destruct (buzzing self); split; try discriminate.
    intros Hp. now apply H.
  - now destruct (Qle_bool 0 dt).
  - destruct (due i self); [| exact H].
    rewrite fire_eq. simpl.
    destruct (buzzing self); split; try discriminate.
    intros Hp. now apply H.
Qed.

Lemma pin_follows_run es : forall self,
  forallb atomic es = true -> pin_follows self -> pin_follows (run es self).
Proof.
  unfold run. induction es as [| e es IH]; intros self Ha H; [exact H |].
  simpl in Ha. apply andb_true_iff in Ha. destruct Ha as [He Ha].
  simpl. apply IH; [exact Ha |]. now apply pin_follows_step.
Qed.

(** X18: in every state the controller reaches from its construction
    when no call falls inside a timer's run (calls, time passing and
    whole timer runs), the pin is LOW exactly when the buzzer is flagged
    as sounding, and that is exactly when a timer is waiting; the
    waiting timer is then the one [self.timer] refers to, so at most one
    timer waits. *)
Theorem sounding_iff_timer_waits (t0 : Q) (es : list event) :
  forallb atomic es = true ->
  let self := run es (init t0) in
  (pin self = LOW <-> buzzing self = true) /\
  (buzzing self = true <->
   exists i t, nth_error (timers self) i = Some t /\ tstate t = Waiting) /\
  (forall i t, nth_error (timers self) i = Some t -> tstate t = Waiting ->
               timer self = Some i).
Proof.
  intros Hat self.
  assert (HI : Inv self) by (apply Inv_run; [exact Hat | apply Inv_init]).
  destruct HI as [Ha Hc]. split; [| split].
  - apply pin_follows_run; [exact Hat |]. unfold pin_follows, init. simpl.
    split; discriminate.
  - split.
    + intros Hb. destruct (Hc Hb) as [i [t [_ [Hi Hw]]]]. eauto.
    + intros [i [t [Hi Hw]]]. now destruct (Ha i t Hi Hw).
  - intros i t Hi Hw. now destruct (Ha i t Hi Hw).
Qed.

Lemma sounding_iff_timer_waits_witness :
  let self := run [Start 60; Elapse 20; Start 60; Elapse 60; Expire 1] (init 0) in
  (pin self = LOW <-> buzzing self = true) /\
  (buzzing self = true <->
   exists i t, nth_error (timers self) i = Some t /\ tstate t = Waiting) /\
  (forall i t, nth_error (timers self) i = Some t -> tstate t = Waiting ->
               timer self = Some i).
Proof.
  exact (sounding_iff_timer_waits 0
           [Start 60; Elapse 20; Start 60; Elapse 60; Expire 1] eq_refl).
Defined.





End BuzzerCycle.

(** ** Pressure driver: a successful read *)

Module BMP280Read.
Import Bus BMP280 BMP280Facts BMP280Registers DoubleFacts.

(** X20: on an acknowledged burst of 6 bytes whose temperature sample
    gives a non-zero first-stage divisor, [read] stores the fine
    temperature of that sample and returns
    [round(((t_fine*5+128) >> 8) / 100.0, 2)] and
    [round(p_fixed / 25600.0, 2)], where [p_fixed] is computed with the
    fine temperature just stored: each quotient is the double the
    division yields, and [round] takes the decimal nearest to that
    double.  The two integers are within 2 ** 53, which a float holds
    exactly. *)
Theorem read_decodes_and_compensates (self : SimpleBMP280)
    (d0 d1 d2 d3 d4 d5 : Z) (rest : list txn) :
  is_byte d0 -> is_byte d1 -> is_byte d2 ->
  is_byte d3 -> is_byte d4 -> is_byte d5 ->
  script (bus self) = Ack [d0; d1; d2; d3; d4; d5] :: rest ->
  let press_raw := d0 * 4096 + d1 * 16 + d2 / 16 in
  let temp_raw := d3 * 4096 + d4 * 16 + d5 / 16 in
  let self' :=
    set_t_fine (t_fine_of self temp_raw)
      (set_bus (mkSMBus rest (written (bus self))) self) in
  first_stage_divisor self' <> 0 ->
  Z.abs (Z.shiftr (t_fine self' * 5 + 128) 8) <= 2 ^ 53 ->
  Z.abs (p_fixed self' press_raw) <= 2 ^ 53 ->
  let temperature :=
    double_of (inject_Z (Z.shiftr (t_fine self' * 5 + 128) 8) / 100) in
  let pressure := double_of (inject_Z (p_fixed self' press_raw) / 25600) in
  read self =
    (self',
     Ret (Some (Qred (inject_Z (round_half_even (temperature * 100)) / 100)),
          Some (Qred (inject_Z (round_half_even (pressure * 100)) / 100)))).
Proof.
  intros H0 H1 H2 H3 H4 H5 Hs press_raw temp_raw self' Hd _ _
    temperature pressure.
  unfold read, try_except, read_body, bind.
  rewrite (raw_samples self d0 d1 d2 d3 d4 d5 rest H0 H1 H2 H3 H4 H5 Hs).
  fold press_raw temp_raw.
  rewrite compensate_temperature_eq.
  change (set_t_fine
            (t_fine_of (set_bus (mkSMBus rest (written (bus self))) self)
               temp_raw)
            (set_bus (mkSMBus rest (written (bus self))) self))
    with self'.
  rewrite (compensate_pressure_nonzero self' press_raw Hd).
  unfold ret, round2f, temperature, pressure.
  rewrite !double_of_Qred. reflexivity.
Qed.

(** On the datasheet's calibration the burst 65 44 F0 7E ED 00 gives
    p_fixed = 25782656: the quotient by 25600.0 is the double
    1007.1349999999999, below the tie 1007.135, and rounds to 1007.13. *)
Lemma read_decodes_and_compensates_witness :
  p_fixed (set_t_fine 128422 (datasheet (mkSMBus [] []))) 414799 = 25782656 /\
  read (datasheet (mkSMBus [Ack burst_tie] []))
    = (set_t_fine 128422 (datasheet (mkSMBus [] [])),
       Ret (Some (627 # 25)%Q, Some (100713 # 100)%Q)).
Proof.
  split; [reflexivity |].
  exact (read_decodes_and_compensates (datasheet (mkSMBus [Ack burst_tie] []))
           0x65 0x44 0xF0 0x7E 0xED 0x00 []
           ltac:(unfold is_byte; lia) ltac:(unfold is_byte; lia)
           ltac:(unfold is_byte; lia) ltac:(unfold is_byte; lia)
           ltac:(unfold is_byte; lia) ltac:(unfold is_byte; lia)
           eq_refl ltac:(vm_compute; discriminate)
           ltac:(vm_compute; discriminate) ltac:(vm_compute; discriminate)).
Defined.

End BMP280Read.

(** ** Collector: the metadata of an aggregated record *)

Module CollectorMetadata.
Import Collector DictFacts CollectorFacts CollectorReadings CollectorWindows.

Section Metadata.
Variable float_pow : Q -> Q -> Q.

Lemma window_readings_of cycles : forall acc self,
  snd (window float_pow cycles acc self)
  = Ret (acc ++ readings_of float_pow self cycles).
Proof.
  induction cycles as [| w rest IH]; intros acc self.
  - simpl. now rewrite app_nil_r.
  - rewrite window_cons. cbn [readings_of].
    destruct (any_contributes self w).
    + rewrite IH, <- app_assoc. reflexivity.
    + apply IH.
Qed.

Lemma unique_keys_readings_of cycles : forall self,
  forallb unique_keys (readings_of float_pow self cycles) = true.
Proof.
  induction cycles as [| w rest IH]; intros self; [reflexivity |].
  cbn [readings_of]. destruct (any_contributes self w); [| apply IH].
  cbn [forallb]. rewrite IH, andb_true_r.
  apply unique_keys_finish, unique_keys_polled.
Qed.

Lemma counters_cons first k :
  counters first (S k) = VInt first :: counters (first + 1) k.
Proof.
  unfold counters. cbn [seq map]. rewrite Z.add_0_r. f_equal.
  rewrite <- seq_shift, map_map. apply map_ext. intros j.
  f_equal. lia.
Qed.

Lemma field_values_metadata cycles : forall self,
  field_values "timestamp" (readings_of float_pow self cycles)
    = clocks self cycles /\
  field_values "reading_count" (readings_of float_pow self cycles)
    = counters (reading_count self) (contributing self cycles).
Proof.
  induction cycles as [| w rest IH]; intros self; [split; reflexivity |].
  unfold clocks, contributing. cbn [readings_of filter].
  destruct (any_contributes self w) eqn:E.
  - destruct (IH (set_reading_count (reading_count self + 1) self))
      as [IH1 IH2].
    destruct (finish_fields float_pow w self) as [[_ [_ [Ht [Hc _]]]] _].
    rewrite !field_values_cons. unfold numeric_at. rewrite Ht, Hc.
    cbn [is_number app map List.length]. rewrite counters_cons.
    split; f_equal; assumption.
  - apply IH.
Qed.

(** X21: the [timestamp] of an aggregated record is not the time of
    the aggregation: like every numeric field of the readings it is
    averaged, so it is the mean of the clocks of the contributing
    cycles; and its [reading_count] is the mean of the counter values
    of its readings (both rounded to 2 decimals). *)
Theorem metadata_is_averaged (num_readings : nat) (world : nat -> cycle)
    (now : Q) (self : SensorCollector) :
  let cycles := map world (seq 0 num_readings) in
  contributing self cycles <> 0%nat ->
  exists record,
    snd (collect_multiple_readings float_pow num_readings world now self)
      = Ret record /\
    dget "timestamp" record = Some (round2 (mean (clocks self cycles))) /\
    dget "reading_count" record
      = Some (round2 (mean (counters (reading_count self)
                              (contributing self cycles)))).
Proof.
  intros cycles Hk.
  pose proof (window_readings_of cycles [] self) as Hw. simpl in Hw.
  destruct (field_values_metadata cycles self) as [Ht Hc].
  pose proof (unique_keys_readings_of cycles self) as Hu.
  unfold collect_multiple_readings, bind. fold cycles.
  destruct (window float_pow cycles [] self) as [s' r]. simpl in Hw. subst r.
  assert (Hne : clocks self cycles <> []).
  { unfold clocks. intros E. apply map_eq_nil in E.
    apply Hk. unfold contributing. now rewrite E. }
  assert (Hnc : counters (reading_count self) (contributing self cycles) <> []).
  { unfold counters. intros E. apply map_eq_nil in E.
    destruct (contributing self cycles); [now apply Hk | discriminate]. }
  destruct (readings_of float_pow self cycles) as [| r rs] eqn:Er.
  { simpl in Ht. now elim Hne. }
  cbn [is_empty]. eexists. split; [reflexivity |].
  rewrite !calculate_averages_get by discriminate.
  rewrite !reduced_fields_get by (try exact Hu; congruence).
  rewrite Ht, Hc. split; reflexivity.
Qed.

End Metadata.

(** Two readings at the clocks 1762200970.935907 and
    1762200971.3540933: the timestamp of the record is 1762200971.14,
    whatever the clock of the aggregation. *)
Lemma metadata_is_averaged_witness :
  exists record,
    snd (collect_multiple_readings linear_pow 2 timed 1762200972 station)
      = Ret record /\
    dget "timestamp" record = Some (VFloat (88110048557 # 50)) /\
    dget "reading_count" record = Some (VFloat (1 # 2)).
Proof.
  destruct (metadata_is_averaged linear_pow 2 timed 1762200972 station
              ltac:(discriminate)) as [record [Hr [Ht Hc]]].
  exists record. split; [exact Hr |]. split; [exact Ht | exact Hc].
Defined.

End CollectorMetadata.
